(** * The DFARS / NDAA pipeline: a shallow embedding of its five stages

    Stages (one Python script each):
    - [Tracker]   parse_tracker.py               PDF table rows to tracker rows
    - [Resolver]  fetch_citation.py              citation and date to a document
    - [Fetcher]   download_fr_htmls.py           document URLs to cached files
    - [Extractor] extract_dfars_sections_ndaa.py cached HTML to section rows
    - [Joiner]    add_ndaa_text.py               (year, section) to statute text

    Conventions of the embedding.
    - A Python [str] is a [string]; one [ascii] stands for one code point
      below 256, so the whitespace class of [str.strip] and of the regex
      class \s is the one Python has on that range.
    - Python [int] is [Z].
    - A pandas cell is a [cell]: a string or NaN.
    - Exceptions that the scripts leave uncaught are results [Raise e].
    - The outside world (the Federal Register API, the web server, the file
      cache, the statute JSON library, the URL splitter of urllib) is a
      Section variable of the stage that talks to it. *)

From Stdlib Require Import ZArith Ascii String List Lia Bool DecimalString.
From stdpp Require Import base option list gmap strings sorting.

Local Open Scope Z_scope.

(* ================================================================== *)
(** * Python strings *)
(* ================================================================== *)

Module PyStr.

Definition code (c : ascii) : N := N_of_ascii c.

(** [str.isspace] on one code point below 256: TAB..CR, FS..US, SPACE,
    NEL (0x85) and NBSP (0xA0). *)
Definition is_space (c : ascii) : bool :=
  let n := code c in
  ((9 <=? n) && (n <=? 13) || (28 <=? n) && (n <=? 32)
   || (n =? 133) || (n =? 160))%N.

(** The regex class \d and [int]'s digits on that range: 0..9 only. *)
Definition is_digit (c : ascii) : bool :=
  let n := code c in ((48 <=? n) && (n <=? 57))%N.

Definition digit_val (c : ascii) : Z := Z.of_N (code c) - 48.

Definition digit_char (k : Z) : ascii := ascii_of_N (Z.to_N (48 + k)).

Definition is_empty (s : string) : bool :=
  match s with EmptyString => true | String _ _ => false end.

(** [s.lstrip(chars)] and [s.rstrip(chars)] for a class of characters. *)
Fixpoint lstrip_by (p : ascii -> bool) (s : string) : string :=
  match s with
  | EmptyString => EmptyString
  | String c s' => if p c then lstrip_by p s' else s
  end.

Fixpoint rstrip_by (p : ascii -> bool) (s : string) : string :=
  match s with
  | EmptyString => EmptyString
  | String c s' =>
      match rstrip_by p s' with
      | EmptyString => if p c then EmptyString else String c EmptyString
      | r => String c r
      end
  end.

(** [s.strip()] *)
Definition strip (s : string) : string := lstrip_by is_space (rstrip_by is_space s).

(** [s.replace(old, new)] for a non-empty [old] (every call of the
    scripts passes a non-empty literal): leftmost matches, not
    overlapping.  [skip] counts the characters of a match still to drop. *)
Fixpoint replace_from (old new : string) (skip : nat) (s : string) : string :=
  match s with
  | EmptyString => EmptyString
  | String c s' =>
      match skip with
      | S k => replace_from old new k s'
      | O =>
          if String.prefix old s
          then new +:+ replace_from old new (pred (String.length old)) s'
          else String c (replace_from old new O s')
      end
  end.

Definition replace (old new s : string) : string := replace_from old new O s.

(** [s.split(sep)] for a non-empty [sep]; [cur] is the piece being read. *)
Fixpoint split_from (sep : string) (skip : nat) (cur s : string) : list string :=
  match s with
  | EmptyString => [cur]
  | String c s' =>
      match skip with
      | S k => split_from sep k cur s'
      | O =>
          if String.prefix sep s
          then cur :: split_from sep (pred (String.length sep)) EmptyString s'
          else split_from sep O (cur +:+ String c EmptyString) s'
      end
  end.

Definition split (sep s : string) : list string := split_from sep O EmptyString s.

(** [sep.join(l)] *)
Definition join (sep : string) (l : list string) : string := String.concat sep l.

(** [needle in hay] *)
Fixpoint contains (needle hay : string) : bool :=
  String.prefix needle hay
  || match hay with
     | EmptyString => false
     | String _ hay' => contains needle hay'
     end.

(** [x in (a, b, ...)] on strings *)
Definition mem (x : string) (l : list string) : bool :=
  existsb (String.eqb x) l.

(** [[t.strip() for t in s.split(sep) if t.strip()]] *)
Definition stripped_pieces (sep s : string) : list string :=
  filter (fun t => is_empty t = false) (map strip (split sep s)).

(** [int(ds)] on a string of digits. *)
Definition int_of_digits (ds : string) : Z :=
  fold_left (fun acc c => 10 * acc + digit_val c) (list_ascii_of_string ds) 0.

(** The longest prefix of digits, as the greedy \d* reads it, and the rest. *)
Fixpoint span_digits (s : string) : string * string :=
  match s with
  | EmptyString => (EmptyString, EmptyString)
  | String c s' =>
      if is_digit c
      then let '(ds, r) := span_digits s' in (String c ds, r)
      else (EmptyString, s)
  end.

Definition all_digits (s : string) : bool :=
  forallb is_digit (list_ascii_of_string s).

Definition starts_with_digit (s : string) : bool :=
  match s with
  | EmptyString => false
  | String c _ => is_digit c
  end.

(** [str(n)] for an integer. *)
Definition str_of_Z (n : Z) : string := NilZero.string_of_int (Z.to_int n).

Definition nl : string := String (ascii_of_nat 10) EmptyString.

(** Some character of [s] is in the class [p]. *)
Definition has_char (p : ascii -> bool) (s : string) : bool :=
  existsb p (list_ascii_of_string s).

Definition is_newline (c : ascii) : bool := (code c =? 10)%N.

End PyStr.

Import PyStr.

(** Uncaught Python exceptions. *)
Inductive exn : Type :=
| IndexError
| ValueError.

Inductive res (A : Type) : Type :=
| Ok (a : A)
| Raise (e : exn).
Arguments Ok {A} a.
Arguments Raise {A} e.

Definition res_bind {A B} (r : res A) (k : A -> res B) : res B :=
  match r with
  | Ok a => k a
  | Raise e => Raise e
  end.

Notation "x <-! r ;; k" := (res_bind r (fun x => k))
  (at level 100, r at next level, right associativity).

(** A pandas cell of an object column. *)
Inductive cell : Type :=
| NaN
| Str (s : string).

(** [pd.isna(c)] and [str(c)] *)
Definition isna (c : cell) : bool :=
  match c with NaN => true | Str _ => false end.

Definition py_str (c : cell) : string :=
  match c with NaN => "nan" | Str s => s end.

(* ================================================================== *)
(** * Stage 1: the tracker parser (parse_tracker.py) *)
(* ================================================================== *)

Module Tracker.

Record TrackerRow := {
  ndaa_year : string;
  ndaa_section : string;
  paragraph : string;
  section_title : string;
  status : string;
  case_number : string;
  frn_citation : string;
  fr_date : string
}.

(** A cell of a pdfplumber table is a string or [None]. *)
Definition pdf_row := list (option string).
Definition pdf_table := list pdf_row.
Definition pdf_page := list pdf_table.

(** [(row[i] or "")] *)
Definition cell_or_empty (row : pdf_row) (i : nat) : string :=
  match row !! i with
  | Some (Some s) => s
  | _ => EmptyString
  end.

(** The body of the loop over the rows of a table: [None] is [continue]
    or a row without a final-rule citation, [Some r] is [results.append]. *)
Definition process_row (row : pdf_row) : option TrackerRow :=
  if (length row <? 17)%nat then None else
  let ndaa_year := replace nl " " (strip (cell_or_empty row 0)) in
  let ndaa_section := replace nl " " (strip (cell_or_empty row 1)) in
  let para := strip (cell_or_empty row 2) in
  let section_title := strip (cell_or_empty row 3) in
  let status := strip (cell_or_empty row 4) in
  let case_number := replace nl nl (strip (cell_or_empty row 9)) in
  let final_rule_frn := strip (cell_or_empty row 14) in
  let final_rule_date := strip (cell_or_empty row 15) in
  let ndaa_year := replace "FY " "FY" ndaa_year in
  if mem ndaa_year ["NDAA Year"; "Column 1"; "Column1"; ""]
     || mem ndaa_section ["NDAA Section"; "Column2"; ""]
     || mem final_rule_frn ["FRN Citation"; "Column15"; "Final Rule"]
  then None
  else if is_empty final_rule_frn then None
  else Some {| ndaa_year := ndaa_year;
               ndaa_section := ndaa_section;
               paragraph := para;
               section_title := replace nl " " section_title;
               status := status;
               case_number := case_number;
               frn_citation := final_rule_frn;
               fr_date := final_rule_date |}.

(** [extract_final_rule_citations]: pages, their tables, their rows.  A
    page without tables contributes nothing either way. *)
Definition extract_final_rule_citations (pdf : list pdf_page) : list TrackerRow :=
  omap process_row (concat (concat pdf)).

(** Two table rows for the examples: one without a year, one complete. *)
Definition blank_year_row : pdf_row :=
  Some " " :: replicate 16 (Some "88 FR 73238").

Definition complete_row : pdf_row :=
  [Some "FY 24"; Some "831"; None; Some "Title"; Some "Closed"; None; None;
   None; None; Some "2024-D001"; None; None; None; None; Some "88 FR 73238";
   Some "12/26/23"; None].

Definition complete_row_parsed : TrackerRow :=
  {| ndaa_year := "FY24"; ndaa_section := "831"; paragraph := "";
     section_title := "Title"; status := "Closed"; case_number := "2024-D001";
     frn_citation := "88 FR 73238"; fr_date := "12/26/23" |}.

End Tracker.

(* ================================================================== *)
(** * Stage 2: the citation resolver (fetch_citation.py) *)
(* ================================================================== *)

Module Resolver.

(** ** [datetime.strptime] on the two formats, [strftime] on the third

    The standard library turns a format into a regular expression, one
    named group per directive, and matches it at the start of the text:
    %m is 1[0-2]|0[1-9]|[1-9], %d is 3[0-1]|[1-2]\d|0[1-9]|[1-9]| [1-9],
    %y is \d\d and %Y is \d\d\d\d.  A group matcher below returns, in the
    order of its alternatives, every way to read the group at the head of
    the text, as (captured, rest); sequencing in the list monad is the
    backtracking of the regex engine and the head of the result is the
    match it reports. *)

Definition in_range (lo hi c : ascii) : bool :=
  ((code lo <=? code c) && (code c <=? code hi))%N.

Definition one_char (p : ascii -> bool) (s : string) : list (string * string) :=
  match s with
  | String c r => if p c then [(String c EmptyString, r)] else []
  | EmptyString => []
  end.

Definition two_chars (p q : ascii -> bool) (s : string) : list (string * string) :=
  match s with
  | String c (String c' r) =>
      if p c && q c' then [(String c (String c' EmptyString), r)] else []
  | _ => []
  end.

Definition is_char (a c : ascii) : bool := (code a =? code c)%N.

Definition re_m (s : string) : list (string * string) :=
  two_chars (is_char "1") (in_range "0" "2") s
  ++ two_chars (is_char "0") (in_range "1" "9") s
  ++ one_char (in_range "1" "9") s.

Definition re_d (s : string) : list (string * string) :=
  two_chars (is_char "3") (in_range "0" "1") s
  ++ two_chars (in_range "1" "2") is_digit s
  ++ two_chars (is_char "0") (in_range "1" "9") s
  ++ one_char (in_range "1" "9") s
  ++ two_chars (is_char " ") (in_range "1" "9") s.

Definition re_y (s : string) : list (string * string) :=
  two_chars is_digit is_digit s.

Definition re_Y (s : string) : list (string * string) :=
  '(a, r) ← two_chars is_digit is_digit s;
  '(b, r') ← two_chars is_digit is_digit r;
  [(a +:+ b, r')].

Definition re_slash (s : string) : list string :=
  match s with
  | String c r => if is_char "/" c then [r] else []
  | EmptyString => []
  end.

(** %m and the slash after it; %d and the slash after it. *)
Definition re_m_slash (s : string) : list (string * string) :=
  '(m, r1) ← re_m s;
  r2 ← re_slash r1;
  [(m, r2)].

Definition re_d_slash (s : string) : list (string * string) :=
  '(d, r3) ← re_d s;
  r4 ← re_slash r3;
  [(d, r4)].

(** The regex of "%m/%d/<year>", all its matches in priority order. *)
Definition re_mdy (re_year : string -> list (string * string)) (s : string)
  : list (string * string * string * string) :=
  '(m, r2) ← re_m_slash s;
  '(d, r4) ← re_d_slash r2;
  '(y, r5) ← re_year r4;
  [(m, d, y, r5)].

(** [int(s)]: surrounding whitespace is dropped, as for the day " 5". *)
Definition py_int (s : string) : Z := int_of_digits (strip s).

Definition is_leap (y : Z) : bool :=
  (y mod 4 =? 0) && (negb (y mod 100 =? 0) || (y mod 400 =? 0)).

Definition days_in_month (y m : Z) : Z :=
  if m =? 2 then (if is_leap y then 29 else 28)
  else if (m =? 4) || (m =? 6) || (m =? 9) || (m =? 11) then 30
  else 31.

(** What [datetime.date(y, m, d)] accepts. *)
Definition valid_date (y m d : Z) : bool :=
  (1 <=? y) && (y <=? 9999) && (1 <=? m) && (m <=? 12)
  && (1 <=? d) && (d <=? days_in_month y m).

(** The two-digit year of %y: 00..68 are 2000..2068, 69..99 are 1969..1999. *)
Definition century (yy : Z) : Z := if yy <=? 68 then 2000 + yy else 1900 + yy.

(** [datetime.strptime(s, fmt)] for fmt "%m/%d/%y" ([four] false) and
    "%m/%d/%Y" ([four] true); [None] is ValueError: no match, unconverted
    data after the match, or a day the month does not have. *)
Definition strptime (four : bool) (s : string) : option (Z * Z * Z) :=
  match head (re_mdy (if four then re_Y else re_y) s) with
  | None => None
  | Some (m, d, y, rest) =>
      if is_empty rest then
        let year := if four then py_int y else century (py_int y) in
        let month := py_int m in
        let day := py_int d in
        if valid_date year month day then Some (year, month, day) else None
      else None
  end.

(** Decimal digits of a number below 10 ^ width, zero-padded. *)
Fixpoint zero_pad (width : nat) (n : Z) : string :=
  match width with
  | O => EmptyString
  | S w => zero_pad w (n / 10) +:+ String (digit_char (n mod 10)) EmptyString
  end.

(** [strftime("%Y-%m-%d")], with the four-digit year of the documentation. *)
Definition strftime (ymd : Z * Z * Z) : string :=
  let '(y, m, d) := ymd in
  zero_pad 4 y +:+ "-" +:+ zero_pad 2 m +:+ "-" +:+ zero_pad 2 d.

(** [parse_fr_date]: the two formats in turn, the first that parses wins. *)
Definition parse_fr_date (date_str : string) : option string :=
  let date_str := strip date_str in
  match strptime false date_str with
  | Some d => Some (strftime d)
  | None =>
      match strptime true date_str with
      | Some d => Some (strftime d)
      | None => None
      end
  end.

(** ** The format the docstring and the spec name, read to the letter:
    two digits, a slash, two digits, a slash, two or four digits. *)
Definition spec_mmddyy_shape (s : string) : bool :=
  match list_ascii_of_string s with
  | [m1; m2; s1; d1; d2; s2; y1; y2] =>
      is_digit m1 && is_digit m2 && is_char "/" s1 && is_digit d1 && is_digit d2
      && is_char "/" s2 && is_digit y1 && is_digit y2
  | [m1; m2; s1; d1; d2; s2; y1; y2; y3; y4] =>
      is_digit m1 && is_digit m2 && is_char "/" s1 && is_digit d1 && is_digit d2
      && is_char "/" s2 && is_digit y1 && is_digit y2 && is_digit y3 && is_digit y4
  | _ => false
  end.

(** ** The tokens [parse_fr_date] reads, printed from the numbers. *)

(** A month or a day with both digits, or without the leading zero. *)
Definition month_tokens (m : Z) : list string :=
  if m <? 10 then [zero_pad 2 m; zero_pad 1 m] else [zero_pad 2 m].

(** A day: as a month, and below ten also behind a space. *)
Definition day_tokens (d : Z) : list string :=
  if d <? 10 then [zero_pad 2 d; zero_pad 1 d; " " +:+ zero_pad 1 d] else [zero_pad 2 d].

(** A year: four digits, or its last two when it lies in 1969..2068. *)
Definition year_tokens (y : Z) : list string :=
  if (1969 <=? y) && (y <=? 2068) then [zero_pad 2 (y mod 100); zero_pad 4 y] else [zero_pad 4 y].

(** ** The Federal Register API *)

Record fr_doc := {
  title : string;
  document_number : string;
  start_page : option Z;
  body_html_url : option string;
  html_url : string
}.

(** One GET of documents.json: the "results" of the JSON body, or a
    [requests.exceptions.RequestException] (transport failure, HTTP error
    status from [raise_for_status], a body that is not JSON). *)
Inductive api_response :=
| RequestException
| Json (results : list fr_doc).

(** [str(result.get("start_page"))] *)
Definition start_page_str (d : fr_doc) : string :=
  match start_page d with
  | Some n => str_of_Z n
  | None => "None"
  end.

(** [doc.get("body_html_url", "") or doc.get("html_url", "")] *)
Definition doc_url (d : fr_doc) : string :=
  match body_html_url d with
  | Some u => if is_empty u then html_url d else u
  | None => html_url d
  end.

Definition DARS : string := "defense-acquisition-regulations-system".
Definition DOD : string := "defense-department".

Section WithApi.

(** The API as the script sees it: agency and publication date to response. *)
Variable api : string -> string -> api_response.

Definition page_match (page : string) (results : list fr_doc) : option fr_doc :=
  List.find (fun r => String.eqb (start_page_str r) page) results.

(** [fetch_citation_by_date_and_page] *)
Definition fetch_citation_by_date_and_page (citation fr_date : string) : option fr_doc :=
  match split " FR " (strip citation) with
  | [_; p] =>
      let page := strip p in
      match parse_fr_date fr_date with
      | None => None
      | Some iso_date =>
          match api DARS iso_date with
          | RequestException => None
          | Json results =>
              match page_match page results with
              | Some r => Some r
              | None =>
                  match api DOD iso_date with
                  | RequestException => None
                  | Json results' => page_match page results'
                  end
              end
          end
      end
  | _ => None
  end.

(** [while len(individual_dates) < len(individual_citations):
        individual_dates.append(individual_dates[-1])]
    Each turn adds one date, so the loop takes [todo] turns when it starts
    [todo] dates short; [individual_dates[-1]] on an empty list raises. *)
Fixpoint pad_loop (todo : nat) (dates : list string) : res (list string) :=
  match todo with
  | O => Ok dates
  | S k =>
      match last dates with
      | None => Raise IndexError
      | Some d => pad_loop k (dates ++ [d])
      end
  end.

Definition pad_dates (n : nat) (dates : list string) : res (list string) :=
  pad_loop (n - length dates) dates.

(** The dates after the loop, when there is a last date to repeat. *)
Definition padded_dates (n : nat) (dates : list string) : list string :=
  dates ++ replicate (n - length dates) (default EmptyString (last dates)).

(** The title and URL for one citation. *)
Definition resolve_one (cd : string * string) : string * string :=
  match fetch_citation_by_date_and_page cd.1 cd.2 with
  | Some doc => (title doc, doc_url doc)
  | None => ("Not Found", "")
  end.

(** The body of the row loop: the two strings appended to [fr_titles] and
    [fr_html_urls]. *)
Definition resolve_row (citation_cell date_cell : cell) : res (string * string) :=
  if isna citation_cell || is_empty (strip (py_str citation_cell))
  then Ok (EmptyString, EmptyString)
  else
    let citation_cell := strip (py_str citation_cell) in
    let date_cell := strip (py_str date_cell) in
    let individual_citations := stripped_pieces nl citation_cell in
    let individual_dates := stripped_pieces nl date_cell in
    individual_dates <-! pad_dates (length individual_citations) individual_dates ;;
    let resolved := map resolve_one (zip individual_citations individual_dates) in
    Ok (join nl (map fst resolved), join nl (map snd resolved)).

(** The row loop of [__main__]: the two new columns, or the exception
    that leaves the loop. *)
Fixpoint resolve_rows (rows : list (cell * cell)) : res (list string * list string) :=
  match rows with
  | [] => Ok ([], [])
  | (c, d) :: rest =>
      r <-! resolve_row c d ;;
      cols <-! resolve_rows rest ;;
      Ok (r.1 :: cols.1, r.2 :: cols.2)
  end.

End WithApi.

(** An API that knows one document, for the examples. *)
Definition doc_73238 : fr_doc :=
  {| title := "Defense Federal Acquisition Regulation Supplement: Example Rule";
     document_number := "2023-28432";
     start_page := Some 73238;
     body_html_url := Some "https://www.federalregister.gov/documents/full_text/html/2023/12/26/2023-28432.html";
     html_url := "https://www.federalregister.gov/documents/2023/12/26/2023-28432/example-rule" |}.

Definition api_one (agency iso_date : string) : api_response :=
  if String.eqb agency DARS && String.eqb iso_date "2023-12-26"
  then Json [doc_73238] else Json [].

(** The shape YYYY-MM-DD: ten characters, digits around two hyphens. *)
Definition iso_shape (s : string) : bool :=
  match list_ascii_of_string s with
  | [y1; y2; y3; y4; h1; m1; m2; h2; d1; d2] =>
      is_digit y1 && is_digit y2 && is_digit y3 && is_digit y4
      && is_char "-" h1 && is_digit m1 && is_digit m2
      && is_char "-" h2 && is_digit d1 && is_digit d2
  | _ => false
  end.

End Resolver.

(* ================================================================== *)
(** * Paths and URLs, shared by stages 3 and 4 *)
(* ================================================================== *)

Module Paths.

Definition is_slash (c : ascii) : bool := (code c =? 47)%N.

Definition has_slash (s : string) : bool :=
  existsb is_slash (list_ascii_of_string s).

(** [os.path.basename(p)]: what follows the last slash, [p[p.rfind("/")+1:]]. *)
Fixpoint basename (p : string) : string :=
  match p with
  | EmptyString => EmptyString
  | String c p' =>
      if has_slash p' then basename p'
      else if is_slash c then p' else p
  end.

Definition ends_with_slash (p : string) : bool :=
  match last (list_ascii_of_string p) with
  | Some c => is_slash c
  | None => false
  end.

(** [os.path.join(a, b)] on POSIX. *)
Definition path_join (a b : string) : string :=
  if String.prefix "/" b then b
  else if is_empty a || ends_with_slash a then a +:+ b
  else a +:+ "/" +:+ b.

(** [s.split("/")[-1]] *)
Definition last_segment (s : string) : string :=
  default EmptyString (last (split "/" s)).

(** ** An instance of [urlparse(u).path] for the examples

    It follows CPython 3.12's [urllib.parse]: leading C0 controls and
    spaces are dropped, TAB, CR and LF are removed, a scheme is split off
    at the first colon, an authority after "//" runs to the first of "/",
    "?" and "#", then the fragment, the query and, for the schemes that
    have them, the parameters of the last segment are cut off.  An
    authority with a bracket answers [Raise ValueError]: that is urllib's
    answer for an unmatched bracket, and bracketed hosts are not modelled
    further. *)

Definition is_c0_or_space (c : ascii) : bool := (code c <=? 32)%N.
Definition is_tab_cr_lf (c : ascii) : bool :=
  ((code c =? 9) || (code c =? 10) || (code c =? 13))%N.
Definition is_upper (c : ascii) : bool := ((65 <=? code c) && (code c <=? 90))%N.
Definition is_lower (c : ascii) : bool := ((97 <=? code c) && (code c <=? 122))%N.
Definition is_scheme_char (c : ascii) : bool :=
  is_upper c || is_lower c || is_digit c
  || (code c =? 43)%N || (code c =? 45)%N || (code c =? 46)%N.
Definition lower (c : ascii) : ascii :=
  if is_upper c then ascii_of_N (code c + 32) else c.

Definition remove_chars (p : ascii -> bool) (s : string) : string :=
  string_of_list_ascii (filter (fun c => p c = false) (list_ascii_of_string s)).

(** The text before the first character of class [p], and from it on. *)
Fixpoint break_at (p : ascii -> bool) (s : string) : string * string :=
  match s with
  | EmptyString => (EmptyString, EmptyString)
  | String c s' =>
      if p c then (EmptyString, s)
      else let '(a, b) := break_at p s' in (String c a, b)
  end.

Definition uses_params : list string :=
  [""; "ftp"; "hdl"; "prospero"; "http"; "imap"; "https"; "shttp"; "rtsp";
   "rtspu"; "sip"; "sips"; "mms"; "sftp"; "tel"].

(** The scheme, lower-cased, and what follows its colon. *)
Definition split_scheme (url : string) : string * string :=
  match break_at (fun c => (code c =? 58)%N) url with
  | (String c0 pre, String _ rest) =>
      if (is_upper c0 || is_lower c0)
         && forallb is_scheme_char (list_ascii_of_string pre)
      then (string_of_list_ascii (map lower (c0 :: list_ascii_of_string pre)), rest)
      else (EmptyString, url)
  | _ => (EmptyString, url)
  end.

(** [_splitparams]: cut at the first ";" of the last segment. *)
Fixpoint cut_params (p : string) : string :=
  match p with
  | EmptyString => EmptyString
  | String c p' =>
      if has_slash p' then String c (cut_params p')
      else if is_slash c then String c (break_at (fun x => (code x =? 59)%N) p').1
      else (break_at (fun x => (code x =? 59)%N) p).1
  end.

Definition urlparse_path_std (url : string) : res string :=
  let url := lstrip_by is_c0_or_space url in
  let url := remove_chars is_tab_cr_lf url in
  let '(scheme, url) := split_scheme url in
  let after_netloc :=
    match url with
    | String a (String b rest) =>
        if is_slash a && is_slash b
        then
          let '(netloc, r) :=
            break_at (fun c => is_slash c || (code c =? 63)%N || (code c =? 35)%N) rest in
          if existsb (fun c => (code c =? 91)%N || (code c =? 93)%N)
               (list_ascii_of_string netloc)
          then Raise ValueError else Ok r
        else Ok url
    | _ => Ok url
    end in
  url <-! after_netloc ;;
  let url := (break_at (fun c => (code c =? 35)%N) url).1 in
  let url := (break_at (fun c => (code c =? 63)%N) url).1 in
  Ok (if mem scheme uses_params then cut_params url else url).

End Paths.

(* ================================================================== *)
(** * Stage 3: the document fetcher (download_fr_htmls.py) *)
(* ================================================================== *)

Module Fetcher.

Import Paths.

Definition OUTPUT_DIR : string := "./data/fr_cases/html_from_tracker".

(** The disk: regular files by path, with their text. *)
Abbreviation disk := (gmap string string).

(** The counters and effects of the download loop.  [requests] is the
    list of URLs handed to [requests.get], in order. *)
Record run := {
  files : disk;
  success : nat;
  failed : nat;
  requests : list string
}.

Section WithWorld.

(** [urlparse(u).path], or the ValueError urllib raises. *)
Variable urlparse_path : string -> res string.

(** [requests.get(u, timeout=30)] followed by [raise_for_status()]: the
    text of the response, or [None] for any exception. *)
Variable http_get : string -> option string.

(** [url_to_filename] *)
Definition url_to_filename (url : string) : res string :=
  path <-! urlparse_path (strip url) ;;
  Ok (basename path).

(** [download_html]: [True] and the file written, or [False].  Opening a
    path that names a directory fails, inside the [try]. *)
Definition download_html (url filepath : string) (fs : disk) : bool * disk :=
  match http_get (strip url) with
  | None => (false, fs)
  | Some text =>
      if ends_with_slash filepath then (false, fs)
      else (true, <[filepath := text]> fs)
  end.

(** The inner loop over the URLs of one cell. *)
Fixpoint collect_urls (urls : list string) (seen : gset string)
    (download_list : list (string * string))
  : res (gset string * list (string * string)) :=
  match urls with
  | [] => Ok (seen, download_list)
  | url :: rest =>
      if decide (url ∈ seen) then collect_urls rest seen download_list
      else
        filename <-! url_to_filename url ;;
        let filepath := path_join OUTPUT_DIR filename in
        collect_urls rest ({[url]} ∪ seen) (download_list ++ [(url, filepath)])
  end.

(** The loop over the rows of the CSV, on the column fr_body_html_url. *)
Fixpoint collect_rows (cells : list cell) (seen : gset string)
    (download_list : list (string * string))
  : res (gset string * list (string * string)) :=
  match cells with
  | [] => Ok (seen, download_list)
  | url_cell :: rest =>
      if isna url_cell || is_empty (strip (py_str url_cell))
      then collect_rows rest seen download_list
      else
        st <-! collect_urls (stripped_pieces nl (py_str url_cell)) seen download_list ;;
        collect_rows rest st.1 st.2
  end.

Definition download_list_of (cells : list cell) : res (list (string * string)) :=
  st <-! collect_rows cells ∅ [] ;;
  Ok st.2.

(** [os.path.exists(p) and os.path.getsize(p) > 0] *)
Definition exists_nonempty (fs : disk) (p : string) : bool :=
  match fs !! p with
  | Some text => negb (is_empty text)
  | None => false
  end.

(** One turn of the download loop. *)
Definition download_step (st : run) (item : string * string) : run :=
  let '(url, filepath) := item in
  if exists_nonempty (files st) filepath
  then {| files := files st; success := S (success st);
          failed := failed st; requests := requests st |}
  else
    let '(ok, fs') := download_html url filepath (files st) in
    {| files := fs';
       success := if ok then S (success st) else success st;
       failed := if ok then failed st else S (failed st);
       requests := requests st ++ [strip url] |}.

Definition download_all (fs : disk) (download_list : list (string * string)) : run :=
  fold_left download_step download_list
    {| files := fs; success := 0; failed := 0; requests := [] |}.

(** [__main__] *)
Definition fetch_main (cells : list cell) (fs : disk) : res run :=
  download_list <-! download_list_of cells ;;
  Ok (download_all fs download_list).

End WithWorld.

(** A web server that answers every request, for the examples. *)
Definition http_always (url : string) : option string := Some "<html></html>".

Definition url_13863 : string :=
  "https://www.federalregister.gov/documents/full_text/html/2024/06/27/2024-13863.html".

Definition path_13863 : string :=
  "./data/fr_cases/html_from_tracker/2024-13863.html".

(** The URLs the collecting loop reads from one cell. *)
Definition cell_urls (url_cell : cell) : list string :=
  if isna url_cell || is_empty (strip (py_str url_cell)) then []
  else stripped_pieces nl (py_str url_cell).

(** A web server that is down, for the examples. *)
Definition http_down (url : string) : option string := None.

Definition url_28432 : string :=
  "https://www.federalregister.gov/documents/full_text/html/2023/12/26/2023-28432.html".

Definition path_28432 : string :=
  "./data/fr_cases/html_from_tracker/2023-28432.html".

End Fetcher.

(* ================================================================== *)
(** * Stage 4: the section extractor (extract_dfars_sections_ndaa.py) *)
(* ================================================================== *)

Module Extractor.

Import Paths.

(** ** The parsed document

    What BeautifulSoup hands to the script: text nodes and tags with a
    name, the list of their classes, their id and their children. *)
#[warnings="-register-all"]
Inductive node : Type :=
| Text (s : string)
| Tag (name : string) (classes : list string) (id : option string) (children : list node).

Definition children_of (n : node) : list node :=
  match n with
  | Text _ => []
  | Tag _ _ _ ch => ch
  end.

Definition is_Tag (n : node) : bool :=
  match n with Text _ => false | Tag _ _ _ _ => true end.

(** ["c" in n.get("class", [])] on a tag *)
Definition has_class (c : string) (n : node) : bool :=
  match n with
  | Text _ => false
  | Tag _ cls _ _ => mem c cls
  end.

(** The filter of [find_all(name, class_=c)] and [find(name, class_=c)]. *)
Definition is_tag (name c : string) (n : node) : bool :=
  match n with
  | Text _ => false
  | Tag nm cls _ _ => String.eqb nm name && mem c cls
  end.

(** [n.get("id", "")] *)
Definition id_of (n : node) : string :=
  match n with
  | Tag _ _ (Some i) _ => i
  | _ => EmptyString
  end.

(** The nodes below [n], in document order. *)
Fixpoint descendants (n : node) : list node :=
  match n with
  | Text _ => []
  | Tag _ _ _ ch =>
      (fix go (l : list node) : list node :=
         match l with
         | [] => []
         | c :: cs => c :: descendants c ++ go cs
         end) ch
  end.

(** A forest in document order. *)
Fixpoint flat_forest (l : list node) : list node :=
  match l with
  | [] => []
  | c :: cs => c :: descendants c ++ flat_forest cs
  end.

(** [n.find(name, class_=c)] *)
Definition find_in (name c : string) (n : node) : option node :=
  head (filter (fun x => is_tag name c x = true) (descendants n)).

(** The strings below [n], in document order. *)
Fixpoint strings_of (n : node) : list string :=
  match n with
  | Text s => [s]
  | Tag _ _ _ ch =>
      (fix go (l : list node) : list string :=
         match l with
         | [] => []
         | c :: cs => strings_of c ++ go cs
         end) ch
  end.

(** [n.get_text()] *)
Definition get_text (n : node) : string := join EmptyString (strings_of n).

(** [n.get_text(separator=" ", strip=True)] *)
Definition get_text_sep (n : node) : string :=
  join " " (filter (fun t => is_empty t = false) (map strip (strings_of n))).

(** A node where it stands: the siblings before it, nearest first
    ([previous_siblings]), and every node after its start in document
    order ([next_elements]), its own descendants first. *)
Record occ := {
  here : node;
  prev_sibs : list node;
  nexts : list node
}.

Fixpoint occs_node (prev after : list node) (n : node) {struct n} : list occ :=
  match n with
  | Text _ => [{| here := n; prev_sibs := prev; nexts := after |}]
  | Tag _ _ _ ch =>
      {| here := n; prev_sibs := prev; nexts := flat_forest ch ++ after |}
      :: (fix go (prev' l : list node) {struct l} : list occ :=
            match l with
            | [] => []
            | c :: cs =>
                occs_node prev' (flat_forest cs ++ after) c ++ go (c :: prev') cs
            end) [] ch
  end.

Fixpoint occs_forest (prev after l : list node) : list occ :=
  match l with
  | [] => []
  | c :: cs =>
      occs_node prev (flat_forest cs ++ after) c ++ occs_forest (c :: prev) after cs
  end.

(** [soup.find_all("div", class_="section")], each div where it stands. *)
Definition section_divs (doc : list node) : list occ :=
  filter (fun o => is_tag "div" "section" (here o) = true) (occs_forest [] [] doc).

(** [section_div.find_all_next("p", class_="amendment-part")] *)
Definition amendment_parts_after (o : occ) : list node :=
  filter (fun x => is_tag "p" "amendment-part" x = true) (nexts o).

(** [_get_amendment_instruction]: the nearest earlier sibling of class
    amendment-part with a text. *)
Fixpoint first_instruction_before (sibs : list node) : string :=
  match sibs with
  | [] => EmptyString
  | p :: rest =>
      if is_Tag p && has_class "amendment-part" p
      then let text := get_text_sep p in
           if is_empty text then first_instruction_before rest else text
      else first_instruction_before rest
  end.

Definition _get_amendment_instruction (o : occ) : string :=
  first_instruction_before (prev_sibs o).

(** [_get_section_content] *)
Definition _get_section_content (section_div : node) : string :=
  join nl
    (filter (fun p => is_empty p = false)
       (map get_text_sep
          (filter (fun c => (is_Tag c && negb (has_class "sectno" c)) = true)
             (children_of section_div)))).

(** The section number of a section div: the id of its sectno-reference
    div without the prefix; [None] is [continue]. *)
Definition section_num_of (section_div : node) : option string :=
  match find_in "div" "sectno-reference" section_div with
  | None => None
  | Some sectno_div =>
      let section_num := strip (replace "sectno-reference-" "" (id_of sectno_div)) in
      if is_empty section_num then None else Some section_num
  end.

(** The subject of the div says "[Amended]". *)
Definition is_amended (section_div : node) : bool :=
  match find_in "div" "section-subject" section_div with
  | None => false
  | Some subject => contains "[Amended]" (get_text subject)
  end.

Record info := {
  instruction : string;
  content : string
}.

Definition has_subnumber (elem : node) : bool :=
  match find_in "span" "amendment-part-subnumber" elem with
  | Some _ => true
  | None => false
  end.

(** The loop over the paragraphs that follow an [Amended] section; the
    last equation is [break]. *)
Fixpoint scan (main_instruction : string) (sub_instructions : list string)
    (elems : list node) : string * list string :=
  match elems with
  | [] => (main_instruction, sub_instructions)
  | elem :: rest =>
      if has_subnumber elem
      then scan main_instruction (sub_instructions ++ [get_text_sep elem]) rest
      else if is_empty main_instruction
      then scan (get_text_sep elem) sub_instructions rest
      else (main_instruction, sub_instructions)
  end.

Definition scan_info (o : occ) : info :=
  let '(main_instruction, sub_instructions) := scan EmptyString [] (amendment_parts_after o) in
  {| instruction := main_instruction;
     content := match sub_instructions with
                | [] => EmptyString
                | _ => join nl sub_instructions
                end |}.

(** [_collect_amended_section_instructions] *)
Definition collect_step (result : gmap string info) (o : occ) : gmap string info :=
  if is_amended (here o) then
    match section_num_of (here o) with
    | None => result
    | Some section_num => <[section_num := scan_info o]> result
    end
  else result.

Definition _collect_amended_section_instructions (doc : list node) : gmap string info :=
  fold_left collect_step (section_divs doc) ∅.

Record section_rec := {
  affected_dfars_section : string;
  amendment_instruction : string;
  sec_content : string
}.

(** The record the main loop builds for one section div. *)
Definition build_rec (amended_instructions : gmap string info)
    (section_num : string) (o : occ) : section_rec :=
  let amendment_instruction := _get_amendment_instruction o in
  let content := _get_section_content (here o) in
  if is_empty content || String.eqb (strip content) "[Amended]" then
    match amended_instructions !! section_num with
    | Some amended_info =>
        {| affected_dfars_section := section_num;
           amendment_instruction :=
             if is_empty (instruction amended_info) then amendment_instruction
             else instruction amended_info;
           sec_content := Extractor.content amended_info |}
    | None =>
        {| affected_dfars_section := section_num;
           amendment_instruction := amendment_instruction;
           sec_content := content |}
    end
  else
    {| affected_dfars_section := section_num;
       amendment_instruction := amendment_instruction;
       sec_content := content |}.

(** One turn of the loop over the section divs. *)
Definition section_step (amended_instructions : gmap string info)
    (st : list section_rec * gset string) (o : occ) : list section_rec * gset string :=
  let '(results, seen_sections) := st in
  match section_num_of (here o) with
  | None => st
  | Some section_num =>
      if decide (section_num ∈ seen_sections) then st
      else (results ++ [build_rec amended_instructions section_num o],
            {[section_num]} ∪ seen_sections)
  end.

(** ** The fallback: [re.findall] of the regex [Ss]ection\s+ followed by
    the group \d{3}\.\d[\w\-\.]* that is captured *)

(** The regex class \w below 256: letters, digits, underscore and the
    alphanumeric code points of Latin-1. *)
Definition is_word (c : ascii) : bool :=
  let n := code c in
  (is_upper c || is_lower c || is_digit c || (n =? 95) || (n =? 170)
   || (n =? 178) || (n =? 179) || (n =? 181) || (n =? 185) || (n =? 186)
   || (188 <=? n) && (n <=? 190) || (192 <=? n) && (n <=? 214)
   || (216 <=? n) && (n <=? 246) || (248 <=? n))%N.

Definition is_tail_char (c : ascii) : bool :=
  (is_word c || (code c =? 45) || (code c =? 46))%N.

(** The regex at the head of [s]: the group captured and the length of the
    whole match.  Every repetition is greedy and what follows it starts
    in another character class, so there is one way to match. *)
Definition match_section_at (s : string) : option (string * nat) :=
  match s with
  | String c0 r0 =>
      if ((code c0 =? 83) || (code c0 =? 115))%N && String.prefix "ection" r0 then
        let r1 := String.substring 6 (String.length r0 - 6) r0 in
        let ws := (break_at (fun c => negb (is_space c)) r1).1 in
        let r2 := (break_at (fun c => negb (is_space c)) r1).2 in
        match ws, r2 with
        | String _ _, String d1 (String d2 (String d3 (String dot (String d4 r3)))) =>
            if is_digit d1 && is_digit d2 && is_digit d3
               && (code dot =? 46)%N && is_digit d4
            then
              let tail := (break_at (fun c => negb (is_tail_char c)) r3).1 in
              Some (String d1 (String d2 (String d3 (String dot (String d4 tail)))),
                    (7 + String.length ws + 5 + String.length tail)%nat)
            else None
        | _, _ => None
        end
      else None
  | EmptyString => None
  end.

(** [re.findall]: the matches from left to right, not overlapping. *)
Fixpoint findall_from (skip : nat) (s : string) : list string :=
  match s with
  | EmptyString => []
  | String _ s' =>
      match skip with
      | S k => findall_from k s'
      | O =>
          match match_section_at s with
          | Some (m, len) => m :: findall_from (pred len) s'
          | None => findall_from O s'
          end
      end
  end.

Definition findall_sections (text : string) : list string := findall_from O text.

Definition fallback_match (text : string)
    (st : list section_rec * gset string) (m : string) : list section_rec * gset string :=
  let '(results, seen_sections) := st in
  if decide (m ∈ seen_sections) then st
  else (results ++ [{| affected_dfars_section := m;
                       amendment_instruction := text;
                       sec_content := EmptyString |}],
        {[m]} ∪ seen_sections).

Definition fallback_step (st : list section_rec * gset string) (p_tag : node)
  : list section_rec * gset string :=
  let text := get_text_sep p_tag in
  fold_left (fallback_match text) (findall_sections text) st.

(** [extract_dfars_sections], on the parsed document. *)
Definition extract_dfars_sections (doc : list node) : list section_rec :=
  let amended_instructions := _collect_amended_section_instructions doc in
  let '(results, seen_sections) :=
    fold_left (section_step amended_instructions) (section_divs doc) ([], ∅) in
  match results with
  | [] =>
      (fold_left fallback_step
         (filter (fun x => is_tag "p" "amendment-part" x = true) (flat_forest doc))
         (results, seen_sections)).1
  | _ => results
  end.

(** ** What the spec says of an [Amended] section, to the letter: the
    first paragraph without a sub-number is the main instruction, the
    scan stops at the next one, the sub-numbered paragraphs met until
    then are the content. *)
Definition spec_main_instruction (elems : list node) : string :=
  match filter (fun e => has_subnumber e = false) elems with
  | [] => EmptyString
  | e :: _ => get_text_sep e
  end.

(** ** What the scan does: the main instruction is the first paragraph
    without a sub-number that has a text; the scan ends before the next
    paragraph without a sub-number. *)
Definition is_main (e : node) : bool :=
  negb (has_subnumber e) && negb (is_empty (get_text_sep e)).

Definition main_of (elems : list node) : string :=
  match filter (fun e => is_main e = true) elems with
  | [] => EmptyString
  | e :: _ => get_text_sep e
  end.

(** The sub-numbered paragraphs at the head of a list. *)
Fixpoint sub_run (elems : list node) : list node :=
  match elems with
  | [] => []
  | e :: rest => if has_subnumber e then e :: sub_run rest else []
  end.

(** The paragraphs the scan reads: up to the main instruction, then the
    sub-numbered ones that follow it directly. *)
Fixpoint scanned (elems : list node) : list node :=
  match elems with
  | [] => []
  | e :: rest =>
      if is_main e
      then e :: sub_run rest
      else e :: scanned rest
  end.

Definition subs_of (elems : list node) : list string :=
  map get_text_sep (filter (fun e => has_subnumber e = true) (scanned elems)).

(** ** The main loop *)

Record df_row := {
  fr_body_html_url : string;
  ndaa_year : string;
  ndaa_section : string;
  case_number : string
}.

Record detail := {
  d_ndaa_year : string;
  d_ndaa_section : string;
  d_case_number : string;
  document_id : string;
  d_affected_dfars_section : string;
  d_amendment_instruction : string;
  d_content : string
}.

Definition detail_of (row : df_row) (doc_id : string) (s : section_rec) : detail :=
  {| d_ndaa_year := ndaa_year row;
     d_ndaa_section := ndaa_section row;
     d_case_number := case_number row;
     document_id := doc_id;
     d_affected_dfars_section := affected_dfars_section s;
     d_amendment_instruction := amendment_instruction s;
     d_content := sec_content s |}.

Record out := {
  all_details : list detail;
  affected_sections_col : list string;
  skipped : list string;
  processed_count : nat
}.

Section WithWorld.

Variable urlparse_path : string -> res string.

(** The cache directory: file name to the document parsed from it. *)
Variable html_dir : gmap string (list node).

(** [_extract_doc_id_from_url] *)
Definition _extract_doc_id_from_url (url : string) : res (option string) :=
  let url := strip url in
  if is_empty url then Ok None
  else
    path <-! urlparse_path url ;;
    let last_segment := last_segment (rstrip_by is_slash path) in
    let doc_id := replace ".html" "" last_segment in
    Ok (if is_empty doc_id then None else Some doc_id).

(** The detail rows one URL of one row adds: those of its cached
    document, none when the URL has no document id or no cached file. *)
Definition url_details (row : df_row) (url : string) : list detail :=
  match _extract_doc_id_from_url url with
  | Ok (Some doc_id) =>
      match html_dir !! (doc_id +:+ ".html") with
      | Some doc => map (detail_of row doc_id) (extract_dfars_sections doc)
      | None => []
      end
  | _ => []
  end.

(** [if section_num not in row_sections: row_sections.append(section_num)] *)
Definition add_section (row_sections : list string) (s : section_rec) : list string :=
  if mem (affected_dfars_section s) row_sections then row_sections
  else row_sections ++ [affected_dfars_section s].

(** The state of the loop over the URLs of one row. *)
Record row_state := {
  row_sections : list string;
  row_has_data : bool;
  row_details : list detail;
  row_skipped : list string
}.

Definition url_step (idx : nat) (row : df_row) (st : row_state) (url : string)
  : res row_state :=
  doc_id <-! _extract_doc_id_from_url url ;;
  match doc_id with
  | None => Ok st
  | Some doc_id =>
      match html_dir !! (doc_id +:+ ".html") with
      | None =>
          Ok {| row_sections := row_sections st; row_has_data := row_has_data st;
                row_details := row_details st;
                row_skipped := row_skipped st
                  ++ [doc_id +:+ " (row " +:+ str_of_Z (Z.of_nat idx) +:+ ")"] |}
      | Some doc =>
          match extract_dfars_sections doc with
          | [] =>
              Ok {| row_sections := row_sections st; row_has_data := row_has_data st;
                    row_details := row_details st;
                    row_skipped := row_skipped st
                      ++ [doc_id +:+ " (row " +:+ str_of_Z (Z.of_nat idx)
                          +:+ ", no sections)"] |}
          | sections =>
              Ok {| row_sections := fold_left add_section sections (row_sections st);
                    row_has_data := true;
                    row_details := row_details st ++ map (detail_of row doc_id) sections;
                    row_skipped := row_skipped st |}
          end
      end
  end.

Fixpoint url_loop (idx : nat) (row : df_row) (st : row_state) (urls : list string)
  : res row_state :=
  match urls with
  | [] => Ok st
  | url :: rest =>
      st' <-! url_step idx row st url ;;
      url_loop idx row st' rest
  end.

Definition row_step (acc : out) (idx : nat) (row : df_row) : res out :=
  let urls := stripped_pieces nl (fr_body_html_url row) in
  st <-! url_loop idx row
           {| row_sections := []; row_has_data := false;
              row_details := []; row_skipped := [] |} urls ;;
  Ok {| all_details := all_details acc ++ row_details st;
        affected_sections_col := affected_sections_col acc ++ [join ";" (row_sections st)];
        skipped := skipped acc ++ row_skipped st;
        processed_count :=
          if row_has_data st then S (processed_count acc) else processed_count acc |}.

Fixpoint row_loop (acc : out) (idx : nat) (rows : list df_row) : res out :=
  match rows with
  | [] => Ok acc
  | row :: rest =>
      acc' <-! row_step acc idx row ;;
      row_loop acc' (S idx) rest
  end.

(** [main], up to the two CSV files it writes from [out]. *)
Definition extract_main (df : list df_row) : res out :=
  row_loop {| all_details := []; affected_sections_col := [];
              skipped := []; processed_count := 0 |} 0 df.

End WithWorld.

(** ** Documents for the examples *)

Definition p_part (text : string) : node :=
  Tag "p" ["amendment-part"] None [Text text].

Definition p_sub (number text : string) : node :=
  Tag "p" ["amendment-part"] None
    [Tag "span" ["amendment-part-subnumber"] None [Text number]; Text text].

Definition section_div (number subject : string) (body : list node) : node :=
  Tag "div" ["section"] None
    (Tag "div" ["sectno-reference"] (Some ("sectno-reference-" +:+ number)) []
     :: Tag "div" ["section-subject"] None [Text subject] :: body).

(** A revised section after its instruction. *)
Definition doc_revised : list node :=
  [p_part "2. Revise section 216.102 to read as follows:";
   section_div "216.102" "Policies." [Tag "p" [] None [Text "New text."]]].

(** An [Amended] section, its instruction with two sub-instructions, and
    the instruction of the next amendment. *)
Definition doc_amended : list node :=
  [section_div "216.103" "[Amended]" [];
   p_part "3. Amend section 216.103 by-";
   p_sub "a." "Removing x;";
   p_sub "b." "Adding y.";
   p_part "4. Revise section 216.104 to read as follows:"].

Definition occ_amended : occ :=
  {| here := section_div "216.103" "[Amended]" [];
     prev_sibs := [];
     nexts := flat_forest (children_of (section_div "216.103" "[Amended]" []))
              ++ flat_forest (tail doc_amended) |}.

(** An [Amended] section followed by an amendment paragraph without any
    text, then by its instruction. *)
Definition doc_blank_part : list node :=
  [section_div "216.103" "[Amended]" [];
   Tag "p" ["amendment-part"] None [];
   p_part "3. Amend section 216.103 by removing paragraph (b)."].

Definition occ_blank_part : occ :=
  {| here := section_div "216.103" "[Amended]" [];
     prev_sibs := [];
     nexts := flat_forest (children_of (section_div "216.103" "[Amended]" []))
              ++ flat_forest (tail doc_blank_part) |}.

(** Two tracker rows implemented by the same final rule. *)
Definition two_rows_one_rule : list df_row :=
  [{| fr_body_html_url := "https://www.federalregister.gov/documents/full_text/html/2024/06/27/2024-13863.html";
      ndaa_year := "FY24"; ndaa_section := "831"; case_number := "2024-D001" |};
   {| fr_body_html_url := "https://www.federalregister.gov/documents/full_text/html/2024/06/27/2024-13863.html";
      ndaa_year := "FY24"; ndaa_section := "832"; case_number := "2024-D001" |}].

Definition cache_one : gmap string (list node) :=
  {[ "2024-13863.html" := doc_revised ]}.

(** The shape of a section number the fallback regex captures: three
    digits, a dot, a digit, then anything. *)
Definition section_shape (s : string) : bool :=
  match s with
  | String d1 (String d2 (String d3 (String dot (String d4 _)))) =>
      is_digit d1 && is_digit d2 && is_digit d3 && (code dot =? 46)%N && is_digit d4
  | _ => false
  end.

(** A document without section divs: two instructions, one naming two
    sections. *)
Definition doc_plain : list node :=
  [p_part "2. Amend section 216.102 and section 217.103-1 by removing x.";
   p_part "3. In section 216.102, revise paragraph (a)."].

End Extractor.

(* ================================================================== *)
(** * Stage 5: the statute text joiner (add_ndaa_text.py) *)
(* ================================================================== *)

Module Joiner.

(** [parse_fy]: [re.match(r"FY(\d+)", fy_str)] reads at the start of the
    text and lets anything follow the digits. *)
Definition parse_fy (fy_str : string) : option Z :=
  match fy_str with
  | String "F" (String "Y" rest) =>
      match span_digits rest with
      | (EmptyString, _) => None
      | (ds, _) =>
          let num := int_of_digits ds in
          Some (if num <? 100 then 2000 + num else num)
      end
  | _ => None
  end.

(** [parse_section_enum]: the leading digits and a dot. *)
Definition parse_section_enum (section_str : string) : option string :=
  match span_digits section_str with
  | (EmptyString, _) => None
  | (ds, _) => Some (ds +:+ ".")
  end.

(** The join key of a row of the detail CSV. *)
Definition key_of (row : Extractor.detail) : string * string :=
  (Extractor.d_ndaa_year row, Extractor.d_ndaa_section row).

(** The order of [sorted] on pairs of strings: the first components by
    code points, then the second. *)
Definition pair_leb (a b : string * string) : bool :=
  match String.compare a.1 b.1 with
  | Lt => true
  | Gt => false
  | Eq => String.leb a.2 b.2
  end.

Definition pair_le (a b : string * string) : Prop := pair_leb a b = true.

#[export] Instance pair_le_dec : RelDecision pair_le :=
  fun a b => decide (pair_leb a b = true).

(** [sorted(unique_pairs)] for the set built from the rows. *)
Definition sorted_unique_pairs (rows : list Extractor.detail) : list (string * string) :=
  merge_sort pair_le (elements (list_to_set (map key_of rows) : gset (string * string))).

Section WithNdaa.

(** The module ndaa_utils is not part of the sources at hand; its three
    functions are taken as they are used.  [load_ndaa] answers [None]
    where it raises FileNotFoundError. *)
Variable ndaa_doc : Type.
Variable ndaa_sec : Type.
Variable load_ndaa : Z -> option ndaa_doc.
Variable find_sections : ndaa_doc -> string -> list ndaa_sec.
Variable get_section_text_flat : ndaa_sec -> string.

Definition not_found_json (fy : Z) : string :=
  "[Error: NDAA JSON not found for FY" +:+ str_of_Z fy +:+ "]".

(** The part of [lookup_ndaa_text] after the year's document is at hand. *)
Definition lookup_in (ndaa : option ndaa_doc) (fy : Z) (section_str : string) : string :=
  match ndaa with
  | None => not_found_json fy
  | Some ndaa =>
      match parse_section_enum section_str with
      | None => "[Error: could not parse section from '" +:+ section_str +:+ "']"
      | Some enum =>
          match find_sections ndaa enum with
          | [] => "[Not found: FY" +:+ str_of_Z fy +:+ " section " +:+ section_str +:+ "]"
          | s :: _ => get_section_text_flat s
          end
      end
  end.

(** [lookup_ndaa_text]: the text and the cache of loaded years after it. *)
Definition lookup_ndaa_text (ndaa_cache : gmap Z (option ndaa_doc))
    (fy_str section_str : string) : string * gmap Z (option ndaa_doc) :=
  match parse_fy fy_str with
  | None => ("[Error: could not parse FY from '" +:+ fy_str +:+ "']", ndaa_cache)
  | Some fy =>
      match ndaa_cache !! fy with
      | None =>
          match load_ndaa fy with
          | None => (not_found_json fy, <[fy := None]> ndaa_cache)
          | Some d =>
              (lookup_in (Some d) fy section_str, <[fy := Some d]> ndaa_cache)
          end
      | Some ndaa => (lookup_in ndaa fy section_str, ndaa_cache)
      end
  end.

(** The state of the loop over the unique pairs.  [lookups] lists the
    pairs handed to [lookup_ndaa_text], in order; the script keeps no
    such list, it is here to count the calls. *)
Record state := {
  ndaa_cache : gmap Z (option ndaa_doc);
  text_cache : gmap (string * string) string;
  found : nat;
  not_found : nat;
  lookups : list (string * string)
}.

Definition lookup_step (st : state) (pair : string * string) : state :=
  let '(text, cache') := lookup_ndaa_text (ndaa_cache st) pair.1 pair.2 in
  {| ndaa_cache := cache';
     text_cache := <[pair := text]> (text_cache st);
     found := if String.prefix "[" text then found st else S (found st);
     not_found := if String.prefix "[" text then S (not_found st) else not_found st;
     lookups := lookups st ++ [pair] |}.

Definition lookup_all (rows : list Extractor.detail) : state :=
  fold_left lookup_step (sorted_unique_pairs rows)
    {| ndaa_cache := ∅; text_cache := ∅; found := 0; not_found := 0; lookups := [] |}.

(** [row["ndaa_text"] = text_cache.get(key, "[Error: lookup failed]")] *)
Definition with_text (text_cache : gmap (string * string) string)
    (row : Extractor.detail) : Extractor.detail * string :=
  (row, default "[Error: lookup failed]" (text_cache !! key_of row)).

(** [main]: the rows written, each with its ndaa_text, and the final state. *)
Definition join_main (rows : list Extractor.detail)
  : list (Extractor.detail * string) * state :=
  let st := lookup_all rows in
  (map (with_text (text_cache st)) rows, st).

(** The text of a pair when its year is looked up with nothing cached. *)
Definition text_of_pair (pair : string * string) : string :=
  (lookup_ndaa_text ∅ pair.1 pair.2).1.

End WithNdaa.

(** A statute library with one year and one section, for the examples. *)
Definition load_one (fy : Z) : option (list (string * string)) :=
  if fy =? 2024 then Some [("831.", "SEC. 831. EXAMPLE TEXT")] else None.

Definition find_one (d : list (string * string)) (enum : string) : list (string * string) :=
  filter (fun e => String.eqb e.1 enum = true) d.

Definition detail_row (y s : string) : Extractor.detail :=
  {| Extractor.d_ndaa_year := y; Extractor.d_ndaa_section := s;
     Extractor.d_case_number := "2024-D001"; Extractor.document_id := "2024-13863";
     Extractor.d_affected_dfars_section := "216.102";
     Extractor.d_amendment_instruction := ""; Extractor.d_content := "" |}.

Definition example_rows : list Extractor.detail :=
  [detail_row "FY24" "831(a)(2)"; detail_row "FY23" "1"; detail_row "FY24" "831(a)(2)"].

End Joiner.

(* ================================================================== *)
(** * Facts about the string functions *)
(* ================================================================== *)

Lemma is_empty_true (s : string) : is_empty s = true <-> s = EmptyString.
Proof. destruct s; simpl; split; congruence. Qed.

Lemma is_empty_false (s : string) : is_empty s = false <-> s <> EmptyString.
Proof. destruct s; simpl; split; congruence. Qed.

Lemma mem_false_ne (x y : string) (l : list string) :
  mem x l = false -> y ∈ l -> x <> y.
Proof.
  unfold mem. intros Hm Hy Heq. subst y.
  assert (existsb (String.eqb x) l = true) as Ht; [|congruence].
  apply existsb_exists. exists x. split.
  - by apply list_elem_of_In.
  - apply String.eqb_refl.
Qed.

Lemma replace_from_cons (old new : string) (c : ascii) (s : string) :
  replace_from old new 0 (String c s)
  = if String.prefix old (String c s)
    then new +:+ replace_from old new (pred (String.length old)) s
    else String c (replace_from old new 0 s).
Proof. reflexivity. Qed.

(* ================================================================== *)
(** * Stage 1: the rows the tracker parser emits *)
(* ================================================================== *)

Section TrackerFacts.

Import Tracker.

Lemma process_row_some (row : pdf_row) (r : TrackerRow) :
  process_row row = Some r ->
  ndaa_year r <> EmptyString /\ ndaa_section r <> EmptyString
  /\ frn_citation r <> EmptyString.
Proof.
  unfold process_row.
  destruct (length row <? 17)%nat; [discriminate|].
  set (y := replace "FY " "FY" _). set (s := replace nl " " (strip (cell_or_empty row 1))).
  set (f := strip (cell_or_empty row 14)).
  destruct (mem y _) eqn:Hy; [discriminate|].
  destruct (mem s _) eqn:Hs; [discriminate|].
  destruct (mem f _) eqn:Hf; [discriminate|]. simpl.
  destruct (is_empty f) eqn:He; [discriminate|].
  intros [= <-]. simpl. repeat split.
  - eapply mem_false_ne; [exact Hy|]. set_solver.
  - eapply mem_false_ne; [exact Hs|]. set_solver.
  - by apply is_empty_false.
Qed.

Lemma process_row_blank (row : pdf_row) :
  strip (cell_or_empty row 0) = EmptyString
  \/ strip (cell_or_empty row 1) = EmptyString ->
  process_row row = None.
Proof.
  intros H. unfold process_row.
  destruct (length row <? 17)%nat; [done|].
  destruct H as [-> | ->].
  - reflexivity.
  - match goal with |- context [mem ?y ?l || _] => destruct (mem y l) end; reflexivity.
Qed.

(** C10.  A table row of at least 17 columns whose year cell or section
    cell is blank after stripping is skipped, whatever its final-rule
    citation cell holds; and every row the tracker parser emits has a
    non-empty ndaa_year, a non-empty ndaa_section and a non-empty
    frn_citation. *)
Theorem tracker_rows_keyed :
  (forall row : pdf_row,
      (17 <= length row)%nat ->
      strip (cell_or_empty row 0) = EmptyString
      \/ strip (cell_or_empty row 1) = EmptyString ->
      process_row row = None)
  /\ (forall (pdf : list pdf_page) (r : TrackerRow),
        r ∈ extract_final_rule_citations pdf ->
        ndaa_year r <> EmptyString /\ ndaa_section r <> EmptyString
        /\ frn_citation r <> EmptyString).
Proof.
  split.
  - intros row _ H. by apply process_row_blank.
  - intros pdf r Hr. unfold extract_final_rule_citations in Hr.
    apply list_elem_of_omap in Hr as (row & _ & Hrow).
    by eapply process_row_some.
Qed.

End TrackerFacts.

Lemma tracker_rows_keyed_witness :
  Tracker.process_row Tracker.blank_year_row = None
  /\ Tracker.ndaa_year Tracker.complete_row_parsed <> EmptyString
  /\ Tracker.ndaa_section Tracker.complete_row_parsed <> EmptyString
  /\ Tracker.frn_citation Tracker.complete_row_parsed <> EmptyString.
Proof.
  split.
  - apply (proj1 tracker_rows_keyed).
    + simpl. lia.
    + left. reflexivity.
  - apply (proj2 tracker_rows_keyed
             [[[Tracker.blank_year_row; Tracker.complete_row]]]).
    vm_compute. apply list_elem_of_here.
Defined.

(* ================================================================== *)
(** * Stage 5: fiscal years *)
(* ================================================================== *)

Section FiscalYear.

Import Joiner.

Lemma span_digits_app (ds rest : string) :
  all_digits ds = true -> starts_with_digit rest = false ->
  span_digits (ds +:+ rest) = (ds, rest).
Proof.
  unfold all_digits. induction ds as [|c ds IH]; simpl; intros Hds Hrest.
  - destruct rest as [|c r]; [done|]. simpl in *. by rewrite Hrest.
  - apply andb_true_iff in Hds as [Hc Hds]. rewrite Hc, IH; done.
Qed.

Lemma parse_fy_digits (ds rest : string) :
  ds <> EmptyString -> all_digits ds = true -> starts_with_digit rest = false ->
  parse_fy ("FY" +:+ ds +:+ rest)
  = Some (if int_of_digits ds <? 100 then 2000 + int_of_digits ds else int_of_digits ds).
Proof.
  intros Hne Hds Hrest. change ("FY" +:+ ds +:+ rest) with (String "F" (String "Y" (ds +:+ rest))).
  unfold parse_fy. rewrite span_digits_app by done.
  destruct ds; [done|reflexivity].
Qed.

Lemma parse_fy_none (s : string) :
  (forall d rest, is_digit d = true -> s <> "FY" +:+ String d rest) ->
  parse_fy s = None.
Proof.
  intros H. unfold parse_fy.
  destruct s as [|c1 [|c2 rest]]; try reflexivity;
    try (destruct c1 as [[] [] [] [] [] [] [] []]; reflexivity).
  destruct (ascii_dec c1 "F") as [->|Hc1].
  - destruct (ascii_dec c2 "Y") as [->|Hc2].
    + destruct rest as [|d rest].
      * reflexivity.
      * destruct (is_digit d) eqn:Hd.
        -- exfalso. by apply (H d rest).
        -- simpl. by rewrite Hd.
    + destruct c2 as [[] [] [] [] [] [] [] []]; try reflexivity. by destruct Hc2.
  - destruct c1 as [[] [] [] [] [] [] [] []]; try reflexivity. by destruct Hc1.
Qed.



End FiscalYear.

(* ================================================================== *)
(** * Stage 2: the row loop of the citation resolver *)
(* ================================================================== *)

Section ResolverRows.

Import Resolver.

Variable api : string -> string -> api_response.

Lemma pad_loop_last (k : nat) (dates : list string) (d : string) :
  last dates = Some d ->
  pad_loop k dates = Ok (dates ++ replicate k d).
Proof.
  revert dates. induction k as [|k IH]; intros dates Hd; simpl.
  - by rewrite app_nil_r.
  - rewrite Hd, (IH (dates ++ [d])) by apply last_snoc.
    by rewrite <- app_assoc.
Qed.

Lemma pad_loop_empty (k : nat) :
  pad_loop (S k) [] = Raise IndexError.
Proof. reflexivity. Qed.

(** With a date in the row, the loop ends and the row yields its two
    strings: one title and one URL per citation, in the order of the
    citations, each resolved on its own with its date; the citations
    beyond the dates are resolved with the last date. *)
Lemma resolve_row_with_dates (c d : cell) :
  isna c = false ->
  strip (py_str c) <> EmptyString ->
  stripped_pieces nl (strip (py_str d)) <> [] ->
  let cits := stripped_pieces nl (strip (py_str c)) in
  let dates := padded_dates (length cits) (stripped_pieces nl (strip (py_str d))) in
  resolve_row api c d
  = Ok (join nl (map (fun cd => (resolve_one api cd).1) (zip cits dates)),
        join nl (map (fun cd => (resolve_one api cd).2) (zip cits dates))).
Proof.
  intros Hna Hc Hd cits dates. unfold resolve_row.
  rewrite Hna. apply is_empty_false in Hc. rewrite Hc. simpl.
  unfold pad_dates.
  destruct (last (stripped_pieces nl (strip (py_str d)))) as [x|] eqn:Hlast.
  - rewrite (pad_loop_last _ _ x Hlast). simpl.
    subst dates cits. unfold padded_dates. rewrite Hlast. simpl.
    by rewrite !map_map.
  - apply last_None in Hlast. done.
Qed.

Lemma padded_dates_lookup (n : nat) (dates : list string) (i : nat) :
  (i < n)%nat -> dates <> [] ->
  padded_dates n dates !! i
  = if decide (i < length dates)%nat then dates !! i else last dates.
Proof.
  intros Hi Hne. unfold padded_dates.
  destruct (last dates) as [x|] eqn:Hlast; [|by apply last_None in Hlast].
  simpl. case_decide.
  - by rewrite lookup_app_l.
  - rewrite lookup_app_r by lia. rewrite lookup_replicate_2; [done|lia].
Qed.

End ResolverRows.



(* ================================================================== *)
(** * Stage 3: running the fetcher again *)
(* ================================================================== *)

Section FetchAgain.

Import Fetcher.

Variable urlparse_path : string -> res string.
Variable http_get : string -> option string.

Lemma download_step_present (st : run) (url path : string) :
  exists_nonempty (files st) path = true ->
  download_step http_get st (url, path)
  = {| files := files st; success := S (success st);
       failed := failed st; requests := requests st |}.
Proof. unfold download_step. by intros ->. Qed.

Lemma download_all_present (fs : disk) (dl : list (string * string)) (st : run) :
  (forall item, item ∈ dl -> exists_nonempty fs item.2 = true) ->
  files st = fs ->
  fold_left (download_step http_get) dl st
  = {| files := fs; success := success st + length dl;
       failed := failed st; requests := requests st |}.
Proof.
  revert st. induction dl as [|[url path] dl IH]; intros st Hall Hfs.
  - destruct st; simpl in *. subst. f_equal. lia.
  - cbn [fold_left]. rewrite download_step_present.
    + rewrite IH; simpl; [f_equal; lia| |done].
      intros item Hitem. apply Hall. set_solver.
    + rewrite Hfs. apply (Hall (url, path)). set_solver.
Qed.

(** C5 as amended.  When every file of the download list is on disk and
    not empty, the fetcher makes no request, counts every file as a
    success and none as failed, and leaves the disk as it was. *)
Theorem fetch_again_requests_nothing
    (cells : list cell) (fs : disk) (dl : list (string * string)) :
  download_list_of urlparse_path cells = Ok dl ->
  (forall url path, (url, path) ∈ dl ->
     exists text, fs !! path = Some text /\ text <> EmptyString) ->
  fetch_main urlparse_path http_get cells fs
  = Ok {| files := fs; success := length dl; failed := 0; requests := [] |}.
Proof.
  intros Hdl Hall. unfold fetch_main. rewrite Hdl. simpl. f_equal.
  unfold download_all. rewrite (download_all_present fs); [done| |done].
  intros [url path] Hitem. destruct (Hall url path Hitem) as (text & Hp & Ht).
  unfold exists_nonempty. simpl. rewrite Hp. by destruct text.
Qed.

End FetchAgain.

Lemma fetch_again_requests_nothing_witness :
  Fetcher.fetch_main Paths.urlparse_path_std Fetcher.http_always
    [Str Fetcher.url_13863; NaN; Str Fetcher.url_13863]
    {[ Fetcher.path_13863 := "<html></html>" ]}
  = Ok {| Fetcher.files := {[ Fetcher.path_13863 := "<html></html>" ]};
          Fetcher.success := 1; Fetcher.failed := 0; Fetcher.requests := [] |}.
Proof.
  apply (fetch_again_requests_nothing Paths.urlparse_path_std Fetcher.http_always
           _ _ [(Fetcher.url_13863, Fetcher.path_13863)]).
  - vm_compute. reflexivity.
  - intros url path Hin. apply list_elem_of_singleton in Hin as [= -> ->].
    exists "<html></html>". split; [|discriminate].
    apply lookup_singleton_eq.
Defined.

(** C5, the claim as stated, fails: the file of the only URL is present
    on disk, with nothing in it, and running the fetcher sends a request
    for it. *)
Lemma fetch_again_empty_file_requests :
  Fetcher.download_list_of Paths.urlparse_path_std [Str Fetcher.url_13863]
  = Ok [(Fetcher.url_13863, Fetcher.path_13863)]
  /\ ({[ Fetcher.path_13863 := "" ]} : gmap string string) !! Fetcher.path_13863 = Some ""
  /\ exists r,
       Fetcher.fetch_main Paths.urlparse_path_std Fetcher.http_always
         [Str Fetcher.url_13863] {[ Fetcher.path_13863 := "" ]} = Ok r
       /\ Fetcher.requests r = [Fetcher.url_13863].
Proof.
  split; [vm_compute; reflexivity|]. split; [apply lookup_singleton_eq|].
  eexists. split; [vm_compute; reflexivity|reflexivity].
Qed.

(* ================================================================== *)
(** * Stage 5: one text per (year, section) pair *)
(* ================================================================== *)

Section JoinerFacts.

Import Joiner.

Variable ndaa_doc : Type.
Variable ndaa_sec : Type.
Variable load_ndaa : Z -> option ndaa_doc.
Variable find_sections : ndaa_doc -> string -> list ndaa_sec.
Variable get_section_text_flat : ndaa_sec -> string.

Local Abbreviation lookup_ndaa_text :=
  (lookup_ndaa_text ndaa_doc ndaa_sec load_ndaa find_sections get_section_text_flat).
Local Abbreviation text_of_pair :=
  (text_of_pair ndaa_doc ndaa_sec load_ndaa find_sections get_section_text_flat).
Local Abbreviation lookup_step :=
  (lookup_step ndaa_doc ndaa_sec load_ndaa find_sections get_section_text_flat).
Local Abbreviation state := (state ndaa_doc).

(** A cache of years holds what [load_ndaa] answers. *)
Local Abbreviation cache_loaded c :=
  (forall (y : Z) (v : option ndaa_doc), c !! y = Some v -> v = load_ndaa y).

Lemma lookup_ndaa_text_cached (cache : gmap Z (option ndaa_doc)) (fy_str section_str : string) :
  cache_loaded cache ->
  (lookup_ndaa_text cache fy_str section_str).1 = text_of_pair (fy_str, section_str)
  /\ cache_loaded (lookup_ndaa_text cache fy_str section_str).2.
Proof.
  intros Hc. unfold Joiner.text_of_pair, Joiner.lookup_ndaa_text. simpl.
  destruct (parse_fy fy_str) as [fy|]; [|by split].
  rewrite lookup_empty.
  destruct (cache !! fy) as [v|] eqn:Hfy.
  - apply Hc in Hfy as ->. split; [|done].
    by destruct (load_ndaa fy).
  - destruct (load_ndaa fy) as [d|] eqn:Hload; simpl; (split; [done|]).
    + intros y v. rewrite lookup_insert. case_decide; [|by apply Hc].
      intros [= <-]. by subst.
    + intros y v. rewrite lookup_insert. case_decide; [|by apply Hc].
      intros [= <-]. by subst.
Qed.

Lemma lookup_step_spec (st : state) (pair : string * string) :
  cache_loaded (ndaa_cache _ st) ->
  cache_loaded (ndaa_cache _ (lookup_step st pair))
  /\ lookups _ (lookup_step st pair) = lookups _ st ++ [pair]
  /\ text_cache _ (lookup_step st pair) = <[pair := text_of_pair pair]> (text_cache _ st).
Proof.
  intros Hc. destruct pair as [fy sec].
  destruct (lookup_ndaa_text_cached (ndaa_cache _ st) fy sec Hc) as [Ht Hc'].
  unfold Joiner.lookup_step. cbn [fst snd].
  destruct (lookup_ndaa_text (ndaa_cache ndaa_doc st) fy sec) as [text cache'].
  cbn [fst snd ndaa_cache text_cache lookups] in *. by subst text.
Qed.

Lemma lookup_fold (l : list (string * string)) (st : state) :
  cache_loaded (ndaa_cache _ st) ->
  lookups _ (fold_left lookup_step l st) = lookups _ st ++ l
  /\ forall k, text_cache _ (fold_left lookup_step l st) !! k
               = if decide (k ∈ l) then Some (text_of_pair k) else text_cache _ st !! k.
Proof.
  revert st. induction l as [|pair l IH]; intros st Hc; cbn [fold_left].
  - split; [by rewrite app_nil_r|]. intros k.
    rewrite decide_False; [done|]. apply not_elem_of_nil.
  - destruct (lookup_step_spec st pair Hc) as (Hc1 & Hl1 & Ht1).
    destruct (IH _ Hc1) as [IH1 IH2]. split.
    + rewrite IH1, Hl1. by rewrite <- app_assoc.
    + intros k. rewrite IH2, Ht1.
      destruct (decide (k ∈ l)) as [Hin|Hnin].
      * rewrite decide_True; [done|]. by apply list_elem_of_further.
      * rewrite lookup_insert. destruct (decide (pair = k)) as [<-|Hne].
        -- rewrite decide_True; [done|]. apply list_elem_of_here.
        -- rewrite decide_False; [done|].
           intros [?|?]%elem_of_cons; congruence.
Qed.

Lemma sorted_unique_pairs_spec (rows : list Extractor.detail) :
  NoDup (sorted_unique_pairs rows)
  /\ forall k, k ∈ sorted_unique_pairs rows <-> exists row, row ∈ rows /\ key_of row = k.
Proof.
  unfold sorted_unique_pairs. split.
  - rewrite merge_sort_Permutation. apply NoDup_elements.
  - intros k. rewrite merge_sort_Permutation, elem_of_elements, elem_of_list_to_set.
    rewrite list_elem_of_fmap. split.
    + intros (row & -> & Hrow). by exists row.
    + intros (row & Hrow & <-). by exists row.
Qed.

(** C4.  In a run of the joiner every row receives the text looked up
    for its (ndaa_year, ndaa_section) pair, so rows with the same pair
    receive the same text; [lookup_ndaa_text] is called on each pair of
    the input once, and on nothing else; the rows come out in the order
    they came in. *)
Theorem one_text_per_pair (rows : list Extractor.detail) :
  let out := (join_main _ _ load_ndaa find_sections get_section_text_flat rows).1 in
  let st := (join_main _ _ load_ndaa find_sections get_section_text_flat rows).2 in
  map fst out = rows
  /\ (forall row text, (row, text) ∈ out -> text = text_of_pair (key_of row))
  /\ (forall r1 t1 r2 t2,
        (r1, t1) ∈ out -> (r2, t2) ∈ out -> key_of r1 = key_of r2 -> t1 = t2)
  /\ NoDup (lookups _ st)
  /\ (forall k, k ∈ lookups _ st <-> exists row, row ∈ rows /\ key_of row = k).
Proof.
  intros out st. subst out st. unfold join_main, lookup_all. cbn [fst snd].
  destruct (sorted_unique_pairs_spec rows) as [Hnd Hin].
  destruct (lookup_fold (sorted_unique_pairs rows)
              {| ndaa_cache := ∅; text_cache := ∅; found := 0;
                 not_found := 0; lookups := [] |}) as [Hlog Htext].
  { cbn. intros y v. by rewrite lookup_empty. }
  cbn [lookups text_cache] in *.
  assert (forall row text,
             (row, text) ∈ map (with_text (text_cache _ (fold_left lookup_step
               (sorted_unique_pairs rows)
               {| ndaa_cache := ∅; text_cache := ∅; found := 0;
                  not_found := 0; lookups := [] |}))) rows ->
             text = text_of_pair (key_of row)) as Hrow.
  { intros row text Hrt. apply list_elem_of_fmap in Hrt as (row' & Heq & Hrow').
    unfold with_text in Heq. injection Heq as -> ->.
    rewrite Htext, decide_True; [done|]. apply Hin. by exists row'. }
  split; [|split; [|split; [|split]]].
  - rewrite map_map. cbn. induction rows; cbn; [done|]. f_equal. apply map_id.
  - exact Hrow.
  - intros r1 t1 r2 t2 H1 H2 Hk. apply Hrow in H1, H2. congruence.
  - by rewrite Hlog.
  - intros k. rewrite Hlog. apply Hin.
Qed.

End JoinerFacts.

Lemma one_text_per_pair_witness :
  "SEC. 831. EXAMPLE TEXT"
  = Joiner.text_of_pair _ _ Joiner.load_one Joiner.find_one snd ("FY24", "831(a)(2)")
  /\ "[Error: NDAA JSON not found for FY2023]"
    = Joiner.text_of_pair _ _ Joiner.load_one Joiner.find_one snd ("FY23", "1").
Proof.
  destruct (one_text_per_pair _ _ Joiner.load_one Joiner.find_one snd Joiner.example_rows)
    as (_ & Htext & _).
  split.
  - apply (Htext (Joiner.detail_row "FY24" "831(a)(2)")).
    vm_compute. apply list_elem_of_here.
  - apply (Htext (Joiner.detail_row "FY23" "1")).
    vm_compute. apply list_elem_of_further, list_elem_of_here.
Defined.

(* ================================================================== *)
(** * Stages 3 and 4: file names and document ids *)
(* ================================================================== *)

Section PathFacts.

Import Paths.

Lemma append_cons (c : ascii) (s t : string) :
  String c s +:+ t = String c (s +:+ t).
Proof. reflexivity. Qed.

Lemma append_nil_r (s : string) : s +:+ EmptyString = s.
Proof. induction s as [|c s IH]; [done|by rewrite append_cons, IH]. Qed.

Lemma append_assoc (a b c : string) : (a +:+ b) +:+ c = a +:+ b +:+ c.
Proof. induction a as [|x a IH]; [done|by rewrite !append_cons, IH]. Qed.

Lemma is_slash_eq (c : ascii) : is_slash c = true <-> c = "/"%char.
Proof.
  unfold is_slash, code. rewrite N.eqb_eq. split.
  - intros H. rewrite <- (ascii_N_embedding c), H. reflexivity.
  - by intros ->.
Qed.

Lemma prefix_cons (a b : ascii) (s t : string) :
  String.prefix (String a s) (String b t)
  = if ascii_dec a b then String.prefix s t else false.
Proof. reflexivity. Qed.

Lemma prefix_nil (t : string) : String.prefix EmptyString t = true.
Proof. by destruct t. Qed.

Lemma prefix_slash (c : ascii) (s : string) :
  String.prefix "/" (String c s) = is_slash c.
Proof.
  rewrite prefix_cons, prefix_nil. destruct (ascii_dec "/" c) as [Heq|Hne].
  - by subst c.
  - destruct (is_slash c) eqn:Hc; [|done].
    apply is_slash_eq in Hc. congruence.
Qed.

Lemma split_slash_cons (cur : string) (c : ascii) (s : string) :
  split_from "/" 0 cur (String c s)
  = if is_slash c then cur :: split_from "/" 0 EmptyString s
    else split_from "/" 0 (cur +:+ String c EmptyString) s.
Proof. cbn [split_from]. by rewrite prefix_slash. Qed.

Lemma has_slash_cons (c : ascii) (s : string) :
  has_slash (String c s) = is_slash c || has_slash s.
Proof. reflexivity. Qed.

Lemma basename_cons (c : ascii) (p : string) :
  basename (String c p)
  = if has_slash p then basename p else if is_slash c then p else String c p.
Proof. reflexivity. Qed.

Lemma last_split_slash (p cur : string) :
  last (split_from "/" 0 cur p)
  = Some (if has_slash p then basename p else cur +:+ p).
Proof.
  revert cur. induction p as [|c p IH]; intros cur.
  - simpl. by rewrite append_nil_r.
  - rewrite split_slash_cons, has_slash_cons, basename_cons.
    destruct (is_slash c) eqn:Hc; simpl.
    + rewrite last_cons, IH. by destruct (has_slash p).
    + rewrite IH. destruct (has_slash p); [done|].
      by rewrite append_assoc.
Qed.

(** [s.split("/")[-1]] is [os.path.basename(s)]. *)
Lemma last_segment_basename (p : string) : last_segment p = basename p.
Proof.
  unfold last_segment, split. rewrite last_split_slash. simpl.
  destruct (has_slash p) eqn:Hp; [done|].
  destruct p as [|c p]; [done|].
  rewrite basename_cons. rewrite has_slash_cons in Hp.
  apply orb_false_iff in Hp as [-> ->]. done.
Qed.

Lemma basename_no_slash (p : string) : has_slash p = false -> basename p = p.
Proof.
  destruct p as [|c p]; [done|]. rewrite has_slash_cons, basename_cons.
  intros [-> ->]%orb_false_iff. done.
Qed.

(** A path with a last segment does not end in a slash, so
    [rstrip("/")] leaves it as it is. *)
Lemma rstrip_slash_id (p : string) :
  basename p <> EmptyString -> rstrip_by is_slash p = p.
Proof.
  induction p as [|c p IH]; [done|].
  rewrite basename_cons. cbn [rstrip_by]. intros Hb.
  destruct (has_slash p) eqn:Hp.
  - rewrite (IH Hb). destruct p; [done|reflexivity].
  - rewrite (basename_no_slash p Hp) in IH.
    destruct p as [|c' p].
    + simpl. destruct (is_slash c); [done|reflexivity].
    + rewrite IH by done. reflexivity.
Qed.

Lemma has_slash_app (a b : string) : has_slash (a +:+ String "/" b) = true.
Proof.
  induction a as [|c a IH]; [reflexivity|].
  rewrite append_cons, has_slash_cons, IH. apply orb_true_r.
Qed.

Lemma basename_app (a b : string) :
  has_slash b = false -> basename (a +:+ String "/" b) = b.
Proof.
  intros Hb. induction a as [|c a IH].
  - change (EmptyString +:+ String "/" b) with (String "/" b).
    rewrite basename_cons, Hb. reflexivity.
  - by rewrite append_cons, basename_cons, has_slash_app.
Qed.

Lemma prefix_html_grows (c : ascii) (s : string) :
  String.prefix ".html" (String c s) = false ->
  String.prefix ".html" (String c (s +:+ ".html")) = false.
Proof.
  rewrite !prefix_cons. destruct (ascii_dec "." c); [|done].
  destruct s as [|c1 s]; [done|]. rewrite append_cons, !prefix_cons.
  destruct (ascii_dec "h" c1); [|done].
  destruct s as [|c2 s]; [done|]. rewrite append_cons, !prefix_cons.
  destruct (ascii_dec "t" c2); [|done].
  destruct s as [|c3 s]; [done|]. rewrite append_cons, !prefix_cons.
  destruct (ascii_dec "m" c3); [|done].
  destruct s as [|c4 s]; [done|]. rewrite append_cons, !prefix_cons.
  destruct (ascii_dec "l" c4); [|done].
  by rewrite !prefix_nil.
Qed.

(** Removing ".html" from a stem without it, followed by ".html", gives
    the stem. *)
Lemma replace_html_suffix (stem : string) :
  contains ".html" stem = false ->
  replace ".html" "" (stem +:+ ".html") = stem.
Proof.
  unfold replace. induction stem as [|c s IH]; [reflexivity|].
  cbn [contains]. intros [Hp Hs]%orb_false_iff.
  rewrite append_cons, replace_from_cons, (prefix_html_grows _ _ Hp).
  by rewrite (IH Hs).
Qed.

End PathFacts.

Section DocumentIds.

Import Paths.

Variable urlparse_path : string -> res string.


End DocumentIds.



(* ================================================================== *)
(** * Stage 4: sections of one document *)
(* ================================================================== *)

Section ExtractorSections.

Import Extractor.

Lemma fold_left_preserves {A B : Type} (P : A -> Prop) (f : A -> B -> A)
    (l : list B) (a : A) :
  (forall a b, P a -> P (f a b)) -> P a -> P (fold_left f l a).
Proof.
  intros Hf. revert a. induction l as [|b l IH]; intros a Ha; simpl; auto.
Qed.

Lemma build_rec_section (am : gmap string info) (s : string) (o : occ) :
  affected_dfars_section (build_rec am s o) = s.
Proof.
  unfold build_rec.
  destruct (is_empty _ || _); [destruct (am !! s)|]; reflexivity.
Qed.

(** The invariant of both loops of [extract_dfars_sections]: the section
    numbers of the results are distinct, and they are the set of seen
    sections. *)
Local Abbreviation distinct st :=
  (NoDup (map affected_dfars_section (fst st))
   /\ forall s : string, s ∈ snd st <-> s ∈ map affected_dfars_section (fst st)).

Lemma distinct_add (results : list section_rec) (seen : gset string) (r : section_rec) :
  distinct (results, seen) ->
  affected_dfars_section r ∉ seen ->
  distinct (results ++ [r], {[affected_dfars_section r]} ∪ seen).
Proof.
  simpl. intros [Hnd Hseen] Hnew. rewrite map_app. simpl. split.
  - apply NoDup_app. split; [done|]. split.
    + intros x Hx [->|[]%elem_of_nil]%elem_of_cons. by apply Hnew, Hseen.
    + apply NoDup_singleton.
  - intros s. rewrite elem_of_union, elem_of_singleton, elem_of_app,
      list_elem_of_singleton, Hseen. tauto.
Qed.

Lemma section_step_distinct (am : gmap string info)
    (st : list section_rec * gset string) (o : occ) :
  distinct st -> distinct (section_step am st o).
Proof.
  destruct st as [results seen]. intros Hst. unfold section_step.
  destruct (section_num_of (here o)) as [s|]; [|done].
  destruct (decide (s ∈ seen)) as [|Hnew]; [done|].
  pose proof (distinct_add results seen (build_rec am s o) Hst) as H.
  rewrite build_rec_section in H. by apply H.
Qed.

Lemma fallback_step_distinct (st : list section_rec * gset string) (p_tag : node) :
  distinct st -> distinct (fallback_step st p_tag).
Proof.
  unfold fallback_step. apply (fold_left_preserves (fun st => distinct st)).
  clear st. intros [results seen] m Hst. unfold fallback_match.
  destruct (decide (m ∈ seen)) as [|Hnew]; [done|].
  by apply (distinct_add results seen
              {| affected_dfars_section := m;
                 amendment_instruction := get_text_sep p_tag;
                 sec_content := EmptyString |}).
Qed.

(** The section numbers of one document come out once each. *)
Lemma extract_sections_NoDup (doc : list node) :
  NoDup (map affected_dfars_section (extract_dfars_sections doc)).
Proof.
  unfold extract_dfars_sections.
  pose proof (fold_left_preserves (fun st => distinct st)
                (section_step (_collect_amended_section_instructions doc))
                (section_divs doc) ([], ∅)) as H.
  destruct (fold_left _ (section_divs doc) ([], ∅)) as [results seen] eqn:Hfold.
  assert (distinct (results, seen)) as Hst.
  { apply H.
    - intros a b. apply section_step_distinct.
    - simpl. split; [constructor|]. intros s. by rewrite elem_of_empty, elem_of_nil. }
  destruct results as [|r results]; [|apply Hst].
  apply (fold_left_preserves (fun st => distinct st)); [|done].
  intros a b. apply fallback_step_distinct.
Qed.

Lemma section_step_keeps (am : gmap string info)
    (st : list section_rec * gset string) (o : occ) (r : section_rec) :
  r ∈ st.1 -> r ∈ (section_step am st o).1.
Proof.
  destruct st as [results seen]. unfold section_step. simpl. intros Hr.
  destruct (section_num_of (here o)) as [s|]; [|done].
  destruct (decide (s ∈ seen)); [done|]. simpl. apply elem_of_app. by left.
Qed.

Lemma section_fold_keeps (am : gmap string info) (l : list occ)
    (st : list section_rec * gset string) (r : section_rec) :
  r ∈ st.1 -> r ∈ (fold_left (section_step am) l st).1.
Proof.
  apply (fold_left_preserves (fun st => r ∈ st.1)).
  intros a b. apply section_step_keeps.
Qed.

(** The record of a section number is built from the first section div
    that carries the number. *)
Lemma section_fold_first (am : gmap string info) (l : list occ)
    (st : list section_rec * gset string) (i : nat) (o : occ) (s : string) :
  l !! i = Some o ->
  section_num_of (here o) = Some s ->
  (forall j o', (j < i)%nat -> l !! j = Some o' -> section_num_of (here o') <> Some s) ->
  s ∉ st.2 ->
  build_rec am s o ∈ (fold_left (section_step am) l st).1.
Proof.
  revert st i. induction l as [|o0 l IH]; intros [results seen] i Hi Hs Hfirst Hnew.
  - by rewrite lookup_nil in Hi.
  - cbn [fold_left]. destruct i as [|i].
    + injection Hi as ->. apply section_fold_keeps.
      unfold section_step. rewrite Hs. simpl in Hnew.
      rewrite decide_False by done. simpl. apply elem_of_app. right.
      apply list_elem_of_here.
    + apply (IH _ i); [done|done| |].
      * intros j o' Hj. apply (Hfirst (S j)). lia.
      * assert (section_num_of (here o0) <> Some s) as H0
          by (apply (Hfirst 0%nat); [lia|done]).
        unfold section_step. destruct (section_num_of (here o0)) as [s0|]; [|done].
        destruct (decide (s0 ∈ seen)); [done|]. simpl in *.
        rewrite elem_of_union, elem_of_singleton. intros [->|?]; congruence.
Qed.

Lemma extract_sections_first (doc : list node) (i : nat) (o : occ) (s : string) :
  section_divs doc !! i = Some o ->
  section_num_of (here o) = Some s ->
  (forall j o', (j < i)%nat -> section_divs doc !! j = Some o' ->
                section_num_of (here o') <> Some s) ->
  build_rec (_collect_amended_section_instructions doc) s o
  ∈ extract_dfars_sections doc.
Proof.
  intros Hi Hs Hfirst. unfold extract_dfars_sections.
  pose proof (section_fold_first (_collect_amended_section_instructions doc)
                (section_divs doc) ([], ∅) i o s Hi Hs Hfirst) as H.
  destruct (fold_left _ (section_divs doc) ([], ∅)) as [results seen].
  simpl in H. specialize (H (not_elem_of_empty _)).
  destruct results; [by apply elem_of_nil in H|done].
Qed.

End ExtractorSections.

(* ================================================================== *)
(** * Stage 4: the detail table *)
(* ================================================================== *)

Section DetailTable.

Import Extractor.

Variable urlparse_path : string -> res string.
Variable html_dir : gmap string (list node).

Local Abbreviation url_details := (url_details urlparse_path html_dir).
Local Abbreviation url_step := (url_step urlparse_path html_dir).
Local Abbreviation url_loop := (url_loop urlparse_path html_dir).
Local Abbreviation row_step := (row_step urlparse_path html_dir).
Local Abbreviation row_loop := (row_loop urlparse_path html_dir).

Lemma url_step_details (idx : nat) (row : df_row) (st st' : row_state) (url : string) :
  url_step idx row st url = Ok st' ->
  row_details st' = row_details st ++ url_details row url.
Proof.
  unfold Extractor.url_step, Extractor.url_details.
  destruct (_extract_doc_id_from_url urlparse_path url) as [[doc_id|]|e]; simpl.
  - destruct (html_dir !! (doc_id +:+ ".html")) as [doc|].
    + destruct (extract_dfars_sections doc) as [|r rs]; intros [= <-]; simpl.
      * by rewrite app_nil_r.
      * done.
    + intros [= <-]. simpl. by rewrite app_nil_r.
  - intros [= <-]. by rewrite app_nil_r.
  - discriminate.
Qed.

Lemma url_loop_details (idx : nat) (row : df_row) (urls : list string)
    (st st' : row_state) :
  url_loop idx row st urls = Ok st' ->
  row_details st' = row_details st ++ flat_map (url_details row) urls.
Proof.
  revert st. induction urls as [|url urls IH]; intros st; cbn [Extractor.url_loop].
  - intros [= <-]. simpl. by rewrite app_nil_r.
  - destruct (url_step idx row st url) as [st1|e] eqn:Hstep; [|discriminate].
    simpl. intros Hloop. rewrite (IH _ Hloop), (url_step_details _ _ _ _ _ Hstep).
    simpl. by rewrite <- app_assoc.
Qed.

Lemma row_step_details (acc acc' : out) (idx : nat) (row : df_row) :
  row_step acc idx row = Ok acc' ->
  all_details acc'
  = all_details acc
    ++ flat_map (url_details row) (stripped_pieces nl (fr_body_html_url row)).
Proof.
  unfold Extractor.row_step.
  destruct (url_loop idx row _ _) as [st|e] eqn:Hloop; [|discriminate].
  simpl. intros [= <-]. simpl. by rewrite (url_loop_details _ _ _ _ _ Hloop).
Qed.

Lemma row_loop_details (rows : list df_row) (acc acc' : out) (idx : nat) :
  row_loop acc idx rows = Ok acc' ->
  all_details acc'
  = all_details acc
    ++ flat_map (fun row =>
         flat_map (url_details row) (stripped_pieces nl (fr_body_html_url row))) rows.
Proof.
  revert acc idx. induction rows as [|row rows IH]; intros acc idx; cbn [Extractor.row_loop].
  - intros [= <-]. by rewrite app_nil_r.
  - destruct (row_step acc idx row) as [acc1|e] eqn:Hstep; [|discriminate].
    simpl. intros Hloop. rewrite (IH _ _ Hloop), (row_step_details _ _ _ _ Hstep).
    by rewrite <- app_assoc.
Qed.

Lemma url_details_NoDup (row : df_row) (url : string) :
  NoDup (map d_affected_dfars_section (url_details row url)).
Proof.
  unfold Extractor.url_details.
  destruct (_extract_doc_id_from_url urlparse_path url) as [[doc_id|]|e];
    try constructor.
  destruct (html_dir !! (doc_id +:+ ".html")) as [doc|]; [|constructor].
  rewrite map_map. simpl. apply extract_sections_NoDup.
Qed.

Lemma url_details_document (row : df_row) (url : string) (d : detail) :
  d ∈ url_details row url ->
  _extract_doc_id_from_url urlparse_path url = Ok (Some (document_id d)).
Proof.
  unfold Extractor.url_details.
  destruct (_extract_doc_id_from_url urlparse_path url) as [[doc_id|]|e];
    try by intros ?%elem_of_nil.
  destruct (html_dir !! (doc_id +:+ ".html")) as [doc|]; [|by intros ?%elem_of_nil].
  intros (r & -> & _)%list_elem_of_fmap. reflexivity.
Qed.

(** C3 as amended.  The detail table of a run is, row after row of the
    tracker and URL after URL of the row, the rows of the document behind
    that URL.  Within the rows one URL of one tracker row adds, all with
    the document id of that URL, every affected_dfars_section appears
    once; and in a document the record kept for a section number is the
    one built from the first section div that carries the number. *)
Theorem detail_sections_unique_per_url :
  (forall (df : list df_row) (o : out),
      extract_main urlparse_path html_dir df = Ok o ->
      all_details o
      = flat_map (fun row =>
          flat_map (url_details row) (stripped_pieces nl (fr_body_html_url row))) df)
  /\ (forall (row : df_row) (url : string),
        NoDup (map d_affected_dfars_section (url_details row url))
        /\ forall d, d ∈ url_details row url ->
             _extract_doc_id_from_url urlparse_path url = Ok (Some (document_id d)))
  /\ (forall (doc : list node) (i : nat) (o : occ) (s : string),
        section_divs doc !! i = Some o ->
        section_num_of (here o) = Some s ->
        (forall j o', (j < i)%nat -> section_divs doc !! j = Some o' ->
                      section_num_of (here o') <> Some s) ->
        NoDup (map affected_dfars_section (extract_dfars_sections doc))
        /\ build_rec (_collect_amended_section_instructions doc) s o
           ∈ extract_dfars_sections doc).
Proof.
  split; [|split].
  - intros df o Hmain. unfold extract_main in Hmain.
    by rewrite (row_loop_details _ _ _ _ Hmain).
  - intros row url. split.
    + apply url_details_NoDup.
    + apply url_details_document.
  - intros doc i o s Hi Hs Hfirst. split.
    + apply extract_sections_NoDup.
    + by apply (extract_sections_first doc i).
Qed.

End DetailTable.

Lemma detail_sections_unique_per_url_witness :
  NoDup (map Extractor.affected_dfars_section
           (Extractor.extract_dfars_sections Extractor.doc_amended))
  /\ Extractor.build_rec
       (Extractor._collect_amended_section_instructions Extractor.doc_amended)
       "216.103" Extractor.occ_amended
     ∈ Extractor.extract_dfars_sections Extractor.doc_amended.
Proof.
  apply (proj2 (proj2 (detail_sections_unique_per_url
                         Paths.urlparse_path_std Extractor.cache_one))
           Extractor.doc_amended 0%nat).
  - reflexivity.
  - reflexivity.
  - intros j o' Hj. lia.
Defined.

(** C3, the claim as stated, fails: two tracker rows cite the same final
    rule, and the detail table holds the section 216.102 of the document
    2024-13863 twice. *)
Lemma detail_section_twice_per_document :
  exists o,
    Extractor.extract_main Paths.urlparse_path_std Extractor.cache_one
      Extractor.two_rows_one_rule = Ok o
    /\ map (fun d => (Extractor.document_id d, Extractor.d_affected_dfars_section d))
         (Extractor.all_details o)
       = [("2024-13863", "216.102"); ("2024-13863", "216.102")].
Proof. eexists. split; vm_compute; reflexivity. Qed.

(* ================================================================== *)
(** * Stage 4: sections marked [Amended] *)
(* ================================================================== *)

Section AmendedSections.

Import Extractor.

Lemma is_main_sub (e : node) : has_subnumber e = true -> is_main e = false.
Proof. unfold is_main. by intros ->. Qed.

Lemma filter_sub_run (elems : list node) :
  filter (fun e => has_subnumber e = true) (sub_run elems) = sub_run elems.
Proof.
  induction elems as [|e rest IH]; [done|]. simpl.
  destruct (has_subnumber e) eqn:He; [|done].
  rewrite filter_cons_True by done. by rewrite IH.
Qed.

(** After the main instruction the scan reads sub-numbered paragraphs
    until the next paragraph without a sub-number. *)
Lemma scan_after_main (main : string) (subs : list string) (elems : list node) :
  is_empty main = false ->
  scan main subs elems = (main, subs ++ map get_text_sep (sub_run elems)).
Proof.
  intros Hmain. revert subs. induction elems as [|e rest IH]; intros subs; simpl.
  - by rewrite app_nil_r.
  - destruct (has_subnumber e).
    + rewrite IH. simpl. by rewrite <- app_assoc.
    + rewrite Hmain. by rewrite app_nil_r.
Qed.

Lemma scan_before_main (subs : list string) (elems : list node) :
  scan EmptyString subs elems = (main_of elems, subs ++ subs_of elems).
Proof.
  revert subs. induction elems as [|e rest IH]; intros subs.
  - simpl. by rewrite app_nil_r.
  - unfold main_of, subs_of. cbn [scan scanned].
    destruct (has_subnumber e) eqn:Hsub.
    + rewrite (is_main_sub e Hsub), IH.
      rewrite (filter_cons_False (fun e => is_main e = true))
        by (rewrite (is_main_sub e Hsub); done).
      rewrite (filter_cons_True (fun e => has_subnumber e = true)) by done.
      simpl. by rewrite <- app_assoc.
    + simpl. unfold is_main. rewrite Hsub. simpl.
      destruct (is_empty (get_text_sep e)) eqn:Htext; simpl.
      * apply is_empty_true in Htext. rewrite Htext, IH.
        rewrite (filter_cons_False (fun e => is_main e = true))
          by (unfold is_main; rewrite Hsub, Htext; done).
        rewrite (filter_cons_False (fun e => has_subnumber e = true))
          by (rewrite Hsub; done).
        done.
      * rewrite (scan_after_main _ _ _ Htext).
        rewrite (filter_cons_True (fun e => is_main e = true))
          by (unfold is_main; rewrite Hsub, Htext; done).
        rewrite (filter_cons_False (fun e => has_subnumber e = true))
          by (rewrite Hsub; done).
        by rewrite filter_sub_run.
Qed.

(** What [_collect_amended_section_instructions] stores for one section. *)
Lemma scan_info_spec (o : occ) :
  scan_info o
  = {| instruction := main_of (amendment_parts_after o);
       content := join nl (subs_of (amendment_parts_after o)) |}.
Proof.
  unfold scan_info. rewrite scan_before_main. simpl.
  by destruct (subs_of (amendment_parts_after o)).
Qed.

Lemma collect_fold_other (l : list occ) (m : gmap string info) (s : string) :
  (forall j o', l !! j = Some o' -> section_num_of (here o') <> Some s) ->
  fold_left collect_step l m !! s = m !! s.
Proof.
  revert m. induction l as [|o0 l IH]; intros m Hno; [done|].
  cbn [fold_left]. rewrite IH.
  - unfold collect_step. destruct (is_amended (here o0)); [|done].
    destruct (section_num_of (here o0)) as [s0|] eqn:Hs0; [|done].
    rewrite lookup_insert_ne; [done|].
    intros ->. by apply (Hno 0%nat o0).
  - intros j o'. apply (Hno (S j)).
Qed.

Lemma collect_fold_only (l : list occ) (m : gmap string info)
    (i : nat) (o : occ) (s : string) :
  l !! i = Some o ->
  is_amended (here o) = true ->
  section_num_of (here o) = Some s ->
  (forall j o', l !! j = Some o' -> section_num_of (here o') = Some s -> j = i) ->
  fold_left collect_step l m !! s = Some (scan_info o).
Proof.
  revert m i. induction l as [|o0 l IH]; intros m i Hi Ham Hs Honly.
  - by rewrite lookup_nil in Hi.
  - cbn [fold_left]. destruct i as [|i].
    + injection Hi as ->. rewrite collect_fold_other.
      * unfold collect_step. rewrite Ham, Hs. apply lookup_insert_eq.
      * intros j o' Hj Ho'. by specialize (Honly (S j) o' Hj Ho').
    + apply (IH _ i); try done.
      intros j o' Hj Ho'. specialize (Honly (S j) o' Hj Ho'). lia.
Qed.

(** C2 as amended.  Take a section div whose subject says [Amended],
    with a section number that no other section div of the document
    carries, and the amendment paragraphs that follow it in the document.
    The main instruction is the first of them that has no sub-number and
    has a text; the scan ends before the next paragraph without a
    sub-number, and the texts of the sub-numbered paragraphs read until
    then, joined by newlines, are the content.  The document yields the
    record of that section number; when the content of the div itself is
    empty or "[Amended]", the record holds that content, and that main
    instruction unless it is empty, in which case it keeps the
    instruction found before the div; otherwise the record keeps the
    instruction found before the div and the content of the div. *)
Theorem amended_section_record
    (doc : list node) (i : nat) (o : occ) (s : string) :
  section_divs doc !! i = Some o ->
  is_amended (here o) = true ->
  section_num_of (here o) = Some s ->
  (forall j o', section_divs doc !! j = Some o' ->
                section_num_of (here o') = Some s -> j = i) ->
  let elems := amendment_parts_after o in
  let text := _get_section_content (here o) in
  exists r,
    r ∈ extract_dfars_sections doc
    /\ affected_dfars_section r = s
    /\ if is_empty text || String.eqb (strip text) "[Amended]"
       then amendment_instruction r
            = (if is_empty (main_of elems) then _get_amendment_instruction o
               else main_of elems)
            /\ sec_content r = join nl (subs_of elems)
       else amendment_instruction r = _get_amendment_instruction o
            /\ sec_content r = text.
Proof.
  intros Hi Ham Hs Honly elems text.
  exists (build_rec (_collect_amended_section_instructions doc) s o).
  split; [|split].
  - apply (extract_sections_first doc i); [done|done|].
    intros j o' Hj Ho' Hs'. specialize (Honly j o' Ho' Hs'). lia.
  - apply build_rec_section.
  - unfold build_rec, _collect_amended_section_instructions.
    rewrite (collect_fold_only _ _ i o s Hi Ham Hs Honly), scan_info_spec.
    fold text elems. by destruct (is_empty text || String.eqb (strip text) "[Amended]").
Qed.

End AmendedSections.

Lemma amended_section_record_witness :
  let elems := Extractor.amendment_parts_after Extractor.occ_amended in
  let text := Extractor._get_section_content (Extractor.here Extractor.occ_amended) in
  exists r,
    r ∈ Extractor.extract_dfars_sections Extractor.doc_amended
    /\ Extractor.affected_dfars_section r = "216.103"
    /\ if is_empty text || String.eqb (strip text) "[Amended]"
       then Extractor.amendment_instruction r
            = (if is_empty (Extractor.main_of elems)
               then Extractor._get_amendment_instruction Extractor.occ_amended
               else Extractor.main_of elems)
            /\ Extractor.sec_content r = join nl (Extractor.subs_of elems)
       else Extractor.amendment_instruction r
            = Extractor._get_amendment_instruction Extractor.occ_amended
            /\ Extractor.sec_content r = text.
Proof.
  apply (amended_section_record Extractor.doc_amended 0%nat).
  - reflexivity.
  - reflexivity.
  - reflexivity.
  - intros j o' Hj _. destruct j as [|j]; [done|].
    change (Extractor.section_divs Extractor.doc_amended)
      with [Extractor.occ_amended] in Hj.
    by rewrite lookup_cons, lookup_nil in Hj.
Defined.

(** C2, the claim as stated, fails: the first paragraph without a
    sub-number after the [Amended] section has no text, so by the claim
    the main instruction is empty; the extractor reads on and takes the
    second paragraph without a sub-number as the instruction. *)
Lemma amended_blank_paragraph_skipped :
  Extractor.section_divs Extractor.doc_blank_part = [Extractor.occ_blank_part]
  /\ Extractor.is_amended (Extractor.here Extractor.occ_blank_part) = true
  /\ Extractor.spec_main_instruction
       (Extractor.amendment_parts_after Extractor.occ_blank_part) = EmptyString
  /\ Extractor.extract_dfars_sections Extractor.doc_blank_part
     = [{| Extractor.affected_dfars_section := "216.103";
           Extractor.amendment_instruction :=
             "3. Amend section 216.103 by removing paragraph (b).";
           Extractor.sec_content := "" |}].
Proof. repeat split; vm_compute; reflexivity. Qed.

(* ================================================================== *)
(** * Stage 2: the dates [parse_fr_date] reads *)
(* ================================================================== *)

Section DateParsing.

Import Resolver.

Lemma is_digit_cases (c : ascii) :
  is_digit c = true ->
  exists k, 0 <= k <= 9 /\ c = digit_char k.
Proof.
  intros H. exists (digit_val c). unfold is_digit, digit_val, digit_char, code in *.
  apply andb_true_iff in H as [H1 H2]. apply N.leb_le in H1, H2. split; [lia|].
  replace (Z.to_N (48 + (Z.of_N (N_of_ascii c) - 48))) with (N_of_ascii c) by lia.
  by rewrite ascii_N_embedding.
Qed.

Lemma digit_char_facts (k : Z) :
  0 <= k <= 9 ->
  is_digit (digit_char k) = true /\ digit_val (digit_char k) = k
  /\ is_space (digit_char k) = false.
Proof.
  intros Hk.
  assert (k = 0 \/ k = 1 \/ k = 2 \/ k = 3 \/ k = 4 \/ k = 5 \/ k = 6 \/ k = 7
          \/ k = 8 \/ k = 9) as Hc by lia.
  repeat destruct Hc as [->|Hc]; try subst k; by vm_compute.
Qed.

Lemma strip_digits (s : string) : all_digits s = true -> strip s = s.
Proof.
  unfold all_digits, strip. intros H.
  assert (rstrip_by is_space s = s) as ->.
  { induction s as [|c s IH]; [done|]. simpl in H. apply andb_true_iff in H as [Hc Hs].
    cbn [rstrip_by]. rewrite (IH Hs).
    destruct (is_digit_cases c Hc) as (k & Hk & ->).
    destruct (digit_char_facts k Hk) as (_ & _ & ->). by destruct s. }
  destruct s as [|c s]; [done|]. simpl in H. apply andb_true_iff in H as [Hc Hs].
  destruct (is_digit_cases c Hc) as (k & Hk & ->). cbn [lstrip_by].
  by destruct (digit_char_facts k Hk) as (_ & _ & ->).
Qed.

Lemma zero_pad_2 (n : Z) :
  zero_pad 2 n = String (digit_char ((n / 10) mod 10)) (String (digit_char (n mod 10)) EmptyString).
Proof. reflexivity. Qed.
Lemma zero_pad_4 (n : Z) :
  zero_pad 4 n
  = String (digit_char ((n / 10 / 10 / 10) mod 10))
      (String (digit_char ((n / 10 / 10) mod 10))
         (String (digit_char ((n / 10) mod 10))
            (String (digit_char (n mod 10)) EmptyString))).
Proof. reflexivity. Qed.

Lemma mod10_range (n : Z) : 0 <= n mod 10 <= 9.
Proof. pose proof (Z.mod_pos_bound n 10). lia. Qed.

Lemma py_int_2 (a b : Z) :
  0 <= a <= 9 -> 0 <= b <= 9 ->
  py_int (String (digit_char a) (String (digit_char b) EmptyString)) = 10 * a + b.
Proof.
  intros Ha Hb. unfold py_int.
  destruct (digit_char_facts a Ha) as (Da & Va & _).
  destruct (digit_char_facts b Hb) as (Db & Vb & _).
  rewrite strip_digits by (unfold all_digits; simpl; by rewrite Da, Db).
  unfold int_of_digits. simpl. rewrite Va, Vb. lia.
Qed.

Lemma py_int_4 (a b c d : Z) :
  0 <= a <= 9 -> 0 <= b <= 9 -> 0 <= c <= 9 -> 0 <= d <= 9 ->
  py_int (String (digit_char a) (String (digit_char b)
            (String (digit_char c) (String (digit_char d) EmptyString))))
  = 1000 * a + 100 * b + 10 * c + d.
Proof.
  intros Ha Hb Hc Hd. unfold py_int.
  destruct (digit_char_facts a Ha) as (Da & Va & _).
  destruct (digit_char_facts b Hb) as (Db & Vb & _).
  destruct (digit_char_facts c Hc) as (Dc & Vc & _).
  destruct (digit_char_facts d Hd) as (Dd & Vd & _).
  rewrite strip_digits by (unfold all_digits; simpl; by rewrite Da, Db, Dc, Dd).
  unfold int_of_digits. simpl. rewrite Va, Vb, Vc, Vd. lia.
Qed.

Lemma py_int_zero_pad_2 (n : Z) : 0 <= n <= 99 -> py_int (zero_pad 2 n) = n.
Proof.
  intros Hn. rewrite zero_pad_2, py_int_2 by apply mod10_range.
  Z.div_mod_to_equations. lia.
Qed.

Lemma py_int_zero_pad_4 (n : Z) : 0 <= n <= 9999 -> py_int (zero_pad 4 n) = n.
Proof.
  intros Hn. rewrite zero_pad_4, py_int_4 by apply mod10_range.
  Z.div_mod_to_equations. lia.
Qed.

Ltac enum_digit k H :=
  let Hc := fresh "Hc" in
  assert (k = 0 \/ k = 1 \/ k = 2 \/ k = 3 \/ k = 4 \/ k = 5 \/ k = 6 \/ k = 7
          \/ k = 8 \/ k = 9) as Hc by lia;
  clear H;
  repeat (destruct Hc as [Hc|Hc]; [subst k|]); [..|subst k].

Ltac split_in H :=
  apply list_elem_of_In in H; vm_compute in H;
  repeat match type of H with
         | _ \/ _ => destruct H as [H|H]; [subst|]
         | False => destruct H
         end.

Ltac solve_in := apply list_elem_of_In; vm_compute; tauto.

Lemma re_m_slash_token (m : Z) (tm rest : string) :
  1 <= m <= 12 -> tm ∈ month_tokens m ->
  re_m_slash (tm +:+ String "/" rest) = [(tm, rest)] /\ py_int tm = m.
Proof.
  intros Hm Htm.
  assert (m = 1 \/ m = 2 \/ m = 3 \/ m = 4 \/ m = 5 \/ m = 6 \/ m = 7 \/ m = 8
          \/ m = 9 \/ m = 10 \/ m = 11 \/ m = 12) as Hc by lia.
  clear Hm.
  repeat (destruct Hc as [Hc|Hc]; [subst m; split_in Htm; split; reflexivity|]).
  subst m; split_in Htm; split; reflexivity.
Qed.

Lemma re_d_slash_token (d : Z) (td rest : string) :
  1 <= d <= 31 -> td ∈ day_tokens d ->
  re_d_slash (td +:+ String "/" rest) = [(td, rest)] /\ py_int td = d.
Proof.
  intros Hd Htd.
  assert (d = 1 \/ d = 2 \/ d = 3 \/ d = 4 \/ d = 5 \/ d = 6 \/ d = 7 \/ d = 8
          \/ d = 9 \/ d = 10 \/ d = 11 \/ d = 12 \/ d = 13 \/ d = 14 \/ d = 15
          \/ d = 16 \/ d = 17 \/ d = 18 \/ d = 19 \/ d = 20 \/ d = 21 \/ d = 22
          \/ d = 23 \/ d = 24 \/ d = 25 \/ d = 26 \/ d = 27 \/ d = 28 \/ d = 29
          \/ d = 30 \/ d = 31) as Hc by lia.
  clear Hd.
  repeat (destruct Hc as [Hc|Hc]; [subst d; split_in Htd; split; reflexivity|]).
  subst d; split_in Htd; split; reflexivity.
Qed.

Lemma is_char_eq (a c : ascii) : is_char a c = true -> c = a.
Proof.
  unfold is_char, code. intros H%N.eqb_eq.
  by rewrite <- (ascii_N_embedding c), <- H, ascii_N_embedding.
Qed.

Lemma in_range_digit (lo hi c : ascii) :
  is_digit lo = true -> is_digit hi = true -> in_range lo hi c = true ->
  exists k, 0 <= k <= 9 /\ c = digit_char k.
Proof.
  intros Hlo Hhi Hc. apply is_digit_cases.
  unfold is_digit, in_range in *.
  apply andb_true_iff in Hlo as [Hlo _]. apply andb_true_iff in Hhi as [_ Hhi].
  apply andb_true_iff in Hc as [H1 H2].
  apply N.leb_le in Hlo, Hhi, H1, H2. apply andb_true_iff.
  split; apply N.leb_le; lia.
Qed.

Lemma one_char_inv (p : ascii -> bool) (s a r : string) :
  (a, r) ∈ one_char p s ->
  exists c, s = String c r /\ a = String c EmptyString /\ p c = true.
Proof.
  destruct s as [|c s]; simpl; [by intros ?%elem_of_nil|].
  destruct (p c) eqn:Hp; [|by intros ?%elem_of_nil].
  intros [= -> ->]%list_elem_of_singleton. by exists c.
Qed.

Lemma two_chars_inv (p q : ascii -> bool) (s a r : string) :
  (a, r) ∈ two_chars p q s ->
  exists c c', s = String c (String c' r) /\ a = String c (String c' EmptyString)
               /\ p c = true /\ q c' = true.
Proof.
  destruct s as [|c [|c' s]]; simpl; try by intros ?%elem_of_nil.
  destruct (p c) eqn:Hp; [|by intros ?%elem_of_nil].
  destruct (q c') eqn:Hq; [|by intros ?%elem_of_nil].
  intros [= -> ->]%list_elem_of_singleton. by exists c, c'.
Qed.

Lemma re_slash_inv (s r : string) : r ∈ re_slash s -> s = String "/" r.
Proof.
  destruct s as [|c s]; simpl; [by intros ?%elem_of_nil|].
  destruct (is_char "/" c) eqn:Hc; [|by intros ?%elem_of_nil].
  apply is_char_eq in Hc as ->. by intros ->%list_elem_of_singleton.
Qed.

Ltac digit_of H k :=
  let Hk := fresh "Hk" in
  first
    [ apply is_char_eq in H; subst
    | apply is_digit_cases in H as (k & Hk & ->); enum_digit k Hk
    | apply in_range_digit in H as (k & Hk & ->); [|reflexivity|reflexivity];
      pose proof H as Hk; clear Hk ].

Lemma re_m_inv (s a r : string) :
  (a, r) ∈ re_m s ->
  s = a +:+ r /\ 1 <= py_int a <= 12 /\ a ∈ month_tokens (py_int a).
Proof.
  unfold re_m. rewrite !elem_of_app.
  intros [H|[H|H]].
  - apply two_chars_inv in H as (c & c' & -> & -> & Hc & Hc').
    apply is_char_eq in Hc as ->.
    pose proof Hc' as Hr. apply in_range_digit in Hc' as (k & Hk & ->); [|done..].
    split; [reflexivity|].
    enum_digit k Hk; first [discriminate Hr | split; [by vm_compute | solve_in]].
  - apply two_chars_inv in H as (c & c' & -> & -> & Hc & Hc').
    apply is_char_eq in Hc as ->.
    pose proof Hc' as Hr. apply in_range_digit in Hc' as (k & Hk & ->); [|done..].
    split; [reflexivity|].
    enum_digit k Hk; first [discriminate Hr | split; [by vm_compute | solve_in]].
  - apply one_char_inv in H as (c & -> & -> & Hc).
    pose proof Hc as Hr. apply in_range_digit in Hc as (k & Hk & ->); [|done..].
    split; [reflexivity|].
    enum_digit k Hk; first [discriminate Hr | split; [by vm_compute | solve_in]].
Qed.

Lemma re_d_inv (s b r : string) :
  (b, r) ∈ re_d s ->
  s = b +:+ r /\ 1 <= py_int b <= 31 /\ b ∈ day_tokens (py_int b).
Proof.
  unfold re_d. rewrite !elem_of_app.
  intros [H|[H|[H|[H|H]]]].
  - apply two_chars_inv in H as (c & c' & -> & -> & Hc & Hc').
    apply is_char_eq in Hc as ->.
    pose proof Hc' as Hr. apply in_range_digit in Hc' as (k & Hk & ->); [|done..].
    split; [reflexivity|].
    enum_digit k Hk; first [discriminate Hr | split; [by vm_compute | solve_in]].
  - apply two_chars_inv in H as (c & c' & -> & -> & Hc & Hc').
    pose proof Hc as Hr. apply in_range_digit in Hc as (k & Hk & ->); [|done..].
    apply is_digit_cases in Hc' as (k' & Hk' & ->).
    split; [reflexivity|].
    enum_digit k Hk; first [discriminate Hr | idtac];
      enum_digit k' Hk'; (split; [by vm_compute | solve_in]).
  - apply two_chars_inv in H as (c & c' & -> & -> & Hc & Hc').
    apply is_char_eq in Hc as ->.
    pose proof Hc' as Hr. apply in_range_digit in Hc' as (k & Hk & ->); [|done..].
    split; [reflexivity|].
    enum_digit k Hk; first [discriminate Hr | split; [by vm_compute | solve_in]].
  - apply one_char_inv in H as (c & -> & -> & Hc).
    pose proof Hc as Hr. apply in_range_digit in Hc as (k & Hk & ->); [|done..].
    split; [reflexivity|].
    enum_digit k Hk; first [discriminate Hr | split; [by vm_compute | solve_in]].
  - apply two_chars_inv in H as (c & c' & -> & -> & Hc & Hc').
    apply is_char_eq in Hc as ->.
    pose proof Hc' as Hr. apply in_range_digit in Hc' as (k & Hk & ->); [|done..].
    split; [reflexivity|].
    enum_digit k Hk; first [discriminate Hr | split; [by vm_compute | solve_in]].
Qed.

Lemma re_m_slash_inv (s a r : string) :
  (a, r) ∈ re_m_slash s ->
  s = a +:+ String "/" r /\ 1 <= py_int a <= 12 /\ a ∈ month_tokens (py_int a).
Proof.
  unfold re_m_slash. intros ([m r1] & H & Hm)%list_elem_of_bind.
  apply list_elem_of_bind in H as (r2 & [= -> ->]%list_elem_of_singleton & Hs).
  apply re_slash_inv in Hs as ->. by apply re_m_inv in Hm.
Qed.

Lemma re_d_slash_inv (s b r : string) :
  (b, r) ∈ re_d_slash s ->
  s = b +:+ String "/" r /\ 1 <= py_int b <= 31 /\ b ∈ day_tokens (py_int b).
Proof.
  unfold re_d_slash. intros ([m r1] & H & Hm)%list_elem_of_bind.
  apply list_elem_of_bind in H as (r2 & [= -> ->]%list_elem_of_singleton & Hs).
  apply re_slash_inv in Hs as ->. by apply re_d_inv in Hm.
Qed.

Lemma two_digits_inv (s a r : string) :
  (a, r) ∈ two_chars is_digit is_digit s ->
  exists k k', 0 <= k <= 9 /\ 0 <= k' <= 9
    /\ s = a +:+ r
    /\ a = String (digit_char k) (String (digit_char k') EmptyString).
Proof.
  intros (c & c' & -> & -> & Hc & Hc')%two_chars_inv.
  apply is_digit_cases in Hc as (k & Hk & ->).
  apply is_digit_cases in Hc' as (k' & Hk' & ->). by exists k, k'.
Qed.

Lemma re_y_inv (s y r : string) :
  (y, r) ∈ re_y s ->
  s = y +:+ r /\ 0 <= py_int y <= 99 /\ y = zero_pad 2 (py_int y).
Proof.
  unfold re_y. intros (k & k' & Hk & Hk' & -> & ->)%two_digits_inv.
  split; [done|]. rewrite py_int_2 by done. split; [lia|].
  rewrite zero_pad_2. repeat f_equal; Z.div_mod_to_equations; lia.
Qed.

Lemma re_Y_inv (s y r : string) :
  (y, r) ∈ re_Y s ->
  s = y +:+ r /\ 0 <= py_int y <= 9999 /\ y = zero_pad 4 (py_int y).
Proof.
  unfold re_Y. intros ([a r1] & H & Ha)%list_elem_of_bind.
  apply list_elem_of_bind in H as ([b r2] & [= -> ->]%list_elem_of_singleton & Hb).
  apply two_digits_inv in Ha as (k1 & k2 & Hk1 & Hk2 & -> & ->).
  apply two_digits_inv in Hb as (k3 & k4 & Hk3 & Hk4 & -> & ->).
  split; [reflexivity|].
  change (String (digit_char k1) (String (digit_char k2) "")
          +:+ String (digit_char k3) (String (digit_char k4) ""))
    with (String (digit_char k1) (String (digit_char k2)
            (String (digit_char k3) (String (digit_char k4) "")))).
  rewrite py_int_4 by done. split; [lia|].
  rewrite zero_pad_4. repeat f_equal; Z.div_mod_to_equations; lia.
Qed.

Lemma bind_one {A B : Type} (f : A -> list B) (x : A) : [x] ≫= f = f x.
Proof. simpl. apply app_nil_r. Qed.

Lemma head_elem_of {A : Type} (l : list A) (x : A) : head l = Some x -> x ∈ l.
Proof. destruct l; [done|]. intros [= ->]. apply list_elem_of_here. Qed.

Lemma re_mdy_tokens (re_year : string -> list (string * string))
    (m d : Z) (tm td ty : string) :
  1 <= m <= 12 -> 1 <= d <= 31 ->
  tm ∈ month_tokens m -> td ∈ day_tokens d ->
  re_mdy re_year (tm +:+ "/" +:+ td +:+ "/" +:+ ty)
  = ('(y, r5) ← re_year ty; [(tm, td, y, r5)])
  /\ py_int tm = m /\ py_int td = d.
Proof.
  intros Hm Hd Htm Htd.
  change (tm +:+ "/" +:+ td +:+ "/" +:+ ty)
    with (tm +:+ String "/" (td +:+ String "/" ty)).
  destruct (re_m_slash_token m tm (td +:+ String "/" ty) Hm Htm) as [Em Im].
  destruct (re_d_slash_token d td ty Hd Htd) as [Ed Id].
  unfold re_mdy. rewrite Em, bind_one, Ed, bind_one. done.
Qed.

Lemma valid_date_range (y m d : Z) :
  valid_date y m d = true -> 1 <= y <= 9999 /\ 1 <= m <= 12 /\ 1 <= d <= 31.
Proof.
  unfold valid_date, days_in_month. intros H.
  repeat (apply andb_true_iff in H as [H ?]).
  repeat match goal with H : (_ <=? _) = true |- _ => apply Z.leb_le in H end.
  repeat split; try lia.
  destruct (m =? 2); [destruct (is_leap y); lia|].
  destruct ((m =? 4) || (m =? 6) || (m =? 9) || (m =? 11)); lia.
Qed.

Lemma re_y_two (yy : Z) :
  0 <= yy <= 99 -> re_y (zero_pad 2 yy) = [(zero_pad 2 yy, EmptyString)].
Proof.
  intros H. rewrite zero_pad_2. unfold re_y, two_chars.
  destruct (digit_char_facts _ (mod10_range (yy / 10))) as (-> & _).
  by destruct (digit_char_facts _ (mod10_range yy)) as (-> & _).
Qed.

Lemma re_y_four (y : Z) :
  exists a b, re_y (zero_pad 4 y) = [(a, String b EmptyString +:+ String (digit_char (y mod 10)) EmptyString)].
Proof.
  rewrite zero_pad_4. unfold re_y, two_chars.
  destruct (digit_char_facts _ (mod10_range (y / 10 / 10 / 10))) as (-> & _).
  destruct (digit_char_facts _ (mod10_range (y / 10 / 10))) as (-> & _).
  by eexists _, _.
Qed.

Lemma re_Y_four (y : Z) : re_Y (zero_pad 4 y) = [(zero_pad 4 y, EmptyString)].
Proof.
  rewrite zero_pad_4. unfold re_Y, two_chars.
  destruct (digit_char_facts _ (mod10_range (y / 10 / 10 / 10))) as (-> & _).
  destruct (digit_char_facts _ (mod10_range (y / 10 / 10))) as (-> & _).
  cbn [andb]. rewrite bind_one.
  destruct (digit_char_facts _ (mod10_range (y / 10))) as (-> & _).
  by destruct (digit_char_facts _ (mod10_range y)) as (-> & _).
Qed.

Lemma century_mod (y : Z) : 1969 <= y <= 2068 -> century (y mod 100) = y.
Proof.
  intros H. unfold century. destruct (Z.leb_spec (y mod 100) 68);
    Z.div_mod_to_equations; lia.
Qed.

Lemma century_range (yy : Z) :
  0 <= yy <= 99 -> 1969 <= century yy <= 2068 /\ century yy mod 100 = yy.
Proof.
  intros H. unfold century. destruct (Z.leb_spec yy 68);
    (split; [lia|Z.div_mod_to_equations; lia]).
Qed.

Lemma strptime_tokens (y m d : Z) (tm td ty : string) :
  valid_date y m d = true ->
  tm ∈ month_tokens m -> td ∈ day_tokens d -> ty ∈ year_tokens y ->
  strptime false (tm +:+ "/" +:+ td +:+ "/" +:+ ty) = Some (y, m, d)
  \/ (strptime false (tm +:+ "/" +:+ td +:+ "/" +:+ ty) = None
      /\ strptime true (tm +:+ "/" +:+ td +:+ "/" +:+ ty) = Some (y, m, d)).
Proof.
  intros Hv Htm Htd Hty.
  destruct (valid_date_range y m d Hv) as (Hy & Hm & Hd).
  assert (ty = zero_pad 2 (y mod 100) /\ 1969 <= y <= 2068 \/ ty = zero_pad 4 y)
    as Hcase.
  { unfold year_tokens in Hty.
    destruct ((1969 <=? y) && (y <=? 2068)) eqn:Hr.
    - apply andb_true_iff in Hr as [H1%Z.leb_le H2%Z.leb_le].
      apply elem_of_cons in Hty as [->|Hty]; [by left|].
      apply list_elem_of_singleton in Hty. by right.
    - apply list_elem_of_singleton in Hty. by right. }
  destruct Hcase as [[E Hc]|E]; subst ty.
  - left. unfold strptime.
    destruct (re_mdy_tokens re_y m d tm td (zero_pad 2 (y mod 100)) Hm Hd Htm Htd)
      as (-> & Im & Id).
    assert (0 <= y mod 100 <= 99) as Hyy by (Z.div_mod_to_equations; lia).
    rewrite (re_y_two _ Hyy), bind_one. cbn [head is_empty].
    rewrite Im, Id, (py_int_zero_pad_2 _ Hyy), (century_mod _ Hc), Hv. done.
  - right. unfold strptime.
    destruct (re_mdy_tokens re_y m d tm td (zero_pad 4 y) Hm Hd Htm Htd) as (-> & _ & _).
    destruct (re_mdy_tokens re_Y m d tm td (zero_pad 4 y) Hm Hd Htm Htd) as (-> & Im & Id).
    destruct (re_y_four y) as (a & b & ->).
    rewrite (re_Y_four y), !bind_one. cbn [head is_empty]. split; [done|].
    rewrite Im, Id, (py_int_zero_pad_4 y), Hv by lia. done.
Qed.

Lemma strptime_inv (four : bool) (t : string) (y m d : Z) :
  strptime four t = Some (y, m, d) ->
  valid_date y m d = true
  /\ exists tm td ty,
       t = tm +:+ "/" +:+ td +:+ "/" +:+ ty
       /\ tm ∈ month_tokens m /\ td ∈ day_tokens d /\ ty ∈ year_tokens y.
Proof.
  unfold strptime.
  destruct (head _) as [[[[a b] yt] rest]|] eqn:Hh; [|done].
  destruct (is_empty rest) eqn:Hrest; [|done]. apply is_empty_true in Hrest as ->.
  destruct (valid_date _ _ _) eqn:Hv; [|done]. intros [= <- <- <-].
  split; [done|]. exists a, b, yt.
  apply head_elem_of in Hh. unfold re_mdy in Hh.
  apply list_elem_of_bind in Hh as ([a' r2] & Hh & Ha).
  apply list_elem_of_bind in Hh as ([b' r4] & Hh & Hb).
  apply list_elem_of_bind in Hh as ([y' r5] & [= <- <- <- <-]%list_elem_of_singleton & Hy).
  apply re_m_slash_inv in Ha as (-> & _ & Ha).
  apply re_d_slash_inv in Hb as (-> & _ & Hb).
  split; [|split; [done|split; [done|]]].
  - change (a +:+ "/" +:+ b +:+ "/" +:+ yt) with (a +:+ String "/" (b +:+ String "/" yt)).
    do 2 f_equal. destruct four.
    + apply re_Y_inv in Hy as (-> & _). by rewrite append_nil_r.
    + apply re_y_inv in Hy as (-> & _). by rewrite append_nil_r.
  - destruct four.
    + apply re_Y_inv in Hy as (_ & _ & Hy). unfold year_tokens.
      destruct (_ && _); rewrite Hy at 1.
      * apply list_elem_of_further, list_elem_of_here.
      * apply list_elem_of_here.
    + apply re_y_inv in Hy as (_ & Hr & Hy). unfold year_tokens.
      destruct (century_range _ Hr) as ((H1%Z.leb_le & H2%Z.leb_le) & Hmod).
      rewrite H1, H2, Hmod. simpl. rewrite Hy at 1. apply list_elem_of_here.
Qed.




End DateParsing.

(* ================================================================== *)
(** * More on Python strings: stripping, splitting, replacing *)
(* ================================================================== *)

Section StripFacts.

Variable p : ascii -> bool.

Lemma lstrip_by_head (s : string) :
  lstrip_by p s = EmptyString
  \/ exists c r, lstrip_by p s = String c r /\ p c = false.
Proof.
  induction s as [|c s IH]; [by left|]. simpl.
  destruct (p c) eqn:Hc; [done|]. right. by exists c, s.
Qed.

Lemma lstrip_by_fixed (c : ascii) (r : string) :
  p c = false -> lstrip_by p (String c r) = String c r.
Proof. simpl. by intros ->. Qed.

Lemma rstrip_by_cons (c : ascii) (s : string) :
  rstrip_by p (String c s)
  = match rstrip_by p s with
    | EmptyString => if p c then EmptyString else String c EmptyString
    | r => String c r
    end.
Proof. reflexivity. Qed.

Lemma rstrip_by_idem (s : string) :
  rstrip_by p (rstrip_by p s) = rstrip_by p s.
Proof.
  induction s as [|c s IH]; [done|]. rewrite rstrip_by_cons.
  destruct (rstrip_by p s) as [|c1 r1] eqn:Hr.
  - destruct (p c) eqn:Hc; [done|]. rewrite rstrip_by_cons. simpl. by rewrite Hc.
  - rewrite rstrip_by_cons, IH. done.
Qed.

Lemma rstrip_by_lstrip (t : string) :
  rstrip_by p t = t -> rstrip_by p (lstrip_by p t) = lstrip_by p t.
Proof.
  induction t as [|c t IH]; [done|]. intros Ht. simpl lstrip_by.
  destruct (p c) eqn:Hc; [|done]. apply IH.
  rewrite rstrip_by_cons, Hc in Ht. destruct (rstrip_by p t); [done|].
  by injection Ht.
Qed.

Lemma lstrip_by_idem (s : string) :
  lstrip_by p (lstrip_by p s) = lstrip_by p s.
Proof.
  destruct (lstrip_by_head s) as [->|(c & r & -> & Hc)]; [done|].
  by apply lstrip_by_fixed.
Qed.

Lemma rstrip_by_keeps_head (c : ascii) (s : string) :
  p c = false -> exists r, rstrip_by p (String c s) = String c r.
Proof.
  intros Hc. rewrite rstrip_by_cons, Hc. destruct (rstrip_by p s); eauto.
Qed.

End StripFacts.

(** [s.strip().strip()] is [s.strip()]. *)
Lemma strip_idem (s : string) : strip (strip s) = strip s.
Proof.
  unfold strip.
  rewrite (rstrip_by_lstrip is_space (rstrip_by is_space s)) by apply rstrip_by_idem.
  apply lstrip_by_idem.
Qed.

Lemma strip_head (s : string) :
  strip s <> EmptyString ->
  exists c r, strip s = String c r /\ is_space c = false.
Proof.
  unfold strip. intros Hs.
  by destruct (lstrip_by_head is_space (rstrip_by is_space s)) as [?|?].
Qed.

Lemma strip_keeps_head (c : ascii) (s : string) :
  is_space c = false -> exists r, strip (String c s) = String c r.
Proof.
  intros Hc. unfold strip.
  destruct (rstrip_by_keeps_head is_space c s Hc) as (r & ->).
  exists r. by apply lstrip_by_fixed.
Qed.

Lemma is_newline_eq (c : ascii) : is_newline c = true <-> c = ascii_of_nat 10.
Proof.
  unfold is_newline, code. rewrite N.eqb_eq. split.
  - intros H. rewrite <- (ascii_N_embedding c), H. reflexivity.
  - by intros ->.
Qed.

Lemma prefix_nl (c : ascii) (s : string) :
  String.prefix nl (String c s) = is_newline c.
Proof.
  unfold nl. rewrite prefix_cons, prefix_nil.
  destruct (ascii_dec (ascii_of_nat 10) c) as [Heq|Hne].
  - by subst c.
  - destruct (is_newline c) eqn:Hc; [|done].
    apply is_newline_eq in Hc. congruence.
Qed.

Lemma split_nl_cons (cur : string) (c : ascii) (s : string) :
  split_from nl 0 cur (String c s)
  = if is_newline c then cur :: split_from nl 0 EmptyString s
    else split_from nl 0 (cur +:+ String c EmptyString) s.
Proof. cbn [split_from]. by rewrite prefix_nl. Qed.

(** The first piece of a split starts with what was read so far. *)
Lemma split_nl_head (s cur : string) :
  exists a l, split_from nl 0 cur s = (cur +:+ a) :: l.
Proof.
  revert cur. induction s as [|c s IH]; intros cur.
  - exists EmptyString, []. simpl. by rewrite append_nil_r.
  - rewrite split_nl_cons. destruct (is_newline c).
    + exists EmptyString, (split_from nl 0 EmptyString s). by rewrite append_nil_r.
    + destruct (IH (cur +:+ String c EmptyString)) as (a & l & ->).
      exists (String c a), l. by rewrite append_assoc.
Qed.

(** A text that starts with a character that is not white space has a
    line that is not blank. *)
Lemma stripped_pieces_nonempty (c : ascii) (r : string) :
  is_space c = false -> stripped_pieces nl (String c r) <> [].
Proof.
  intros Hc. unfold stripped_pieces, split. rewrite split_nl_cons.
  destruct (is_newline c) eqn:Hn.
  { apply is_newline_eq in Hn. subst c. by vm_compute in Hc. }
  destruct (split_nl_head r (EmptyString +:+ String c EmptyString)) as (a & l & ->).
  change ((EmptyString +:+ String c EmptyString) +:+ a) with (String c a).
  simpl map. destruct (strip_keeps_head c a Hc) as (r' & ->).
  by rewrite filter_cons_True.
Qed.

Lemma has_char_cons (p : ascii -> bool) (c : ascii) (s : string) :
  has_char p (String c s) = p c || has_char p s.
Proof. reflexivity. Qed.

Lemma has_char_app (p : ascii -> bool) (a b : string) :
  has_char p (a +:+ b) = has_char p a || has_char p b.
Proof.
  induction a as [|c a IH]; [done|].
  by rewrite append_cons, !has_char_cons, IH, orb_assoc.
Qed.

(** Replacing writes only characters of the text and of the replacement. *)
Lemma replace_from_chars (p : ascii -> bool) (old new : string) (k : nat) (s : string) :
  has_char p new = false -> has_char p s = false ->
  has_char p (replace_from old new k s) = false.
Proof.
  intros Hnew. revert k. induction s as [|c s IH]; intros k Hs; [done|].
  rewrite has_char_cons in Hs. apply orb_false_iff in Hs as [Hc Hs].
  destruct k as [|k]; [|by apply IH].
  rewrite replace_from_cons. destruct (String.prefix old (String c s)).
  - rewrite has_char_app, Hnew. by apply IH.
  - rewrite has_char_cons, Hc. by apply IH.
Qed.

(** [s.replace("\n", " ")] has no newline left. *)
Lemma replace_nl_clean (s : string) :
  has_char is_newline (replace nl " " s) = false.
Proof.
  unfold replace. induction s as [|c s IH]; [done|].
  rewrite replace_from_cons, prefix_nl.
  destruct (is_newline c) eqn:Hc.
  - change (pred (String.length nl)) with 0%nat.
    by rewrite has_char_app, IH.
  - by rewrite has_char_cons, Hc, IH.
Qed.

(* ================================================================== *)
(** * Stage 1: what the fields of an emitted row look like *)
(* ================================================================== *)

Section TrackerFields.

Import Tracker.

Lemma process_row_fields (row : pdf_row) (r : TrackerRow) :
  process_row row = Some r ->
  has_char is_newline (ndaa_year r) = false
  /\ has_char is_newline (ndaa_section r) = false
  /\ has_char is_newline (section_title r) = false
  /\ strip (frn_citation r) = frn_citation r
  /\ strip (fr_date r) = fr_date r.
Proof.
  unfold process_row.
  destruct (length row <? 17)%nat; [discriminate|].
  destruct (_ || _); [discriminate|].
  destruct (is_empty _); [discriminate|].
  intros [= <-]. cbn [ndaa_year ndaa_section section_title frn_citation fr_date].
  repeat split.
  - apply replace_from_chars; [reflexivity|apply replace_nl_clean].
  - apply replace_nl_clean.
  - apply replace_nl_clean.
  - apply strip_idem.
  - apply strip_idem.
Qed.

(** X1.  In every row the tracker parser emits, ndaa_year, ndaa_section
    and section_title hold no newline, and frn_citation and fr_date have
    no white space around them. *)
Theorem tracker_fields_clean (pdf : list pdf_page) (r : TrackerRow) :
  r ∈ extract_final_rule_citations pdf ->
  has_char is_newline (ndaa_year r) = false
  /\ has_char is_newline (ndaa_section r) = false
  /\ has_char is_newline (section_title r) = false
  /\ strip (frn_citation r) = frn_citation r
  /\ strip (fr_date r) = fr_date r.
Proof.
  unfold extract_final_rule_citations.
  intros (row & _ & Hrow)%list_elem_of_omap. by eapply process_row_fields.
Qed.

Lemma tracker_fields_clean_witness :
  has_char is_newline (ndaa_year complete_row_parsed) = false
  /\ has_char is_newline (ndaa_section complete_row_parsed) = false
  /\ has_char is_newline (section_title complete_row_parsed) = false
  /\ strip (frn_citation complete_row_parsed) = frn_citation complete_row_parsed
  /\ strip (fr_date complete_row_parsed) = fr_date complete_row_parsed.
Proof.
  apply (tracker_fields_clean [[[blank_year_row; complete_row]]]).
  vm_compute. apply list_elem_of_here.
Defined.

End TrackerFields.

(* ================================================================== *)
(** * Stage 2: what a lookup returns, and rows that cannot fail *)
(* ================================================================== *)

Section ResolverMore.

Import Resolver.

Variable api : string -> string -> api_response.

Lemma page_match_some (page : string) (results : list fr_doc) (doc : fr_doc) :
  page_match page results = Some doc ->
  doc ∈ results /\ start_page_str doc = page.
Proof.
  unfold page_match. intros [Hin Heq]%find_some. split.
  - by apply list_elem_of_In.
  - by apply String.eqb_eq.
Qed.

(** X2.  A document that [fetch_citation_by_date_and_page] returns is
    one the API listed for the parsed date, under the agency DARS or,
    when DARS listed no document starting on that page, under the
    Department of Defense, and its start page, printed, is the page of
    the citation. *)
Theorem fetch_result_matches (citation fr_date : string) (doc : fr_doc) :
  fetch_citation_by_date_and_page api citation fr_date = Some doc ->
  exists volume page iso_date,
    split " FR " (strip citation) = [volume; page]
    /\ parse_fr_date fr_date = Some iso_date
    /\ start_page_str doc = strip page
    /\ ((exists results, api DARS iso_date = Json results /\ doc ∈ results)
        \/ (exists results results',
              api DARS iso_date = Json results
              /\ page_match (strip page) results = None
              /\ api DOD iso_date = Json results' /\ doc ∈ results')).
Proof.
  unfold fetch_citation_by_date_and_page.
  destruct (split " FR " (strip citation)) as [|volume [|page [|x l]]]; try done.
  destruct (parse_fr_date fr_date) as [iso_date|]; [|done].
  destruct (api DARS iso_date) as [|results] eqn:Hdars; [done|].
  destruct (page_match (strip page) results) as [r|] eqn:Hmatch.
  - intros [= ->]. apply page_match_some in Hmatch as [Hin Hpage].
    exists volume, page, iso_date. repeat split; try done. left. by exists results.
  - destruct (api DOD iso_date) as [|results'] eqn:Hdod; [done|].
    intros [Hin Hpage]%page_match_some.
    exists volume, page, iso_date. repeat split; try done.
    right. by exists results, results'.
Qed.

Lemma resolve_row_blank_citation (c d : cell) :
  isna c || is_empty (strip (py_str c)) = true ->
  resolve_row api c d = Ok (EmptyString, EmptyString).
Proof. unfold resolve_row. by intros ->. Qed.

Lemma date_pieces_nonempty (d : cell) :
  d = NaN \/ (exists s, d = Str s /\ strip s <> EmptyString) ->
  stripped_pieces nl (strip (py_str d)) <> [].
Proof.
  intros [->|(s & -> & Hs)]; [by vm_compute|]. simpl.
  destruct (strip_head s Hs) as (c & r & -> & Hc).
  by apply stripped_pieces_nonempty.
Qed.

Lemma resolve_row_total (c d : cell) :
  d = NaN \/ (exists s, d = Str s /\ strip s <> EmptyString) ->
  exists r, resolve_row api c d = Ok r.
Proof.
  intros Hd. destruct (isna c || is_empty (strip (py_str c))) eqn:Hc.
  - eexists. by apply resolve_row_blank_citation.
  - apply orb_false_iff in Hc as [Hna Hne]. apply is_empty_false in Hne.
    eexists. apply resolve_row_with_dates; [done|done|].
    by apply date_pieces_nonempty.
Qed.

Lemma resolve_rows_lengths (rows : list (cell * cell)) (cols : list string * list string) :
  resolve_rows api rows = Ok cols ->
  length cols.1 = length rows /\ length cols.2 = length rows.
Proof.
  revert cols. induction rows as [|[c d] rows IH]; intros cols; cbn [resolve_rows].
  - by intros [= <-].
  - destruct (resolve_row api c d) as [r|e]; [|done]. cbn [res_bind].
    destruct (resolve_rows api rows) as [cols'|e]; [|done]. cbn [res_bind].
    intros [= <-]. destruct (IH cols' eq_refl) as [H1 H2]. simpl. by rewrite H1, H2.
Qed.

(** X3.  When every date cell of a batch is NaN or holds a character
    that is not white space, the row loop runs to its end: no exception,
    and one title and one URL entry per row. *)
Theorem resolve_rows_total (rows : list (cell * cell)) :
  (forall c d, (c, d) ∈ rows ->
     d = NaN \/ (exists s, d = Str s /\ strip s <> EmptyString)) ->
  exists cols,
    resolve_rows api rows = Ok cols
    /\ length cols.1 = length rows /\ length cols.2 = length rows.
Proof.
  intros Hrows.
  assert (exists cols, resolve_rows api rows = Ok cols) as (cols & Hcols).
  { induction rows as [|[c d] rows IH]; cbn [resolve_rows]; [by eexists|].
    destruct (resolve_row_total c d) as (r & ->).
    { apply (Hrows c d), list_elem_of_here. }
    destruct IH as (cols & ->).
    { intros c' d' Hin. by apply (Hrows c' d'), list_elem_of_further. }
    by eexists. }
  exists cols. split; [done|]. by apply resolve_rows_lengths.
Qed.

(** X4.  A row with a citation and a date has as many titles and as many
    URLs as citations, whatever the number of dates: the last date is
    repeated for the citations beyond the dates, the dates beyond the
    citations are not used; each title is "Not Found" or the title of the
    document found for its citation. *)
Theorem resolve_row_entries (c d : cell) :
  isna c = false ->
  strip (py_str c) <> EmptyString ->
  stripped_pieces nl (strip (py_str d)) <> [] ->
  exists found : list (string * string),
    resolve_row api c d = Ok (join nl (map fst found), join nl (map snd found))
    /\ length found = length (stripped_pieces nl (strip (py_str c)))
    /\ forall i entry,
         found !! i = Some entry ->
         exists citation date,
           stripped_pieces nl (strip (py_str c)) !! i = Some citation
           /\ padded_dates (length (stripped_pieces nl (strip (py_str c))))
                (stripped_pieces nl (strip (py_str d))) !! i = Some date
           /\ entry = resolve_one api (citation, date).
Proof.
  intros Hna Hc Hd.
  set (cits := stripped_pieces nl (strip (py_str c))).
  set (dates := padded_dates (length cits) (stripped_pieces nl (strip (py_str d)))).
  exists (map (resolve_one api) (zip cits dates)). split; [|split].
  - rewrite (resolve_row_with_dates api c d Hna Hc Hd). fold cits dates.
    by rewrite !map_map.
  - rewrite length_map, length_zip. unfold dates, padded_dates.
    rewrite length_app, length_replicate. lia.
  - intros i entry Hi. rewrite list_lookup_fmap in Hi.
    destruct (zip cits dates !! i) as [[citation date]|] eqn:Hz; [|done].
    injection Hi as <-. exists citation, date.
    apply lookup_zip_with_Some in Hz as (x & y & [= -> ->] & Hx & Hy). done.
Qed.

End ResolverMore.

Lemma fetch_result_matches_witness :
  exists volume page iso_date,
    split " FR " (strip "88 FR 73238") = [volume; page]
    /\ Resolver.parse_fr_date "12/26/23" = Some iso_date
    /\ Resolver.start_page_str Resolver.doc_73238 = strip page
    /\ ((exists results,
           Resolver.api_one Resolver.DARS iso_date = Resolver.Json results
           /\ Resolver.doc_73238 ∈ results)
        \/ (exists results results',
              Resolver.api_one Resolver.DARS iso_date = Resolver.Json results
              /\ Resolver.page_match (strip page) results = None
              /\ Resolver.api_one Resolver.DOD iso_date = Resolver.Json results'
              /\ Resolver.doc_73238 ∈ results')).
Proof.
  apply (fetch_result_matches Resolver.api_one "88 FR 73238" "12/26/23").
  vm_compute. reflexivity.
Defined.

Lemma resolve_rows_total_witness :
  exists cols,
    Resolver.resolve_rows Resolver.api_one
      [(Str "88 FR 73238", Str "12/26/23"); (Str "88 FR 73239", NaN)] = Ok cols
    /\ length cols.1 = 2%nat /\ length cols.2 = 2%nat.
Proof.
  apply (resolve_rows_total Resolver.api_one
           [(Str "88 FR 73238", Str "12/26/23"); (Str "88 FR 73239", NaN)]).
  intros c d [[= -> ->]|[[= -> ->]|[]%elem_of_nil]%elem_of_cons]%elem_of_cons.
  - right. exists "12/26/23". split; [reflexivity|]. vm_compute. discriminate.
  - by left.
Defined.

Lemma resolve_row_entries_witness :
  exists found : list (string * string),
    Resolver.resolve_row Resolver.api_one
      (Str ("88 FR 73238" +:+ nl +:+ "88 FR 73239")) (Str "12/26/23")
    = Ok (join nl (map fst found), join nl (map snd found))
    /\ length found
       = length (stripped_pieces nl
                   (strip (py_str (Str ("88 FR 73238" +:+ nl +:+ "88 FR 73239")))))
    /\ forall i entry,
         found !! i = Some entry ->
         exists citation date,
           stripped_pieces nl
             (strip (py_str (Str ("88 FR 73238" +:+ nl +:+ "88 FR 73239")))) !! i
           = Some citation
           /\ Resolver.padded_dates
                (length (stripped_pieces nl
                   (strip (py_str (Str ("88 FR 73238" +:+ nl +:+ "88 FR 73239"))))))
                (stripped_pieces nl (strip (py_str (Str "12/26/23")))) !! i
              = Some date
           /\ entry = Resolver.resolve_one Resolver.api_one (citation, date).
Proof.
  apply (resolve_row_entries Resolver.api_one).
  - reflexivity.
  - vm_compute. discriminate.
  - vm_compute. discriminate.
Defined.

Section DatesMore.

Import Resolver.

Lemma strftime_chars (y m d : Z) :
  list_ascii_of_string (strftime (y, m, d))
  = [digit_char ((y / 10 / 10 / 10) mod 10); digit_char ((y / 10 / 10) mod 10);
     digit_char ((y / 10) mod 10); digit_char (y mod 10); "-"%char;
     digit_char ((m / 10) mod 10); digit_char (m mod 10); "-"%char;
     digit_char ((d / 10) mod 10); digit_char (d mod 10)].
Proof. reflexivity. Qed.

Lemma strftime_shape (y m d : Z) : iso_shape (strftime (y, m, d)) = true.
Proof.
  unfold iso_shape. rewrite strftime_chars.
  rewrite !(proj1 (digit_char_facts _ (mod10_range _))). reflexivity.
Qed.



(** X6.  The two stages composed: a row the tracker parser emits, read
    back with its date as it was written or as NaN (an empty date),
    passes the row body of the resolver without an exception, whatever
    the citation cell holds. *)
Theorem tracker_rows_resolve
    (api : string -> string -> api_response)
    (pdf : list Tracker.pdf_page) (r : Tracker.TrackerRow) (c d : cell) :
  r ∈ Tracker.extract_final_rule_citations pdf ->
  d = NaN \/ (d = Str (Tracker.fr_date r) /\ Tracker.fr_date r <> EmptyString) ->
  exists titles_urls, resolve_row api c d = Ok titles_urls.
Proof.
  intros Hr Hd. apply resolve_row_total.
  destruct Hd as [->|[-> Hne]]; [by left|]. right.
  exists (Tracker.fr_date r). split; [done|].
  unfold Tracker.extract_final_rule_citations in Hr.
  apply list_elem_of_omap in Hr as (row & _ & Hrow).
  destruct (process_row_fields row r Hrow) as (_ & _ & _ & _ & ->). done.
Qed.

Lemma tracker_rows_resolve_witness :
  exists titles_urls,
    resolve_row api_one (Str (Tracker.frn_citation Tracker.complete_row_parsed))
      (Str (Tracker.fr_date Tracker.complete_row_parsed)) = Ok titles_urls.
Proof.
  apply (tracker_rows_resolve api_one [[[Tracker.complete_row]]]
           Tracker.complete_row_parsed).
  - vm_compute. apply list_elem_of_here.
  - right. split; [reflexivity|discriminate].
Defined.

End DatesMore.

(* ================================================================== *)
(** * Stage 3: the download list and the download loop *)
(* ================================================================== *)

Section FetcherList.

Import Paths Fetcher.

Variable urlparse_path : string -> res string.

Local Abbreviation url_to_filename := (url_to_filename urlparse_path).
Local Abbreviation collect_urls := (collect_urls urlparse_path).
Local Abbreviation collect_rows := (collect_rows urlparse_path).

(** [os.path.basename] leaves no slash. *)
Lemma basename_clean (p : string) : has_slash (basename p) = false.
Proof.
  induction p as [|c p IH]; [done|]. rewrite basename_cons.
  destruct (has_slash p) eqn:Hp; [done|].
  destruct (is_slash c) eqn:Hc; [done|].
  by rewrite has_slash_cons, Hc, Hp.
Qed.

Lemma path_join_output (name : string) :
  has_slash name = false ->
  path_join OUTPUT_DIR name = OUTPUT_DIR +:+ "/" +:+ name.
Proof.
  intros Hname. unfold path_join.
  assert (String.prefix "/" name = false) as ->.
  { destruct name as [|c name]; [done|]. rewrite prefix_slash.
    rewrite has_slash_cons in Hname. by apply orb_false_iff in Hname as [-> _]. }
  reflexivity.
Qed.

(** The invariant of the collecting loops: the URLs listed are distinct,
    they are the URLs seen, and each is listed with the path of its file
    name under the output directory. *)
Local Abbreviation collected seen dl :=
  (NoDup (map fst dl)
   /\ (forall u : string, u ∈ seen <-> u ∈ map fst dl)
   /\ forall u p : string, (u, p) ∈ dl%list ->
        exists name, url_to_filename u = Ok name /\ p = path_join OUTPUT_DIR name).

Lemma collect_urls_inv (urls : list string) (seen : gset string)
    (dl : list (string * string)) (st : gset string * list (string * string)) :
  collect_urls urls seen dl = Ok st ->
  collected seen dl ->
  collected st.1 st.2
  /\ forall u, u ∈ map fst st.2 <-> u ∈ map fst dl \/ u ∈ urls.
Proof.
  revert seen dl. induction urls as [|url urls IH]; intros seen dl; cbn [Fetcher.collect_urls].
  - intros [= <-] Hinv. split; [done|]. intros u. rewrite elem_of_nil. tauto.
  - intros Hst (Hnd & Hseen & Hpath). destruct (decide (url ∈ seen)) as [Hin|Hnew].
    + destruct (IH _ _ Hst) as [Hinv Hmem]; [done|]. split; [done|].
      intros u. rewrite Hmem, elem_of_cons. split; [tauto|].
      intros [?|[->|?]]; [tauto| |tauto]. left. by apply Hseen.
    + destruct (url_to_filename url) as [name|e] eqn:Hname; [|done].
      cbn [res_bind] in Hst. destruct (IH _ _ Hst) as [Hinv Hmem].
      { rewrite map_app. simpl. split; [|split].
        - apply NoDup_app. split; [done|]. split; [|apply NoDup_singleton].
          intros x Hx [->|[]%elem_of_nil]%elem_of_cons. by apply Hnew, Hseen.
        - intros u. rewrite elem_of_union, elem_of_singleton, elem_of_app,
            list_elem_of_singleton, Hseen. tauto.
        - intros u p [Hup|[= -> ->]%list_elem_of_singleton]%elem_of_app.
          + by apply Hpath.
          + by exists name. }
      split; [done|]. intros u. rewrite Hmem, map_app, elem_of_app. simpl.
      rewrite list_elem_of_singleton, elem_of_cons. tauto.
Qed.

Lemma collect_rows_inv (cells : list cell) (seen : gset string)
    (dl : list (string * string)) (st : gset string * list (string * string)) :
  collect_rows cells seen dl = Ok st ->
  collected seen dl ->
  collected st.1 st.2
  /\ forall u, u ∈ map fst st.2
               <-> u ∈ map fst dl \/ exists c, c ∈ cells /\ u ∈ cell_urls c.
Proof.
  revert seen dl. induction cells as [|c cells IH]; intros seen dl; cbn [Fetcher.collect_rows].
  - intros [= <-] Hinv. split; [done|]. intros u. split; [tauto|].
    intros [?|(c & []%elem_of_nil & _)]. done.
  - intros Hst Hinv. unfold cell_urls in *.
    destruct (isna c || is_empty (strip (py_str c))) eqn:Hskip.
    + destruct (IH _ _ Hst Hinv) as [Hinv' Hmem]. split; [done|].
      intros u. rewrite Hmem. split.
      * intros [?|(c' & Hc' & Hu)]; [tauto|]. right. exists c'.
        split; [by apply list_elem_of_further|done].
      * intros [?|(c' & [->|Hc']%elem_of_cons & Hu)]; [tauto| |].
        -- unfold cell_urls in Hu. rewrite Hskip in Hu. by apply elem_of_nil in Hu.
        -- right. by exists c'.
    + destruct (collect_urls (stripped_pieces nl (py_str c)) seen dl)
        as [st1|e] eqn:Hurls; [|done].
      cbn [res_bind] in Hst.
      destruct (collect_urls_inv _ _ _ _ Hurls Hinv) as [Hinv1 Hmem1].
      destruct (IH _ _ Hst Hinv1) as [Hinv' Hmem]. split; [done|].
      intros u. rewrite Hmem, Hmem1. split.
      * intros [[?|Hu]|(c' & Hc' & Hu)]; [tauto| |].
        -- right. exists c. split; [apply list_elem_of_here|].
           unfold cell_urls. by rewrite Hskip.
        -- right. exists c'. split; [by apply list_elem_of_further|done].
      * intros [?|(c' & [->|Hc']%elem_of_cons & Hu)]; [tauto| |].
        -- unfold cell_urls in Hu. rewrite Hskip in Hu. tauto.
        -- right. by exists c'.
Qed.

Lemma download_list_collected (cells : list cell) (dl : list (string * string)) :
  download_list_of urlparse_path cells = Ok dl ->
  NoDup (map fst dl)
  /\ (forall u, u ∈ map fst dl <-> exists c, c ∈ cells /\ u ∈ cell_urls c)
  /\ forall u p, (u, p) ∈ dl ->
       exists name, url_to_filename u = Ok name /\ p = path_join OUTPUT_DIR name.
Proof.
  unfold download_list_of.
  destruct (collect_rows cells ∅ []) as [st|e] eqn:Hrows; [|done].
  cbn [res_bind]. intros [= <-].
  destruct (collect_rows_inv _ _ _ _ Hrows) as [(Hnd & _ & Hpath) Hmem].
  { split; [constructor|]. split.
    - intros u. by rewrite elem_of_empty, elem_of_nil.
    - by intros u p ?%elem_of_nil. }
  split; [done|]. split; [|done].
  intros u. rewrite Hmem, elem_of_nil. tauto.
Qed.

(** X7.  The download list holds every URL of the column once: its URLs
    are distinct, and a URL is listed exactly when it is a stripped,
    non-empty line of a cell that is not NaN and not blank. *)
Theorem download_list_distinct (cells : list cell) (dl : list (string * string)) :
  download_list_of urlparse_path cells = Ok dl ->
  NoDup (map fst dl)
  /\ forall u, u ∈ map fst dl <-> exists c, c ∈ cells /\ u ∈ cell_urls c.
Proof.
  intros Hdl. destruct (download_list_collected cells dl Hdl) as (H1 & H2 & _). done.
Qed.

(** X8.  Every path of the download list is the output directory, a
    slash, and the file name of its URL, which holds no slash: the
    fetcher writes nowhere but directly under its output directory. *)
Theorem download_paths_in_output_dir
    (cells : list cell) (dl : list (string * string)) (u p : string) :
  download_list_of urlparse_path cells = Ok dl ->
  (u, p) ∈ dl ->
  exists name,
    url_to_filename u = Ok name
    /\ has_slash name = false
    /\ p = OUTPUT_DIR +:+ "/" +:+ name.
Proof.
  intros Hdl Hin.
  destruct (download_list_collected cells dl Hdl) as (_ & _ & Hpath).
  destruct (Hpath u p Hin) as (name & Hname & ->).
  exists name. split; [done|].
  assert (has_slash name = false) as Hclean.
  { unfold Fetcher.url_to_filename in Hname.
    destruct (urlparse_path (strip u)); [|done].
    injection Hname as <-. apply basename_clean. }
  split; [done|]. by apply path_join_output.
Qed.

End FetcherList.

Section FetcherLoop.

Import Paths Fetcher.

Variable http_get : string -> option string.

Local Abbreviation download_step := (download_step http_get).

Lemma download_step_counts (st : run) (item : string * string) :
  (success (download_step st item) + failed (download_step st item)
   = S (success st + failed st)
   /\ failed (download_step st item) + length (requests st)
      <= failed st + length (requests (download_step st item))
   /\ length (requests (download_step st item)) <= S (length (requests st)))%nat.
Proof.
  destruct item as [url path]. unfold Fetcher.download_step.
  destruct (exists_nonempty (files st) path); [simpl; lia|].
  destruct (download_html http_get url path (files st)) as [[] fs'];
    simpl; rewrite length_app; simpl; lia.
Qed.

Lemma download_fold_counts (dl : list (string * string)) (st : run) :
  (success (fold_left download_step dl st) + failed (fold_left download_step dl st)
   = success st + failed st + length dl
   /\ failed (fold_left download_step dl st) + length (requests st)
      <= failed st + length (requests (fold_left download_step dl st))
   /\ length (requests (fold_left download_step dl st))
      <= length (requests st) + length dl)%nat.
Proof.
  revert st. induction dl as [|item dl IH]; intros st; cbn [fold_left].
  - simpl. lia.
  - destruct (IH (download_step st item)) as (H1 & H2 & H3).
    destruct (download_step_counts st item) as (S1 & S2 & S3). simpl. lia.
Qed.

(** X9.  The download loop counts every entry of the list once, as a
    success or as a failure; every failure is a request that was made,
    and there are no more requests than entries. *)
Theorem download_counts (fs : disk) (dl : list (string * string)) :
  (success (download_all http_get fs dl) + failed (download_all http_get fs dl)
   = length dl
   /\ failed (download_all http_get fs dl)
      <= length (requests (download_all http_get fs dl))
   /\ length (requests (download_all http_get fs dl)) <= length dl)%nat.
Proof.
  unfold download_all.
  pose proof (download_fold_counts dl
                {| files := fs; success := 0; failed := 0; requests := [] |}) as H.
  simpl in H. lia.
Qed.

Lemma download_step_keeps (st : run) (item : string * string) (p : string) :
  exists_nonempty (files st) p = true ->
  files (download_step st item) !! p = files st !! p.
Proof.
  destruct item as [url path]. unfold Fetcher.download_step. intros Hp.
  destruct (exists_nonempty (files st) path) eqn:Hpath; [done|].
  unfold download_html. destruct (http_get (strip url)); [|done].
  destruct (ends_with_slash path); [done|]. simpl.
  apply lookup_insert_ne. intros ->. congruence.
Qed.

Lemma download_fold_keeps (dl : list (string * string)) (st : run) (p : string) :
  exists_nonempty (files st) p = true ->
  files (fold_left download_step dl st) !! p = files st !! p.
Proof.
  revert st. induction dl as [|item dl IH]; intros st Hp; cbn [fold_left]; [done|].
  pose proof (download_step_keeps st item p Hp) as Hstep.
  rewrite IH; [done|]. unfold exists_nonempty in *. by rewrite Hstep.
Qed.

(** X10.  A file that is on disk and not empty when the loop starts is
    never written: after the run it holds what it held. *)
Theorem download_keeps_files (fs : disk) (dl : list (string * string)) (p : string) :
  exists_nonempty fs p = true ->
  files (download_all http_get fs dl) !! p = fs !! p.
Proof. intros Hp. unfold download_all. by rewrite download_fold_keeps. Qed.

Lemma download_step_present_after (st : run) (u p : string) :
  (failed st <= failed (download_step st (u, p)))%nat
  /\ (forall q, is_Some (files st !! q) -> is_Some (files (download_step st (u, p)) !! q))
  /\ (failed (download_step st (u, p)) = failed st ->
      is_Some (files (download_step st (u, p)) !! p)).
Proof.
  unfold Fetcher.download_step.
  destruct (exists_nonempty (files st) p) eqn:Hp.
  - simpl. split; [lia|]. split; [done|]. intros _.
    unfold exists_nonempty in Hp. by destruct (files st !! p).
  - unfold download_html. destruct (http_get (strip u)) as [text|].
    + destruct (ends_with_slash p).
      * simpl. split; [lia|]. split; [done|]. lia.
      * simpl. split; [lia|]. split.
        -- intros q Hq. rewrite lookup_insert. by case_decide.
        -- intros _. by rewrite lookup_insert_eq.
    + simpl. split; [lia|]. split; [done|]. lia.
Qed.

Lemma download_fold_present (dl : list (string * string)) (st : run) :
  (failed st <= failed (fold_left download_step dl st))%nat
  /\ (forall q, is_Some (files st !! q) ->
                is_Some (files (fold_left download_step dl st) !! q))
  /\ (failed (fold_left download_step dl st) = failed st ->
      forall u p, (u, p) ∈ dl ->
                  is_Some (files (fold_left download_step dl st) !! p)).
Proof.
  revert st. induction dl as [|[u p] dl IH]; intros st; cbn [fold_left].
  - split; [lia|]. split; [done|]. by intros _ u p ?%elem_of_nil.
  - destruct (download_step_present_after st u p) as (S1 & S2 & S3).
    destruct (IH (download_step st (u, p))) as (H1 & H2 & H3).
    split; [lia|]. split; [by auto|].
    intros Hf u' p' [[= -> ->]|Hin]%elem_of_cons.
    + apply H2, S3. lia.
    + apply (H3 ltac:(lia) u' p' Hin).
Qed.


End FetcherLoop.

Lemma download_list_distinct_witness :
  NoDup (map fst [(Fetcher.url_13863, Fetcher.path_13863)])
  /\ (Fetcher.url_13863 ∈ map fst [(Fetcher.url_13863, Fetcher.path_13863)]
      <-> exists c, c ∈ [Str Fetcher.url_13863; NaN; Str Fetcher.url_13863]
                    /\ Fetcher.url_13863 ∈ Fetcher.cell_urls c).
Proof.
  destruct (download_list_distinct Paths.urlparse_path_std
              [Str Fetcher.url_13863; NaN; Str Fetcher.url_13863]
              [(Fetcher.url_13863, Fetcher.path_13863)]) as [Hnd Hmem].
  - vm_compute. reflexivity.
  - split; [exact Hnd|exact (Hmem Fetcher.url_13863)].
Defined.

Lemma download_paths_in_output_dir_witness :
  exists name,
    Fetcher.url_to_filename Paths.urlparse_path_std Fetcher.url_13863 = Ok name
    /\ Paths.has_slash name = false
    /\ Fetcher.path_13863 = Fetcher.OUTPUT_DIR +:+ "/" +:+ name.
Proof.
  apply (download_paths_in_output_dir Paths.urlparse_path_std
           [Str Fetcher.url_13863] [(Fetcher.url_13863, Fetcher.path_13863)]).
  - vm_compute. reflexivity.
  - apply list_elem_of_here.
Defined.

Lemma download_keeps_files_witness :
  Fetcher.files
    (Fetcher.download_all Fetcher.http_always
       {[ Fetcher.path_13863 := "kept" ]}
       [(Fetcher.url_13863, Fetcher.path_13863);
        (Fetcher.url_28432, Fetcher.path_28432)]) !! Fetcher.path_13863
  = ({[ Fetcher.path_13863 := "kept" ]} : gmap string string) !! Fetcher.path_13863.
Proof.
  apply (download_keeps_files Fetcher.http_always). vm_compute. reflexivity.
Defined.


(* ================================================================== *)
(** * Stage 4: where the records of a document come from *)
(* ================================================================== *)

Section ExtractorMore.

Import Paths Extractor.

Lemma fold_left_preserves_in {A B : Type} (P : A -> Prop) (f : A -> B -> A)
    (l : list B) (a : A) :
  (forall a b, b ∈ l -> P a -> P (f a b)) -> P a -> P (fold_left f l a).
Proof.
  revert a. induction l as [|b l IH]; intros a Hf Ha; simpl; [done|].
  apply IH.
  - intros a' b' Hb'. apply Hf. by apply list_elem_of_further.
  - apply Hf; [apply list_elem_of_here|done].
Qed.

(** X12.  [_get_amendment_instruction] returns the text of the nearest
    earlier sibling of class amendment-part that has a text, and the
    empty string when no earlier sibling of that class has one. *)
Theorem amendment_instruction_nearest (o : occ) :
  (_get_amendment_instruction o = EmptyString
   /\ forall p, p ∈ prev_sibs o ->
        is_Tag p && has_class "amendment-part" p = true ->
        get_text_sep p = EmptyString)
  \/ exists i p,
       prev_sibs o !! i = Some p
       /\ is_Tag p && has_class "amendment-part" p = true
       /\ get_text_sep p <> EmptyString
       /\ _get_amendment_instruction o = get_text_sep p
       /\ forall j q, (j < i)%nat -> prev_sibs o !! j = Some q ->
            is_Tag q && has_class "amendment-part" q = true ->
            get_text_sep q = EmptyString.
Proof.
  unfold _get_amendment_instruction.
  induction (prev_sibs o) as [|p sibs IH]; cbn [first_instruction_before].
  - left. split; [done|]. by intros p ?%elem_of_nil.
  - destruct (is_Tag p && has_class "amendment-part" p) eqn:Hp.
    + destruct (is_empty (get_text_sep p)) eqn:Ht.
      * apply is_empty_true in Ht.
        destruct IH as [[Hi Hall]|(i & q & Hi & Hq & Hne & Heq & Hbefore)].
        -- left. split; [done|].
           intros q [->|Hq]%elem_of_cons; [done|]. by apply Hall.
        -- right. exists (S i), q. repeat split; try done.
           intros [|j] q' Hj; simpl.
           ++ by intros [= <-].
           ++ apply Hbefore. lia.
      * apply is_empty_false in Ht. right. exists 0%nat, p.
        repeat split; try done. intros j q Hj. lia.
    + destruct IH as [[Hi Hall]|(i & q & Hi & Hq & Hne & Heq & Hbefore)].
      * left. split; [done|].
        intros q [->|Hq]%elem_of_cons; [congruence|]. by apply Hall.
      * right. exists (S i), q. repeat split; try done.
        intros [|j] q' Hj; simpl.
        -- intros [= <-]. congruence.
        -- apply Hbefore. lia.
Qed.

Lemma match_section_shape (s m : string) (len : nat) :
  match_section_at s = Some (m, len) -> section_shape m = true.
Proof.
  unfold match_section_at. destruct s as [|c0 r0]; [done|].
  destruct (_ && _); [|done].
  destruct (break_at _ _).1; [done|].
  destruct (break_at _ _).2 as [|d1 [|d2 [|d3 [|dot [|d4 r3]]]]]; try done.
  destruct (is_digit d1 && is_digit d2 && is_digit d3 && (code dot =? 46)%N
            && is_digit d4) eqn:Hd; [|done].
  intros [= <- _]. exact Hd.
Qed.

Lemma findall_shape (k : nat) (s m : string) :
  m ∈ findall_from k s -> section_shape m = true.
Proof.
  revert k. induction s as [|c s IH]; intros k; cbn [findall_from].
  - by intros ?%elem_of_nil.
  - destruct k as [|k]; [|apply IH].
    destruct (match_section_at (String c s)) as [[m' len]|] eqn:Hm; [|apply IH].
    intros [->|Hin]%elem_of_cons; [by eapply match_section_shape|by eapply IH].
Qed.

Lemma section_fold_none (am : gmap string info) (l : list occ)
    (st : list section_rec * gset string) :
  (forall o, o ∈ l -> section_num_of (here o) = None) ->
  fold_left (section_step am) l st = st.
Proof.
  revert st. induction l as [|o l IH]; intros st Hnone; [done|].
  cbn [fold_left]. rewrite IH.
  - unfold section_step. destruct st. by rewrite (Hnone o (list_elem_of_here _ _)).
  - intros o' Ho'. by apply Hnone, list_elem_of_further.
Qed.

(** What a record of the fallback is. *)
Local Abbreviation from_paragraph doc r :=
  (sec_content r = EmptyString
   /\ section_shape (affected_dfars_section r) = true
   /\ exists p, p ∈ flat_forest doc
        /\ is_tag "p" "amendment-part" p = true
        /\ amendment_instruction r = get_text_sep p
        /\ affected_dfars_section r ∈ findall_sections (get_text_sep p)).

(** X13.  In a document where no section div carries a section number,
    every record comes from the regular expression: its section number
    is one the expression finds in the text of an amendment paragraph of
    the document, three digits, a dot and a digit at its head; that text
    is its instruction, and its content is empty. *)
Theorem fallback_records (doc : list node) (r : section_rec) :
  (forall o, o ∈ section_divs doc -> section_num_of (here o) = None) ->
  r ∈ extract_dfars_sections doc ->
  from_paragraph doc r.
Proof.
  intros Hnone. unfold extract_dfars_sections.
  rewrite section_fold_none by done.
  revert r.
  apply (fold_left_preserves_in
           (fun st => forall r, r ∈ st.1 -> from_paragraph doc r)).
  - intros st p Hp Hst. unfold fallback_step.
    apply list_elem_of_filter in Hp as [Htag Hp].
    apply (fold_left_preserves_in
             (fun st => forall r, r ∈ st.1 -> from_paragraph doc r)); [|done].
    intros [results seen] m Hm Hres. unfold fallback_match.
    destruct (decide (m ∈ seen)); [done|]. simpl.
    intros r [Hr|Hr]%elem_of_app; [by apply Hres|].
    apply list_elem_of_singleton in Hr as ->. simpl. split; [done|]. split; [by eapply findall_shape|]. by exists p.
  - by intros r ?%elem_of_nil.
Qed.

(** X14.  In a document where a section div carries a section number,
    the paragraphs are not searched: every record is the one built from a
    section div that carries the record's number. *)
Theorem primary_records (doc : list node) (o0 : occ) (s0 : string) (r : section_rec) :
  o0 ∈ section_divs doc ->
  section_num_of (here o0) = Some s0 ->
  r ∈ extract_dfars_sections doc ->
  exists o,
    o ∈ section_divs doc
    /\ section_num_of (here o) = Some (affected_dfars_section r)
    /\ r = build_rec (_collect_amended_section_instructions doc)
             (affected_dfars_section r) o.
Proof.
  intros Ho0 Hs0. unfold extract_dfars_sections.
  assert (exists i, section_divs doc !! i = Some o0) as [i Hi]
    by by apply list_elem_of_lookup.
  assert (exists j o1, section_divs doc !! j = Some o1
            /\ section_num_of (here o1) = Some s0
            /\ forall k o', (k < j)%nat -> section_divs doc !! k = Some o' ->
                 section_num_of (here o') <> Some s0) as (j & o1 & Hj & Hs1 & Hfirst).
  { clear Ho0. revert i Hi. induction (section_divs doc) as [|x l IH]; intros i Hi.
    - by rewrite lookup_nil in Hi.
    - destruct (decide (section_num_of (here x) = Some s0)) as [Hx|Hx].
      + exists 0%nat, x. repeat split; try done. intros k o' Hk. lia.
      + destruct i as [|i]; [simpl in Hi; congruence|].
        destruct (IH i Hi) as (j & o1 & Hj & Hs1 & Hfirst).
        exists (S j), o1. repeat split; try done.
        intros [|k] o' Hk; simpl; [by intros [= <-]|]. apply Hfirst. lia. }
  pose proof (section_fold_first (_collect_amended_section_instructions doc)
                (section_divs doc) ([], ∅) j o1 s0 Hj Hs1 Hfirst
                (not_elem_of_empty _)) as Hin.
  assert (forall r, r ∈ (fold_left
             (section_step (_collect_amended_section_instructions doc))
             (section_divs doc) ([], ∅)).1 ->
           exists o, o ∈ section_divs doc
             /\ section_num_of (here o) = Some (affected_dfars_section r)
             /\ r = build_rec (_collect_amended_section_instructions doc)
                      (affected_dfars_section r) o) as Hall.
  { apply (fold_left_preserves_in
             (fun st => forall r, r ∈ st.1 ->
                exists o, o ∈ section_divs doc
                  /\ section_num_of (here o) = Some (affected_dfars_section r)
                  /\ r = build_rec (_collect_amended_section_instructions doc)
                           (affected_dfars_section r) o)).
    - intros [results seen] o Ho Hres. unfold section_step.
      destruct (section_num_of (here o)) as [s|] eqn:Hs; [|done].
      destruct (decide (s ∈ seen)); [done|]. simpl.
      intros r' [Hr|Hr]%elem_of_app; [by apply Hres|].
      apply list_elem_of_singleton in Hr as ->. exists o. by rewrite build_rec_section.
    - by intros r' ?%elem_of_nil. }
  destruct (fold_left _ (section_divs doc) ([], ∅)) as [results seen].
  simpl in Hin, Hall. destruct results as [|r0 results]; [by apply elem_of_nil in Hin|].
  apply Hall.
Qed.

End ExtractorMore.

Lemma fallback_records_witness :
  Extractor.sec_content
    {| Extractor.affected_dfars_section := "217.103-1";
       Extractor.amendment_instruction :=
         "2. Amend section 216.102 and section 217.103-1 by removing x.";
       Extractor.sec_content := "" |} = EmptyString
  /\ Extractor.section_shape "217.103-1" = true
  /\ exists p, p ∈ Extractor.flat_forest Extractor.doc_plain
       /\ Extractor.is_tag "p" "amendment-part" p = true
       /\ "2. Amend section 216.102 and section 217.103-1 by removing x."
          = Extractor.get_text_sep p
       /\ "217.103-1" ∈ Extractor.findall_sections (Extractor.get_text_sep p).
Proof.
  apply (fallback_records Extractor.doc_plain
           {| Extractor.affected_dfars_section := "217.103-1";
              Extractor.amendment_instruction :=
                "2. Amend section 216.102 and section 217.103-1 by removing x.";
              Extractor.sec_content := "" |}).
  - intros o Ho.
    assert (Extractor.section_divs Extractor.doc_plain = []) as E by reflexivity.
    rewrite E in Ho. by apply elem_of_nil in Ho.
  - vm_compute. apply list_elem_of_further, list_elem_of_here.
Defined.

Lemma primary_records_witness :
  exists o,
    o ∈ Extractor.section_divs Extractor.doc_amended
    /\ Extractor.section_num_of (Extractor.here o) = Some "216.103"
    /\ {| Extractor.affected_dfars_section := "216.103";
          Extractor.amendment_instruction := "3. Amend section 216.103 by-";
          Extractor.sec_content := "a. Removing x;" +:+ nl +:+ "b. Adding y." |}
       = Extractor.build_rec
           (Extractor._collect_amended_section_instructions Extractor.doc_amended)
           "216.103" o.
Proof.
  apply (primary_records Extractor.doc_amended Extractor.occ_amended "216.103"
           {| Extractor.affected_dfars_section := "216.103";
              Extractor.amendment_instruction := "3. Amend section 216.103 by-";
              Extractor.sec_content := "a. Removing x;" +:+ nl +:+ "b. Adding y." |}).
  - change (Extractor.section_divs Extractor.doc_amended)
      with [Extractor.occ_amended].
    apply list_elem_of_here.
  - reflexivity.
  - vm_compute. apply list_elem_of_here.
Defined.

(* ================================================================== *)
(** * Stage 4: the summary column and the document ids *)
(* ================================================================== *)

Section ExtractorRows.

Import Paths Extractor.

Variable urlparse_path : string -> res string.
Variable html_dir : gmap string (list node).

Local Abbreviation url_step := (url_step urlparse_path html_dir).
Local Abbreviation url_loop := (url_loop urlparse_path html_dir).
Local Abbreviation row_step := (row_step urlparse_path html_dir).
Local Abbreviation row_loop := (row_loop urlparse_path html_dir).

Lemma mem_spec (x : string) (l : list string) : mem x l = true <-> x ∈ l.
Proof.
  unfold mem. rewrite existsb_exists. split.
  - intros (y & Hy & ->%String.eqb_eq). by apply list_elem_of_In.
  - intros Hx. exists x. split; [by apply list_elem_of_In|apply String.eqb_refl].
Qed.

Lemma add_section_fold (sections : list section_rec) (rs : list string) :
  NoDup rs ->
  NoDup (fold_left add_section sections rs)
  /\ forall s, s ∈ fold_left add_section sections rs
               <-> s ∈ rs \/ s ∈ map affected_dfars_section sections.
Proof.
  revert rs. induction sections as [|r sections IH]; intros rs Hnd; cbn [fold_left].
  - split; [done|]. intros s. simpl. rewrite elem_of_nil. tauto.
  - unfold add_section at 2 4.
    destruct (mem (affected_dfars_section r) rs) eqn:Hm.
    + apply mem_spec in Hm. destruct (IH rs Hnd) as [H1 H2]. split; [done|].
      intros s. rewrite H2. simpl. rewrite elem_of_cons.
      split; [tauto|]. intros [?|[->|?]]; tauto.
    + assert (affected_dfars_section r ∉ rs) as Hnew.
      { intros Hin%mem_spec. congruence. }
      destruct (IH (rs ++ [affected_dfars_section r])) as [H1 H2].
      { apply NoDup_app. split; [done|]. split; [|apply NoDup_singleton].
        intros x Hx [->|[]%elem_of_nil]%elem_of_cons. done. }
      split; [done|]. intros s. rewrite H2, elem_of_app, list_elem_of_singleton.
      simpl. rewrite elem_of_cons. tauto.
Qed.

(** The invariant of the loop over the URLs of a row. *)
Local Abbreviation summarized st :=
  (NoDup (row_sections st)
   /\ forall s : string,
        s ∈ row_sections st
        <-> s ∈ map d_affected_dfars_section (row_details st)).

Lemma url_step_summarized (idx : nat) (row : df_row) (st st' : row_state) (url : string) :
  url_step idx row st url = Ok st' -> summarized st -> summarized st'.
Proof.
  unfold Extractor.url_step.
  destruct (_extract_doc_id_from_url urlparse_path url) as [[doc_id|]|e];
    cbn [res_bind]; [| by intros [= <-] | done].
  destruct (html_dir !! (doc_id +:+ ".html")) as [doc|]; [|by intros [= <-]].
  destruct (extract_dfars_sections doc) as [|r rs] eqn:Hsec; [by intros [= <-]|].
  intros [= <-] [Hnd Hmem]. cbn [row_sections row_details].
  destruct (add_section_fold (r :: rs) (row_sections st) Hnd) as [H1 H2].
  split; [done|]. intros s. rewrite H2, map_app, elem_of_app, Hmem.
  simpl. by rewrite map_map.
Qed.

Lemma url_loop_summarized (idx : nat) (row : df_row) (urls : list string)
    (st st' : row_state) :
  url_loop idx row st urls = Ok st' -> summarized st -> summarized st'.
Proof.
  revert st. induction urls as [|url urls IH]; intros st; cbn [Extractor.url_loop].
  - by intros [= <-].
  - destruct (url_step idx row st url) as [st1|e] eqn:Hstep; [|done].
    cbn [res_bind]. intros Hloop Hst. apply (IH _ Hloop).
    by apply (url_step_summarized _ _ _ _ _ Hstep).
Qed.

(** X15.  After the loop over the URLs of a tracker row, the sections
    of the summary cell are distinct and are the affected sections of
    the detail rows added for that tracker row. *)
Theorem row_summary_sections (idx : nat) (row : df_row) (urls : list string)
    (st : row_state) :
  url_loop idx row
    {| row_sections := []; row_has_data := false;
       row_details := []; row_skipped := [] |} urls = Ok st ->
  NoDup (row_sections st)
  /\ forall s, s ∈ row_sections st
               <-> exists d, d ∈ row_details st /\ d_affected_dfars_section d = s.
Proof.
  intros Hloop. destruct (url_loop_summarized _ _ _ _ _ Hloop) as [Hnd Hmem].
  { split; [constructor|]. done. }
  split; [done|]. intros s. rewrite Hmem, list_elem_of_fmap. split.
  - intros (d & -> & Hd). by exists d.
  - intros (d & Hd & <-). by exists d.
Qed.

Lemma row_loop_lengths (rows : list df_row) (acc acc' : out) (idx : nat) :
  row_loop acc idx rows = Ok acc' ->
  (length (affected_sections_col acc')
   = length (affected_sections_col acc) + length rows
   /\ processed_count acc' <= processed_count acc + length rows)%nat.
Proof.
  revert acc idx. induction rows as [|row rows IH]; intros acc idx; cbn [Extractor.row_loop].
  - intros [= <-]. simpl. lia.
  - destruct (row_step acc idx row) as [acc1|e] eqn:Hstep; [|done].
    cbn [res_bind]. intros Hloop. destruct (IH _ _ Hloop) as [H1 H2].
    unfold Extractor.row_step in Hstep.
    destruct (Extractor.url_loop _ _ _ _ _ _) as [st|e]; [|done].
    cbn [res_bind] in Hstep. injection Hstep as <-.
    cbn [affected_sections_col processed_count] in *.
    rewrite length_app in H1. cbn [length] in *.
    destruct (row_has_data st); lia.
Qed.

(** X16.  A run that ends gives the summary column one cell per tracker
    row, and counts at most that many rows as processed. *)
Theorem summary_one_cell_per_row (df : list df_row) (o : out) :
  extract_main urlparse_path html_dir df = Ok o ->
  (length (affected_sections_col o) = length df
   /\ processed_count o <= length df)%nat.
Proof.
  unfold extract_main. intros H%row_loop_lengths. simpl in H. lia.
Qed.

End ExtractorRows.

Section DocIdMore.

Import Paths Extractor.

Variable urlparse_path : string -> res string.

(** X17.  A document id is never empty and holds no slash, so the file
    the extractor opens is a file directly in the cache directory; a
    blank URL has no document id. *)
Theorem doc_id_is_a_file_name :
  (forall url id,
      _extract_doc_id_from_url urlparse_path url = Ok (Some id) ->
      id <> EmptyString /\ has_slash id = false)
  /\ (forall url,
        strip url = EmptyString ->
        _extract_doc_id_from_url urlparse_path url = Ok None).
Proof.
  split.
  - intros url id. unfold _extract_doc_id_from_url.
    destruct (is_empty (strip url)); [done|].
    destruct (urlparse_path (strip url)) as [path|e]; [|done]. cbn [res_bind].
    destruct (is_empty _) eqn:He; [done|]. intros [= <-].
    split; [by apply is_empty_false|].
    apply (replace_from_chars is_slash); [done|].
    rewrite last_segment_basename. apply basename_clean.
  - intros url Hurl. unfold _extract_doc_id_from_url. by rewrite Hurl.
Qed.

End DocIdMore.

Lemma row_summary_sections_witness :
  exists st,
    Extractor.url_loop Paths.urlparse_path_std Extractor.cache_one 0
      (Extractor.Build_df_row Fetcher.url_13863 "FY24" "831" "2024-D001")
      {| Extractor.row_sections := []; Extractor.row_has_data := false;
         Extractor.row_details := []; Extractor.row_skipped := [] |}
      [Fetcher.url_13863; Fetcher.url_13863] = Ok st
    /\ NoDup (Extractor.row_sections st)
    /\ forall s, s ∈ Extractor.row_sections st
         <-> exists d, d ∈ Extractor.row_details st
                       /\ Extractor.d_affected_dfars_section d = s.
Proof.
  eexists. split; [vm_compute; reflexivity|].
  apply (row_summary_sections Paths.urlparse_path_std Extractor.cache_one 0
           (Extractor.Build_df_row Fetcher.url_13863 "FY24" "831" "2024-D001")
           [Fetcher.url_13863; Fetcher.url_13863]).
  vm_compute. reflexivity.
Defined.

Lemma summary_one_cell_per_row_witness :
  exists o,
    Extractor.extract_main Paths.urlparse_path_std Extractor.cache_one
      Extractor.two_rows_one_rule = Ok o
    /\ (length (Extractor.affected_sections_col o) = 2
        /\ Extractor.processed_count o <= 2)%nat.
Proof.
  eexists. split; [vm_compute; reflexivity|].
  apply (summary_one_cell_per_row Paths.urlparse_path_std Extractor.cache_one
           Extractor.two_rows_one_rule).
  vm_compute. reflexivity.
Defined.

Lemma doc_id_is_a_file_name_witness :
  ("2024-13863" <> EmptyString /\ Paths.has_slash "2024-13863" = false)
  /\ Extractor._extract_doc_id_from_url Paths.urlparse_path_std "  " = Ok None.
Proof.
  destruct (doc_id_is_a_file_name Paths.urlparse_path_std) as [Hid Hblank]. split.
  - apply (Hid Fetcher.url_13863). vm_compute. reflexivity.
  - apply Hblank. reflexivity.
Defined.

(* ================================================================== *)
(** * Stage 5: section enums, years, texts and counters *)
(* ================================================================== *)

Section EnumsAndYears.

Import Joiner.

Lemma span_digits_all (s : string) : all_digits (span_digits s).1 = true.
Proof.
  unfold all_digits. induction s as [|c s IH]; [done|]. simpl.
  destruct (is_digit c) eqn:Hc; [|done].
  destruct (span_digits s) as [ds r]. simpl in *. by rewrite Hc, IH.
Qed.

Lemma digit_val_nonneg (c : ascii) : is_digit c = true -> 0 <= digit_val c <= 9.
Proof.
  unfold is_digit, digit_val. intros [H1%N.leb_le H2%N.leb_le]%andb_true_iff. lia.
Qed.

Lemma int_of_digits_nonneg (ds : string) :
  all_digits ds = true -> 0 <= int_of_digits ds.
Proof.
  unfold all_digits, int_of_digits.
  assert (forall l acc, forallb is_digit l = true -> 0 <= acc ->
            0 <= fold_left (fun acc c => 10 * acc + digit_val c) l acc) as H.
  { induction l as [|c l IH]; intros acc Hl Hacc; [done|]. simpl in *.
    apply andb_true_iff in Hl as [Hc Hl]. apply IH; [done|].
    pose proof (digit_val_nonneg c Hc). lia. }
  intros Hds. by apply H.
Qed.

(** X18.  [parse_section_enum] keeps the digits at the head of the
    section reference and adds a dot, whatever follows them, as for
    "831(a)(2)" and "2881"; a reference that does not start with a digit
    has no enum. *)
Theorem parse_section_enum_head :
  parse_section_enum "831(a)(2)" = Some "831."
  /\ parse_section_enum "2881" = Some "2881."
  /\ (forall ds rest : string,
        ds <> EmptyString -> all_digits ds = true ->
        starts_with_digit rest = false ->
        parse_section_enum (ds +:+ rest) = Some (ds +:+ "."))
  /\ (forall s : string,
        starts_with_digit s = false -> parse_section_enum s = None).
Proof.
  split; [reflexivity|]. split; [reflexivity|]. split.
  - intros ds rest Hne Hds Hrest. unfold parse_section_enum.
    rewrite span_digits_app by done. by destruct ds.
  - intros s Hs. unfold parse_section_enum.
    destruct s as [|c s]; [done|]. simpl in *. by rewrite Hs.
Qed.

Lemma parse_section_enum_head_witness :
  parse_section_enum ("1502" +:+ "(b)") = Some ("1502" +:+ ".")
  /\ parse_section_enum "Sec. 5" = None.
Proof.
  destruct parse_section_enum_head as (_ & _ & Hhead & Hnone). split.
  - apply Hhead; [discriminate|reflexivity|reflexivity].
  - apply Hnone. reflexivity.
Defined.

Lemma parse_fy_some (s : string) (n : Z) :
  parse_fy s = Some n ->
  exists rest,
    s = String "F" (String "Y" rest)
    /\ (span_digits rest).1 <> EmptyString
    /\ n = if int_of_digits (span_digits rest).1 <? 100
           then 2000 + int_of_digits (span_digits rest).1
           else int_of_digits (span_digits rest).1.
Proof.
  unfold parse_fy.
  destruct s as [|c1 [|c2 rest]];
    try (intros H; exfalso; revert H;
         first [discriminate
               | destruct c1 as [[] [] [] [] [] [] [] []]; discriminate]).
  destruct (ascii_dec c1 "F") as [->|Hc1].
  - destruct (ascii_dec c2 "Y") as [->|Hc2].
    + destruct (span_digits rest) as [ds r] eqn:Hspan. simpl.
      destruct ds as [|d ds]; [done|]. intros [= <-]. exists rest.
      rewrite Hspan. done.
    + intros H. exfalso. revert H.
      destruct c2 as [[] [] [] [] [] [] [] []]; try discriminate. by destruct Hc2.
  - intros H. exfalso. revert H.
    destruct c1 as [[] [] [] [] [] [] [] []]; try discriminate. by destruct Hc1.
Qed.

(** X19.  A fiscal year that [parse_fy] returns is never below 100:
    shorter numbers are moved to 2000 and later. *)
Theorem parse_fy_at_least_100 (s : string) (n : Z) :
  parse_fy s = Some n -> 100 <= n.
Proof.
  intros (rest & _ & _ & ->)%parse_fy_some.
  pose proof (int_of_digits_nonneg _ (span_digits_all rest)).
  destruct (Z.ltb_spec (int_of_digits (span_digits rest).1) 100); lia.
Qed.

Lemma parse_fy_at_least_100_witness : 100 <= 2007.
Proof. apply (parse_fy_at_least_100 "FY7"). reflexivity. Defined.

End EnumsAndYears.

Section JoinerMore.

Import Joiner.

Variable ndaa_doc : Type.
Variable ndaa_sec : Type.
Variable load_ndaa : Z -> option ndaa_doc.
Variable find_sections : ndaa_doc -> string -> list ndaa_sec.
Variable get_section_text_flat : ndaa_sec -> string.

Local Abbreviation lookup_ndaa_text :=
  (lookup_ndaa_text ndaa_doc ndaa_sec load_ndaa find_sections get_section_text_flat).
Local Abbreviation text_of_pair :=
  (text_of_pair ndaa_doc ndaa_sec load_ndaa find_sections get_section_text_flat).
Local Abbreviation lookup_step :=
  (lookup_step ndaa_doc ndaa_sec load_ndaa find_sections get_section_text_flat).
Local Abbreviation join_main :=
  (join_main ndaa_doc ndaa_sec load_ndaa find_sections get_section_text_flat).
Local Abbreviation state := (state ndaa_doc).
Local Abbreviation cache_loaded c :=
  (forall (y : Z) (v : option ndaa_doc), c !! y = Some v -> v = load_ndaa y).

Lemma prefix_bracket (s : string) : String.prefix "[" (String "[" s) = true.
Proof. rewrite prefix_cons, prefix_nil. by destruct (ascii_dec "[" "["). Qed.

(** The text of a pair is an error marker in brackets, or the flat text
    of the first section found under the enum of the pair. *)
Lemma text_of_pair_cases (pair : string * string) :
  String.prefix "[" (text_of_pair pair) = true
  \/ exists y d enum s rest,
       parse_fy pair.1 = Some y
       /\ load_ndaa y = Some d
       /\ parse_section_enum pair.2 = Some enum
       /\ find_sections d enum = s :: rest
       /\ text_of_pair pair = get_section_text_flat s.
Proof.
  unfold Joiner.text_of_pair, Joiner.lookup_ndaa_text.
  destruct (parse_fy pair.1) as [y|] eqn:Hy; [|left; apply prefix_bracket].
  rewrite lookup_empty.
  destruct (load_ndaa y) as [d|] eqn:Hd; [|left; apply prefix_bracket].
  cbn [fst]. unfold lookup_in.
  destruct (parse_section_enum pair.2) as [enum|] eqn:He; [|left; apply prefix_bracket].
  destruct (find_sections d enum) as [|s rest] eqn:Hs; [left; apply prefix_bracket|].
  right. by exists y, d, enum, s, rest.
Qed.

(** X20.  Every row the joiner writes carries an error marker that
    starts with a bracket, or the flat text of the first section that the
    statute of its year lists under the enum of its section. *)
Theorem row_text_marker_or_section
    (rows : list Extractor.detail) (row : Extractor.detail) (text : string) :
  (row, text) ∈ (join_main rows).1 ->
  String.prefix "[" text = true
  \/ exists y d enum s rest,
       parse_fy (Extractor.d_ndaa_year row) = Some y
       /\ load_ndaa y = Some d
       /\ parse_section_enum (Extractor.d_ndaa_section row) = Some enum
       /\ find_sections d enum = s :: rest
       /\ text = get_section_text_flat s.
Proof.
  unfold Joiner.join_main, lookup_all. cbn [fst].
  intros (row' & Heq & Hrow')%list_elem_of_fmap.
  unfold with_text in Heq. injection Heq as -> ->.
  destruct (sorted_unique_pairs_spec rows) as [_ Hin].
  destruct (lookup_fold ndaa_doc ndaa_sec load_ndaa find_sections
              get_section_text_flat (sorted_unique_pairs rows)
              {| ndaa_cache := ∅; text_cache := ∅; found := 0%nat;
                 not_found := 0%nat; lookups := [] |}) as [_ Htext].
  { cbn. intros y v. by rewrite lookup_empty. }
  rewrite Htext, decide_True by (apply Hin; by exists row').
  apply (text_of_pair_cases (key_of row')).
Qed.

Lemma lookup_step_counts (st : state) (pair : string * string) :
  cache_loaded (ndaa_cache _ st) ->
  (found _ (lookup_step st pair)
   = if String.prefix "[" (text_of_pair pair) then found _ st else S (found _ st))
  /\ (not_found _ (lookup_step st pair)
      = if String.prefix "[" (text_of_pair pair)
        then S (not_found _ st) else not_found _ st).
Proof.
  intros Hc. destruct pair as [fy sec].
  destruct (lookup_ndaa_text_cached ndaa_doc ndaa_sec load_ndaa find_sections
              get_section_text_flat (ndaa_cache _ st) fy sec Hc) as [Ht _].
  unfold Joiner.lookup_step. cbn [fst snd].
  destruct (lookup_ndaa_text (ndaa_cache ndaa_doc st) fy sec) as [text cache'].
  cbn [fst found not_found] in *. by subst text.
Qed.

Lemma lookup_fold_counts (l : list (string * string)) (st : state) :
  cache_loaded (ndaa_cache _ st) ->
  (found _ (fold_left lookup_step l st) + not_found _ (fold_left lookup_step l st)
   = found _ st + not_found _ st + length l
   /\ not_found _ (fold_left lookup_step l st)
      = not_found _ st
        + length (filter (fun k => String.prefix "[" (text_of_pair k) = true) l))%nat.
Proof.
  revert st. induction l as [|pair l IH]; intros st Hc; cbn [fold_left].
  - simpl. lia.
  - destruct (lookup_step_spec ndaa_doc ndaa_sec load_ndaa find_sections
                get_section_text_flat st pair Hc) as (Hc1 & _ & _).
    destruct (IH _ Hc1) as [H1 H2].
    destruct (lookup_step_counts st pair Hc) as [F N].
    rewrite H1, H2, F, N.
    destruct (String.prefix "[" (text_of_pair pair)) eqn:Hp.
    + rewrite filter_cons_True by done. simpl. lia.
    + rewrite filter_cons_False by (rewrite Hp; done). simpl. lia.
Qed.

(** X21.  The two counters of the joiner add up to the number of unique
    pairs, which is at most the number of rows; "not found" counts the
    pairs whose text starts with a bracket. *)
Theorem joiner_counters (rows : list Extractor.detail) :
  (found _ (join_main rows).2 + not_found _ (join_main rows).2
   = length (sorted_unique_pairs rows)
   /\ length (sorted_unique_pairs rows) <= length rows
   /\ not_found _ (join_main rows).2
      = length (filter (fun k => String.prefix "[" (text_of_pair k) = true)
                  (sorted_unique_pairs rows)))%nat.
Proof.
  unfold Joiner.join_main, lookup_all. cbn [snd].
  destruct (lookup_fold_counts (sorted_unique_pairs rows)
              {| ndaa_cache := ∅; text_cache := ∅; found := 0%nat;
                 not_found := 0%nat; lookups := [] |}) as [H1 H2].
  { cbn. intros y v. by rewrite lookup_empty. }
  cbn [found not_found] in *. split; [lia|]. split; [|lia].
  unfold sorted_unique_pairs. rewrite merge_sort_Permutation.
  rewrite <- (length_map key_of rows).
  apply submseteq_length, NoDup_submseteq; [apply NoDup_elements|].
  intros x. by rewrite elem_of_elements, elem_of_list_to_set.
Qed.

(** X22.  The cache of loaded years only grows: a lookup leaves every
    cached year as it is; after a lookup whose fiscal year parses, that
    year is cached with what [load_ndaa] answered, a missing file
    included; and a lookup whose year is already cached, or does not
    parse, leaves the cache unchanged. *)
Theorem lookup_cache_memo
    (cache : gmap Z (option ndaa_doc)) (fy_str section_str : string) :
  cache_loaded cache ->
  (forall y v, cache !! y = Some v ->
     (lookup_ndaa_text cache fy_str section_str).2 !! y = Some v)
  /\ (forall y, parse_fy fy_str = Some y ->
        (lookup_ndaa_text cache fy_str section_str).2 !! y = Some (load_ndaa y))
  /\ ((parse_fy fy_str = None
       \/ exists y, parse_fy fy_str = Some y /\ is_Some (cache !! y)) ->
      (lookup_ndaa_text cache fy_str section_str).2 = cache).
Proof.
  intros Hc. unfold Joiner.lookup_ndaa_text.
  destruct (parse_fy fy_str) as [fy|]; cbn [snd].
  - destruct (cache !! fy) as [v|] eqn:Hfy; cbn [snd].
    + split; [done|]. split; [|done].
      intros y [= <-]. rewrite Hfy. f_equal. by apply Hc.
    + assert (forall y v, cache !! y = Some v ->
                <[fy := load_ndaa fy]> cache !! y = Some v) as Hgrow.
      { intros y v Hy. rewrite lookup_insert_ne; [done|]. congruence. }
      destruct (load_ndaa fy) as [d|] eqn:Hload; cbn [snd].
      * split; [done|]. split.
        -- intros y [= <-]. by rewrite lookup_insert_eq, Hload.
        -- intros [?|(y & [= <-] & [v Hv])]; congruence.
      * split; [done|]. split.
        -- intros y [= <-]. by rewrite lookup_insert_eq, Hload.
        -- intros [?|(y & [= <-] & [v Hv])]; congruence.
  - split; [done|]. split; [done|done].
Qed.

End JoinerMore.

Lemma row_text_marker_or_section_witness :
  String.prefix "[" "SEC. 831. EXAMPLE TEXT" = true
  \/ exists y d enum s rest,
       Joiner.parse_fy (Extractor.d_ndaa_year (Joiner.detail_row "FY24" "831(a)(2)"))
       = Some y
       /\ Joiner.load_one y = Some d
       /\ Joiner.parse_section_enum
            (Extractor.d_ndaa_section (Joiner.detail_row "FY24" "831(a)(2)"))
          = Some enum
       /\ Joiner.find_one d enum = s :: rest
       /\ "SEC. 831. EXAMPLE TEXT" = snd s.
Proof.
  apply (row_text_marker_or_section _ _ Joiner.load_one Joiner.find_one snd
           Joiner.example_rows).
  vm_compute. apply list_elem_of_here.
Defined.

Lemma lookup_cache_memo_witness :
  (Joiner.lookup_ndaa_text _ _ Joiner.load_one Joiner.find_one snd ∅ "FY23" "1").2
    !! 2023 = Some (Joiner.load_one 2023)
  /\ (Joiner.lookup_ndaa_text _ _ Joiner.load_one Joiner.find_one snd
        {[ 2023 := None ]} "FY23" "1").2 = {[ 2023 := None ]}.
Proof.
  split.
  - apply (lookup_cache_memo _ _ Joiner.load_one Joiner.find_one snd ∅ "FY23" "1").
    + intros y v. by rewrite lookup_empty.
    + reflexivity.
  - apply (lookup_cache_memo _ _ Joiner.load_one Joiner.find_one snd
             {[ 2023 := None ]} "FY23" "1").
    + intros y v [[= <-] [= <-]]%lookup_singleton_Some. reflexivity.
    + right. exists 2023. split; [reflexivity|]. by rewrite lookup_singleton_eq.
Defined.

(* ================================================================== *)
(** * Sentinels, and the dictionary of amended sections *)
(* ================================================================== *)

Section Sentinels.

Import Resolver.

Variable api : string -> string -> api_response.

(** X23.  Each way a lookup of one citation can fail ends in the
    sentinel: a citation that is not a volume, " FR " and a page, a date
    that does not parse, a request to the API that raises, and no
    document starting on the page under either agency all give the title
    "Not Found" and an empty URL. *)
Theorem resolve_one_not_found (citation fr_date : string) :
  length (split " FR " (strip citation)) <> 2%nat
  \/ parse_fr_date fr_date = None
  \/ (exists iso_date, parse_fr_date fr_date = Some iso_date
        /\ api DARS iso_date = RequestException)
  \/ (exists iso_date volume page results,
        parse_fr_date fr_date = Some iso_date
        /\ split " FR " (strip citation) = [volume; page]
        /\ api DARS iso_date = Json results
        /\ page_match (strip page) results = None
        /\ (api DOD iso_date = RequestException
            \/ exists results', api DOD iso_date = Json results'
                 /\ page_match (strip page) results' = None)) ->
  resolve_one api (citation, fr_date) = ("Not Found", EmptyString).
Proof.
  intros H. unfold resolve_one, fetch_citation_by_date_and_page. cbn [fst snd].
  destruct H as [H|[H|[(iso & Hiso & Hapi)|(iso & v & p & rs & Hiso & Hsplit & Hapi & Hm & H)]]].
  - by destruct (split " FR " (strip citation)) as [|? [|? [|? ?]]].
  - rewrite H. by destruct (split " FR " (strip citation)) as [|? [|? [|? ?]]].
  - rewrite Hiso, Hapi. by destruct (split " FR " (strip citation)) as [|? [|? [|? ?]]].
  - rewrite Hsplit, Hiso, Hapi, Hm.
    destruct H as [->|(rs' & -> & ->)]; done.
Qed.

End Sentinels.

Lemma resolve_one_not_found_witness :
  Resolver.resolve_one Resolver.api_one ("88 FR 1", "12/26/23")
  = ("Not Found", EmptyString)
  /\ Resolver.resolve_one Resolver.api_one ("88FR73238", "12/26/23")
     = ("Not Found", EmptyString).
Proof.
  split.
  - apply resolve_one_not_found. right. right. right.
    exists "2023-12-26", "88", "1", [Resolver.doc_73238].
    repeat split; try reflexivity. right. exists []. by split.
  - apply resolve_one_not_found. left. vm_compute. lia.
Defined.

Section ServerDown.

Import Fetcher.

Variable http_get : string -> option string.

Lemma download_fold_down (dl : list (string * string)) (st : run) :
  (forall u, http_get u = None) ->
  files (fold_left (download_step http_get) dl st) = files st.
Proof.
  intros Hdown. revert st. induction dl as [|[u p] dl IH]; intros st; cbn [fold_left]; [done|].
  rewrite IH. unfold download_step.
  destruct (exists_nonempty (files st) p); [done|].
  unfold download_html. by rewrite Hdown.
Qed.

(** X24.  When every request raises, the run leaves the disk as it was:
    a failed download writes nothing. *)
Theorem download_down_disk_unchanged (fs : disk) (dl : list (string * string)) :
  (forall u, http_get u = None) ->
  files (download_all http_get fs dl) = fs.
Proof. intros Hdown. unfold download_all. by rewrite download_fold_down. Qed.

End ServerDown.

Lemma download_down_disk_unchanged_witness :
  Fetcher.files
    (Fetcher.download_all Fetcher.http_down
       {[ Fetcher.path_13863 := "" ]}
       [(Fetcher.url_13863, Fetcher.path_13863);
        (Fetcher.url_28432, Fetcher.path_28432)])
  = {[ Fetcher.path_13863 := "" ]}.
Proof. apply download_down_disk_unchanged. reflexivity. Defined.

Section CollectedLast.

Import Extractor.

Lemma collect_fold_unamended (l : list occ) (m : gmap string info) (s : string) :
  (forall j o', l !! j = Some o' -> is_amended (here o') = true ->
                section_num_of (here o') <> Some s) ->
  fold_left collect_step l m !! s = m !! s.
Proof.
  revert m. induction l as [|o0 l IH]; intros m Hno; [done|].
  cbn [fold_left]. rewrite IH.
  - unfold collect_step. destruct (is_amended (here o0)) eqn:Ham; [|done].
    destruct (section_num_of (here o0)) as [s0|] eqn:Hs0; [|done].
    rewrite lookup_insert_ne; [done|].
    intros ->. by apply (Hno 0%nat o0).
  - intros j o'. apply (Hno (S j)).
Qed.

Lemma collect_fold_last (l : list occ) (m : gmap string info)
    (i : nat) (o : occ) (s : string) :
  l !! i = Some o ->
  is_amended (here o) = true ->
  section_num_of (here o) = Some s ->
  (forall j o', (i < j)%nat -> l !! j = Some o' -> is_amended (here o') = true ->
                section_num_of (here o') <> Some s) ->
  fold_left collect_step l m !! s = Some (scan_info o).
Proof.
  revert m i. induction l as [|o0 l IH]; intros m i Hi Ham Hs Hlast.
  - by rewrite lookup_nil in Hi.
  - cbn [fold_left]. destruct i as [|i].
    + injection Hi as ->. rewrite collect_fold_unamended.
      * unfold collect_step. rewrite Ham, Hs. apply lookup_insert_eq.
      * intros j o' Hj. apply (Hlast (S j)); [lia|done].
    + apply (IH _ i); try done.
      intros j o' Hj. apply (Hlast (S j)). lia.
Qed.

(** X25.  The dictionary of [_collect_amended_section_instructions]
    holds, for a section number, what was scanned after the last
    [Amended] section div that carries the number; a number that no
    [Amended] section div carries has no entry. *)
Theorem collected_last_wins (doc : list node) :
  (forall i o s,
      section_divs doc !! i = Some o ->
      is_amended (here o) = true ->
      section_num_of (here o) = Some s ->
      (forall j o', (i < j)%nat -> section_divs doc !! j = Some o' ->
                    is_amended (here o') = true ->
                    section_num_of (here o') <> Some s) ->
      _collect_amended_section_instructions doc !! s
      = Some {| instruction := main_of (amendment_parts_after o);
                content := join nl (subs_of (amendment_parts_after o)) |})
  /\ (forall s,
        (forall j o', section_divs doc !! j = Some o' ->
                      is_amended (here o') = true ->
                      section_num_of (here o') <> Some s) ->
        _collect_amended_section_instructions doc !! s = None).
Proof.
  unfold _collect_amended_section_instructions. split.
  - intros i o s Hi Ham Hs Hlast.
    rewrite (collect_fold_last _ _ i o s Hi Ham Hs Hlast). f_equal.
    apply scan_info_spec.
  - intros s Hno. by rewrite collect_fold_unamended.
Qed.

End CollectedLast.

Lemma collected_last_wins_witness :
  Extractor._collect_amended_section_instructions Extractor.doc_amended !! "216.103"
  = Some {| Extractor.instruction :=
              Extractor.main_of (Extractor.amendment_parts_after Extractor.occ_amended);
            Extractor.content :=
              join nl (Extractor.subs_of
                         (Extractor.amendment_parts_after Extractor.occ_amended)) |}
  /\ Extractor._collect_amended_section_instructions Extractor.doc_revised !! "216.102"
     = None.
Proof.
  split.
  - apply (proj1 (collected_last_wins Extractor.doc_amended) 0%nat).
    + reflexivity.
    + reflexivity.
    + reflexivity.
    + intros j o' Hj Ho'. destruct j as [|j]; [lia|].
      change (Extractor.section_divs Extractor.doc_amended)
        with [Extractor.occ_amended] in Ho'.
      by rewrite lookup_cons, lookup_nil in Ho'.
  - apply (proj2 (collected_last_wins Extractor.doc_revised)).
    intros j o' Ho' Ham.
    assert (exists o, Extractor.section_divs Extractor.doc_revised = [o]
                      /\ Extractor.is_amended (Extractor.here o) = false)
      as (o & E & Hf) by (eexists; split; reflexivity).
    rewrite E in Ho'. destruct j as [|j].
    + injection Ho' as <-. congruence.
    + by rewrite lookup_cons, lookup_nil in Ho'.
Defined.
